(** * Digitarr: release checker and media requester

    A shallow embedding of the Python sources
    ([main.py], [riven_requester.py], [config_manager.py],
    [dvd_release_checker.py]) and the properties of the specification
    checked against it.

    Python dictionaries that come from JSON are insertion-ordered
    association lists over string keys; the two tables the code builds
    itself (the per-release outcome table and the map of Unknown items)
    are finite maps.  The network, the clock, the environment and the
    collaborators that are not embedded (the TMDB release checker, the
    filter engine, the Overseerr requester, the Discord notifier) are
    oracles of a [World]; the calls of a run are recorded in a trace of
    events.  Strings are ASCII. *)

From Stdlib Require Import ZArith QArith Lia Ascii.
From stdpp Require Import base option list strings gmap pretty.

Set Warnings "-register-all".
Open Scope string_scope.
Open Scope list_scope.
Open Scope Z_scope.

(** ** Python values *)

Module Py.

(** A Python [float]: not-a-number, an infinity, or a finite value given
    by its exact rational value. *)
Inductive pyfloat :=
| FNan
| FInf (negative : bool)
| FFin (q : Q).

(** The values JSON and the environment can produce. *)
Inductive pyval :=
| PNone
| PBool (b : bool)
| PInt (z : Z)
| PFloat (f : pyfloat)
| PStr (s : string)
| PList (l : list pyval)
| PDict (d : list (string * pyval)).

Definition pydict := list (string * pyval).

(** An exception instance: its class name and [str(e)].  All the
    exceptions modelled derive from [Exception]. *)
Record exn := Exn { exn_class : string; exn_msg : string }.

(** The result of a call that may raise. *)
Inductive outcome (A : Type) :=
| Val (a : A)
| Exc (e : exn).
Arguments Val {A} a.
Arguments Exc {A} e.

(** The builtins of the language that are taken as given:
    [repr] of floats and containers (what [str] falls back to),
    [float] applied to a numeric literal, and the rounding of float
    arithmetic: the float nearest to an exact result, an infinity when
    it is out of range. *)
Record Builtins := {
  py_repr : pyval → string;
  float_literal : string → option pyfloat;
  float_round : Q → pyfloat
}.

(** [d.get(k)] as an option, first binding wins. *)
Fixpoint dict_lookup (k : string) (d : pydict) : option pyval :=
  match d with
  | [] => None
  | (k', v) :: d' => if String.eqb k k' then Some v else dict_lookup k d'
  end.

(** [d[k] = v]: replaces the binding in place or appends a new one. *)
Fixpoint dict_set (k : string) (v : pyval) (d : pydict) : pydict :=
  match d with
  | [] => [(k, v)]
  | (k', v') :: d' =>
      if String.eqb k k' then (k, v) :: d' else (k', v') :: dict_set k v d'
  end.

(** [d.get(k)] and [d.get(k, default)]. *)
Definition py_get (d : pydict) (k : string) : pyval :=
  default PNone (dict_lookup k d).
Definition py_get_default (d : pydict) (k : string) (dflt : pyval) : pyval :=
  default dflt (dict_lookup k d).

(** [len(l)]. *)
Definition len {A} (l : list A) : Z := Z.of_nat (length l).

(** [bool(v)]. *)
Definition py_truthy (v : pyval) : bool :=
  match v with
  | PNone => false
  | PBool b => b
  | PInt z => negb (z =? 0)
  | PFloat FNan => true
  | PFloat (FInf _) => true
  | PFloat (FFin q) => negb (Qeq_bool q 0)
  | PStr s => negb (String.eqb s "")
  | PList l => match l with [] => false | _ => true end
  | PDict d => match d with [] => false | _ => true end
  end.

(** [v == s] for a string literal [s]. *)
Definition py_eq_str (v : pyval) (s : string) : bool :=
  match v with
  | PStr s' => String.eqb s' s
  | _ => false
  end.

(** [v < n] and [v > n] for an integer literal [n]; [None] is the
    [TypeError] of an unorderable operand.  Comparisons with NaN are
    false. *)
Definition py_lt_int (v : pyval) (n : Z) : option bool :=
  match v with
  | PBool b => Some (Z.b2z b <? n)
  | PInt z => Some (z <? n)
  | PFloat FNan => Some false
  | PFloat (FInf neg) => Some neg
  | PFloat (FFin q) => Some (negb (Qle_bool (inject_Z n) q))
  | _ => None
  end.

Definition py_gt_int (v : pyval) (n : Z) : option bool :=
  match v with
  | PBool b => Some (n <? Z.b2z b)
  | PInt z => Some (n <? z)
  | PFloat FNan => Some false
  | PFloat (FInf neg) => Some (negb neg)
  | PFloat (FFin q) => Some (negb (Qle_bool q (inject_Z n)))
  | _ => None
  end.

(** [lo <= v <= hi] as a proposition on numeric values. *)
Definition py_between (lo hi : Z) (v : pyval) : Prop :=
  match v with
  | PBool b => lo ≤ Z.b2z b ≤ hi
  | PInt z => lo ≤ z ≤ hi
  | PFloat (FFin q) => (inject_Z lo <= q)%Q ∧ (q <= inject_Z hi)%Q
  | _ => False
  end.

Section WithBuiltins.
Variable B : Builtins.

(** [str(v)]. *)
Definition py_str (v : pyval) : string :=
  match v with
  | PNone => "None"
  | PBool true => "True"
  | PBool false => "False"
  | PInt z => pretty z
  | PStr s => s
  | _ => py_repr B v
  end.
End WithBuiltins.

(** *** Strings (ASCII) *)

(** The ASCII characters [str.isspace] accepts. *)
Definition is_space (c : ascii) : bool :=
  let n := nat_of_ascii c in
  ((9 <=? n)%nat && (n <=? 13)%nat) || ((28 <=? n)%nat && (n <=? 32)%nat).

Fixpoint lstrip (s : string) : string :=
  match s with
  | String c s' => if is_space c then lstrip s' else s
  | EmptyString => EmptyString
  end.

(** [s.strip()]. *)
Definition strip (s : string) : string :=
  String.rev (lstrip (String.rev (lstrip s))).

Definition lower_char (c : ascii) : ascii :=
  let n := nat_of_ascii c in
  if ((65 <=? n)%nat && (n <=? 90)%nat)%bool then ascii_of_nat (n + 32) else c.

(** [s.lower()]. *)
Fixpoint lower (s : string) : string :=
  match s with
  | String c s' => String (lower_char c) (lower s')
  | EmptyString => EmptyString
  end.

(** [s.split(sep)] for a one-character separator. *)
Fixpoint split_on (sep : ascii) (s : string) : list string :=
  match s with
  | EmptyString => [EmptyString]
  | String c s' =>
      if Ascii.eqb c sep then EmptyString :: split_on sep s'
      else match split_on sep s' with
           | [] => [String c EmptyString]
           | w :: ws => String c w :: ws
           end
  end.

(** [s.startswith(p)]. *)
Definition startswith (s p : string) : bool := String.prefix p s.

(** *** Numbers from strings *)

Definition digit_of (c : ascii) : option Z :=
  let n := nat_of_ascii c in
  if ((48 <=? n)%nat && (n <=? 57)%nat)%bool
  then Some (Z.of_nat (n - 48)) else None.

(** Decimal digits, with single underscores allowed between digits. *)
Fixpoint parse_digits (s : string) (acc : Z) (after_digit : bool) : option Z :=
  match s with
  | EmptyString => if after_digit then Some acc else None
  | String c s' =>
      match digit_of c with
      | Some d => parse_digits s' (10 * acc + d) true
      | None =>
          if (Ascii.eqb c "_" && after_digit)%bool
          then parse_digits s' acc false else None
      end
  end.

(** The whitespace [int] and [float] skip around a number: tab to
    carriage return, and the space.  The separators 28 to 31, which
    [str.strip] removes, are not among it. *)
Definition is_number_space (c : ascii) : bool :=
  let n := nat_of_ascii c in
  ((9 <=? n)%nat && (n <=? 13)%nat) || (n =? 32)%nat.

Fixpoint lskip (s : string) : string :=
  match s with
  | String c s' => if is_number_space c then lskip s' else s
  | EmptyString => EmptyString
  end.

(** The string without the whitespace around the number. *)
Definition number_text (s : string) : string :=
  String.rev (lskip (String.rev (lskip s))).

Fixpoint count_digits (s : string) : Z :=
  match s with
  | EmptyString => 0
  | String c s' =>
      match digit_of c with Some _ => 1 | None => 0 end + count_digits s'
  end.

(** The default limit of [int] on the number of digits of a string. *)
Definition int_max_str_digits : Z := 4300.

(** [int(s)] for a string; [None] is its [ValueError]. *)
Definition py_int (s : string) : option Z :=
  let text := number_text s in
  if int_max_str_digits <? count_digits text then None
  else
    match text with
    | String "+" s' => parse_digits s' 0 false
    | String "-" s' => Z.opp <$> parse_digits s' 0 false
    | s' => parse_digits s' 0 false
    end.

(** [float(s)] for a string; [None] is its [ValueError].  The special
    values are read here, a numeric literal by [float_literal]. *)
Definition py_float (B : Builtins) (s : string) : option pyfloat :=
  let s' := lower (number_text s) in
  let '(negative, body) :=
    match s' with
    | String "+" b => (false, b)
    | String "-" b => (true, b)
    | b => (false, b)
    end in
  if String.eqb body "nan" then Some FNan
  else if (String.eqb body "inf" || String.eqb body "infinity")%bool
  then Some (FInf negative)
  else float_literal B s.

End Py.

(** ** The parts of [datetime] the scheduler uses *)

Module Time.

(** A naive [datetime]. *)
Record datetime := {
  year : Z; month : Z; day : Z;
  hour : Z; minute : Z; second : Z; microsecond : Z
}.

Definition is_leap (y : Z) : bool :=
  (y mod 4 =? 0) && (negb (y mod 100 =? 0) || (y mod 400 =? 0)).

Definition days_in_month (y m : Z) : Z :=
  if m =? 2 then (if is_leap y then 29 else 28)
  else if (m =? 4) || (m =? 6) || (m =? 9) || (m =? 11) then 30
  else 31.

Definition days_before_year (y : Z) : Z :=
  let y' := y - 1 in y' * 365 + y' / 4 - y' / 100 + y' / 400.

Fixpoint days_before_month_aux (y : Z) (months : nat) : Z :=
  match months with
  | O => 0
  | S k => days_before_month_aux y k + days_in_month y (Z.of_nat (S k))
  end.

(** Days of the year that precede the first day of month [m]. *)
Definition days_before_month (y m : Z) : Z :=
  days_before_month_aux y (Z.to_nat (m - 1)).

(** The proleptic Gregorian ordinal of the date. *)
Definition toordinal (d : datetime) : Z :=
  days_before_year (year d) + days_before_month (year d) (month d) + day d.

(** [d.replace(hour=h, minute=m, second=0, microsecond=0)]; [None] is
    the [ValueError] of a field out of range. *)
Definition replace_time (d : datetime) (h m : Z) : option datetime :=
  if (0 <=? h) && (h <=? 23) && (0 <=? m) && (m <=? 59) then
    Some {| year := year d; month := month d; day := day d;
            hour := h; minute := m; second := 0; microsecond := 0 |}
  else None.

(** [d.replace(day=n)]; [None] is the [ValueError] of a day that the
    month does not have. *)
Definition replace_day (d : datetime) (n : Z) : option datetime :=
  if (1 <=? n) && (n <=? days_in_month (year d) (month d)) then
    Some {| year := year d; month := month d; day := n;
            hour := hour d; minute := minute d; second := second d;
            microsecond := microsecond d |}
  else None.

(** Microseconds since the start of day 0. *)
Definition to_microseconds (d : datetime) : Z :=
  (((toordinal d * 24 + hour d) * 60 + minute d) * 60 + second d) * 1000000
  + microsecond d.

(** [a <= b] *)
Definition le (a b : datetime) : bool :=
  to_microseconds a <=? to_microseconds b.

(** [a - b] in seconds; [(a - b).total_seconds()] is the float
    nearest to it. *)
Definition total_seconds (a b : datetime) : Q :=
  ((to_microseconds a - to_microseconds b) # 1000000)%Q.

End Time.

(** ** Effects: a trace of calls and the oracles that answer them *)

Module Eff.
Import Py.

(** A release record, as produced by a release source. *)
Definition Release := pydict.

(** One row of the outcome table of a run. *)
Record flags := Flags { overseerr : bool; riven : bool }.

Inductive http_method := GET | POST | DELETE.

(** A call of the [requests] library. *)
Record http_request := Request {
  req_method : http_method;
  req_url : string;
  req_headers : pydict;
  req_params : pydict;
  req_json : option pyval;
  req_timeout : Z
}.

(** What [requests] gives back: a response, with [response.json()]
    present when the body parses, or an exception. *)
Inductive http_outcome :=
| Response (status_code : Z) (text : string) (json : option pyval)
| RequestFailed (e : exn).

(** The calls a run makes, in the order it makes them. *)
(** The release source [main] selects. *)
Inductive ReleaseSource := TmdbSource | ScrapedSource.

Inductive event :=
| EvGetReleases (source : ReleaseSource)
| EvApplyFilters (releases : list Release)
| EvRequestMedia (release : Release) (out : outcome pyval)
| EvHttp (req : http_request)
| EvNotify (releases : list Release) (table : gmap string flags)
| EvSleep (seconds : pyval)
| EvNow.

Definition trace := list event.

(** The collaborators that are not embedded and the outside world.
    Each oracle sees the calls made so far. *)
Record World := {
  (** [settings.json]: absent, or what [json.load] gives for it *)
  config_file : option (outcome pyval);
  (** [os.getenv] *)
  environ : string → option string;
  (** [getattr(logging, level)] and [logging.basicConfig] *)
  logging_config : pyval → outcome unit;
  (** The constructors of [ReleaseChecker], [OverseerrRequester],
      [FilterEngine] and [DiscordNotifier], by class name *)
  construct : string → pydict → outcome unit;
  (** [datetime.now] *)
  now : trace → Time.datetime;
  (** [requests.get], [requests.post], [requests.delete] *)
  http : trace → http_request → http_outcome;
  (** [get_today_releases] of the selected source *)
  today_releases : ReleaseSource → trace → outcome (list Release);
  (** [FilterEngine.apply_filters] *)
  filter_engine : trace → list Release → outcome (list Release);
  (** [OverseerrRequester.request_media] *)
  overseerr_request : trace → Release → outcome pyval;
  (** [DiscordNotifier.is_enabled] and [send_release_notifications] *)
  discord_enabled : trace → outcome pyval;
  discord_send : trace → list Release → gmap string flags → outcome unit;
  (** [time.sleep] *)
  sleep_result : trace → pyval → outcome unit
}.

(** Computations that log calls and may raise. *)
Definition M (A : Type) : Type := trace → outcome A * trace.

Definition ret {A} (a : A) : M A := λ t, (Val a, t).
Definition raise {A} (e : exn) : M A := λ t, (Exc e, t).
Definition bind {A B} (m : M A) (k : A → M B) : M B :=
  λ t, match m t with
       | (Val a, t') => k a t'
       | (Exc e, t') => (Exc e, t')
       end.

(** [try: m except Exception as e: h e] *)
Definition try_except {A} (m : M A) (h : exn → M A) : M A :=
  λ t, match m t with
       | (Val a, t') => (Val a, t')
       | (Exc e, t') => h e t'
       end.

(** A result computed without any call. *)
Definition lift {A} (o : outcome A) : M A := λ t, (o, t).

(** Log an event and return the answer of an oracle. *)
Definition call {A} (ev : event) (answer : trace → outcome A) : M A :=
  λ t, (answer t, t ++ [ev]).

Definition attribute_error (msg : string) : exn := Exn "AttributeError" msg.
Definition type_error (msg : string) : exn := Exn "TypeError" msg.
Definition value_error (msg : string) : exn := Exn "ValueError" msg.
Definition key_error (msg : string) : exn := Exn "KeyError" msg.

(** [v.get(...)] needs [v] to be a dict. *)
Definition as_dict (v : pyval) : M pydict :=
  match v with
  | PDict d => ret d
  | _ => raise (attribute_error "object has no attribute 'get'")
  end.

End Eff.

Notation "x <- m ;; k" := (Eff.bind m (fun x => k))
  (at level 100, m at next level, right associativity).

(** ** riven_requester.py *)

Module Riven.
Import Py Eff.

(** [RivenRequester]: the two attributes [__init__] reads from the
    configuration. *)
Record RivenRequester := { api_url : pyval; api_key : pyval }.

(** The dictionary [add_media] returns. *)
Record SinkResult := { success : Z; failed : Z; results : list pydict }.

(** The characters of a string, as Python iterates them. *)
Fixpoint chars (s : string) : list string :=
  match s with
  | EmptyString => []
  | String c s' => String c EmptyString :: chars s'
  end.

(** [for item in v]: lists give their elements, strings their
    characters, dicts their keys; nothing else is iterable. *)
Definition iterate (v : pyval) : M (list pyval) :=
  match v with
  | PList l => ret l
  | PStr s => ret (PStr <$> chars s)
  | PDict d => ret ((λ kv, PStr kv.1) <$> d)
  | _ => raise (type_error "object is not iterable")
  end.

Section WithWorld.
Variable B : Builtins.
Variable w : World.

(** [RivenRequester.__init__] *)
Definition init (config : pydict) : M RivenRequester :=
  section <- as_dict (py_get_default config "riven" (PDict [])) ;;
  ret {| api_url := py_get_default section "api_url" (PStr "http://localhost:8083");
         api_key := py_get_default section "api_key" (PStr "") |}.

(** [RivenRequester.is_enabled] *)
Definition is_enabled (self : RivenRequester) : bool :=
  py_truthy (api_key self) && py_truthy (api_url self).

(** One call of [requests]: logged, answered by the world. *)
Record response := { status_code : Z; text : string; json : option pyval }.

Definition send (req : http_request) : M response :=
  λ t, (match http w t req with
        | Response s tx j => Val {| status_code := s; text := tx; json := j |}
        | RequestFailed e => Exc e
        end, t ++ [EvHttp req]).

(** [response.json()] *)
Definition response_json (r : response) : M pyval :=
  match json r with
  | Some v => ret v
  | None => raise (value_error "Expecting value")
  end.

(** The dict comprehension of [_get_unknown_items]. *)
Fixpoint unknown_of_items (items : list pyval) (acc : gmap string string)
  : M (gmap string string) :=
  match items with
  | [] => ret acc
  | item :: rest =>
      d <- as_dict item ;;
      if py_truthy (py_get d "tmdb_id")
      then unknown_of_items rest
             (<[py_str B (py_get d "tmdb_id") := py_str B (py_get d "id")]> acc)
      else unknown_of_items rest acc
  end.

Definition unknown_request (self : RivenRequester) (media_type : string)
  : http_request :=
  {| req_method := GET;
     req_url := py_str B (api_url self) +:+ "/api/v1/items";
     req_headers := [("x-api-key", api_key self)];
     req_params := [("limit", PInt 500); ("page", PInt 1);
                    ("type", PStr media_type); ("states", PStr "Unknown");
                    ("extended", PStr "false"); ("count_only", PStr "false")];
     req_json := None;
     req_timeout := 10 |}.

(** [RivenRequester._get_unknown_items] *)
Definition _get_unknown_items (self : RivenRequester) (media_type : string)
  : M (gmap string string) :=
  try_except
    (response <- send (unknown_request self media_type) ;;
     if status_code response =? 200 then
       data <- response_json response ;;
       d <- as_dict data ;;
       items <- iterate (py_get_default d "items" (PList [])) ;;
       unknown_of_items items ∅
     else ret ∅)
    (λ _, ret ∅).

Definition remove_request (self : RivenRequester) (item_ids : list string)
  : http_request :=
  {| req_method := DELETE;
     req_url := py_str B (api_url self) +:+ "/api/v1/items/remove";
     req_headers := [("x-api-key", api_key self);
                     ("Content-Type", PStr "application/json")];
     req_params := [];
     req_json := Some (PDict [("ids", PList (PStr <$> item_ids))]);
     req_timeout := 10 |}.

(** [RivenRequester._remove_items] *)
Definition _remove_items (self : RivenRequester) (item_ids : list string)
  : M bool :=
  match item_ids with
  | [] => ret true
  | _ =>
      try_except
        (response <- send (remove_request self item_ids) ;;
         if status_code response =? 200 then ret true else ret false)
        (λ _, ret false)
  end.

Definition add_request (self : RivenRequester) (media_type : string)
    (tmdb_ids : list string) : http_request :=
  {| req_method := POST;
     req_url := py_str B (api_url self) +:+ "/api/v1/items/add";
     req_headers := [("x-api-key", api_key self);
                     ("Content-Type", PStr "application/json");
                     ("Accept", PStr "application/json")];
     req_params := [];
     req_json := Some (PDict [("media_type", PStr media_type);
                              ("tmdb_ids", PList (PStr <$> tmdb_ids))]);
     req_timeout := 10 |}.

(** [tmdb_ids = [str(r.get("tmdb_id")) for r in releases if r.get("tmdb_id")]] *)
Definition tmdb_ids_of (releases : list Release) : list string :=
  (λ r, py_str B (py_get r "tmdb_id"))
    <$> List.filter (λ r, py_truthy (py_get r "tmdb_id")) releases.

(** [RivenRequester._add_items] *)
Definition _add_items (self : RivenRequester) (media_type : string)
    (releases : list Release) : M SinkResult :=
  try_except
    (let tmdb_ids := tmdb_ids_of releases in
     match tmdb_ids with
     | [] => ret {| success := 0; failed := len releases; results := [] |}
     | _ =>
         unknown_items <- _get_unknown_items self media_type ;;
         let items_to_remove :=
           omap (λ tmdb_id, unknown_items !! tmdb_id) tmdb_ids in
         _ <- match items_to_remove with
              | [] => ret true
              | _ => _remove_items self items_to_remove
              end ;;
         response <- send (add_request self media_type tmdb_ids) ;;
         if status_code response =? 200 then
           ret {| success := len tmdb_ids;
                  failed := 0;
                  results := [[("status", PStr "success");
                               ("ids", PList (PStr <$> tmdb_ids))]] |}
         else if status_code response =? 404 then
           ret {| success := 0;
                  failed := len tmdb_ids;
                  results := [[("status", PStr "error"); ("code", PInt 404);
                               ("message", PStr "Not found")]] |}
         else if status_code response =? 422 then
           ret {| success := 0;
                  failed := len tmdb_ids;
                  results := [[("status", PStr "error"); ("code", PInt 422);
                               ("message", PStr "Validation error")]] |}
         else
           ret {| success := 0;
                  failed := len tmdb_ids;
                  results := [[("status", PStr "error");
                               ("code", PInt (status_code response))]] |}
     end)
    (λ e, ret {| success := 0;
                 failed := len releases;
                 results := [[("status", PStr "error");
                              ("message", PStr (exn_msg e))]] |}).

(** [RivenRequester.add_media] *)
Definition add_media (self : RivenRequester) (releases : list Release)
  : M SinkResult :=
  if negb (is_enabled self) then
    ret {| success := 0; failed := 0; results := [] |}
  else
    let movies :=
      List.filter (λ r, py_eq_str (py_get r "type") "movie") releases in
    match movies with
    | [] => ret {| success := 0; failed := 0; results := [] |}
    | _ => _add_items self "movie" movies
    end.

End WithWorld.
End Riven.

(** ** main.py: one check-and-request cycle *)

Module Orchestrator.
Import Py Eff Riven.

(** The Overseerr requester object; its methods are oracles of the
    world. *)
Inductive OverseerrRequester := OverseerrHandle.

(** The locals of [run_check] when it returns. *)
Record summary := {
  filtered_releases : list Release;
  release_results : gmap string flags;
  overseerr_successful : Z;
  overseerr_failed : Z;
  riven_success_count : Z;
  riven_failed_count : Z
}.

(** The state of the Overseerr loop. *)
Record tally := {
  table : gmap string flags;
  successful : Z;
  unsuccessful : Z
}.

Definition set_overseerr (f : flags) : flags := Flags true (riven f).
Definition set_riven (f : flags) : flags := Flags (overseerr f) true.

(** [if tmdb_id not in release_results: release_results[tmdb_id] = {...}] *)
Definition ensure_entry (tmdb_id : string) (tbl : gmap string flags)
  : gmap string flags :=
  match tbl !! tmdb_id with
  | Some _ => tbl
  | None => <[tmdb_id := Flags false false]> tbl
  end.

Section WithWorld.
Variable B : Builtins.
Variable w : World.

(** [str(release.get("tmdb_id", ""))] *)
Definition release_key (release : Release) : string :=
  py_str B (py_get_default release "tmdb_id" (PStr "")).

(** [overseerr_requester.request_media(release)] *)
Definition request_media (release : Release) : M pyval :=
  λ t, let out := overseerr_request w t release in
       (out, t ++ [EvRequestMedia release out]).

(** The body of the loop over the filtered releases. *)
Definition overseerr_body (st : tally) (release : Release) : M tally :=
  let tmdb_id := release_key release in
  let tbl := ensure_entry tmdb_id (table st) in
  try_except
    (result <- request_media release ;;
     if py_truthy result then
       ret {| table := alter set_overseerr tmdb_id tbl;
              successful := successful st + 1;
              unsuccessful := unsuccessful st |}
     else
       ret {| table := tbl;
              successful := successful st;
              unsuccessful := unsuccessful st + 1 |})
    (λ _, ret {| table := tbl;
                 successful := successful st;
                 unsuccessful := unsuccessful st + 1 |}).

Fixpoint overseerr_loop (releases : list Release) (st : tally) : M tally :=
  match releases with
  | [] => ret st
  | release :: rest =>
      st' <- overseerr_body st release ;;
      overseerr_loop rest st'
  end.

(** [if overseerr_requester and filtered_releases: ...] *)
Definition overseerr_step (overseerr_requester : option OverseerrRequester)
    (filtered : list Release) : M tally :=
  let st := {| table := ∅; successful := 0; unsuccessful := 0 |} in
  match overseerr_requester, filtered with
  | Some _, _ :: _ => overseerr_loop filtered st
  | _, _ => ret st
  end.

(** The body of the loop that marks every release after a batch. *)
Definition mark_riven (tbl : gmap string flags) (release : Release)
  : gmap string flags :=
  let tmdb_id := release_key release in
  alter set_riven tmdb_id (ensure_entry tmdb_id tbl).

(** [if riven_requester and filtered_releases: ...]; returns the table
    and the two counts. *)
Definition riven_step (riven_requester : option RivenRequester)
    (filtered : list Release) (tbl : gmap string flags)
  : M (gmap string flags * Z * Z) :=
  match riven_requester, filtered with
  | Some rr, _ :: _ =>
      riven_results <- add_media B w rr filtered ;;
      let riven_success_count := success riven_results in
      let riven_failed_count := failed riven_results in
      let tbl' := if 0 <? riven_success_count
                  then foldl mark_riven tbl filtered
                  else tbl in
      ret (tbl', riven_success_count, riven_failed_count)
  | _, _ => ret (tbl, 0, 0)
  end.

(** [if discord_notifier.is_enabled() and release_results: ...] *)
Definition notify_step (filtered : list Release) (tbl : gmap string flags)
  : M unit :=
  enabled <- (λ t, (discord_enabled w t, t)) ;;
  if py_truthy enabled && negb (bool_decide (tbl = ∅)) then
    call (EvNotify filtered tbl) (λ t, discord_send w t filtered tbl)
  else ret ().

(** [run_check] from the filtered releases on. *)
Definition request_releases (overseerr_requester : option OverseerrRequester)
    (riven_requester : option RivenRequester) (filtered : list Release)
  : M summary :=
  st <- overseerr_step overseerr_requester filtered ;;
  riven <- riven_step riven_requester filtered (table st) ;;
  let '(tbl, riven_success_count, riven_failed_count) := riven in
  _ <- notify_step filtered tbl ;;
  ret {| filtered_releases := filtered;
         release_results := tbl;
         overseerr_successful := successful st;
         overseerr_failed := unsuccessful st;
         riven_success_count := riven_success_count;
         riven_failed_count := riven_failed_count |}.

(** [run_check]; the value returned is the state of its locals, which
    the Python function discards. *)
Definition run_check (release_checker : ReleaseSource)
    (overseerr_requester : option OverseerrRequester)
    (riven_requester : option RivenRequester) : M summary :=
  releases <- call (EvGetReleases release_checker)
                   (today_releases w release_checker) ;;
  filtered <- call (EvApplyFilters releases)
                   (λ t, filter_engine w t releases) ;;
  request_releases overseerr_requester riven_requester filtered.

End WithWorld.
End Orchestrator.

(** ** config_manager.py *)

Module Config.
Import Py Eff.

Definition DEFAULT_SETTINGS : pydict :=
  [("overseerr", PDict [("api_url", PStr ""); ("api_key", PStr "")]);
   ("riven", PDict [("api_url", PStr ""); ("api_key", PStr "")]);
   ("tmdb", PDict [("api_key", PStr "")]);
   ("filters", PDict [("min_tmdb_rating", PInt 0);
                      ("exclude_adult", PBool true);
                      ("allowed_languages", PList []);
                      ("excluded_genres", PList []);
                      ("excluded_certifications", PList [])]);
   ("release_source", PStr "tmdb");
   ("run_time", PStr "");
   ("request_delay_minutes", PInt 0);
   ("logging", PDict [("level", PStr "INFO")]);
   ("discord", PDict [("webhook_url", PStr "")])].

(** Environment variable, section, key and, when given, the type. *)
Definition env_map : list (string * (string * string * option string)) :=
  [("OVERSEERR_API_KEY", ("overseerr", "api_key", None));
   ("OVERSEERR_API_URL", ("overseerr", "api_url", None));
   ("RIVEN_API_KEY", ("riven", "api_key", None));
   ("RIVEN_API_URL", ("riven", "api_url", None));
   ("TMDB_API_KEY", ("tmdb", "api_key", None));
   ("DISCORD_WEBHOOK_URL", ("discord", "webhook_url", None));
   ("FILTERS_MIN_TMDB_RATING", ("filters", "min_tmdb_rating", Some "float"));
   ("FILTERS_EXCLUDE_ADULT", ("filters", "exclude_adult", Some "bool"));
   ("FILTERS_ALLOWED_LANGUAGES", ("filters", "allowed_languages", Some "list"));
   ("FILTERS_EXCLUDED_GENRES", ("filters", "excluded_genres", Some "list"));
   ("FILTERS_EXCLUDED_CERTIFICATIONS",
      ("filters", "excluded_certifications", Some "list"));
   ("LOGGING_LEVEL", ("logging", "level", None))].

(** Environment variable, top-level key and type. *)
Definition top_level_map : list (string * (string * option string)) :=
  [("RELEASE_SOURCE", ("release_source", Some "str"));
   ("RUN_TIME", ("run_time", Some "str"));
   ("REQUEST_DELAY_MINUTES", ("request_delay_minutes", Some "int"))].

(** [{**a, **b}] *)
Definition dict_union (a b : pydict) : pydict :=
  foldl (λ acc kv, dict_set kv.1 kv.2 acc) a b.

(** [[item.strip() for item in value.split(",") if item.strip()]] *)
Definition split_list (value : string) : list pyval :=
  (λ item, PStr (strip item))
    <$> List.filter (λ item, negb (String.eqb (strip item) ""))
          (split_on "," value).

(** A loop that threads the configuration through its iterations. *)
Fixpoint for_each {A} (body : pydict → A → M pydict) (l : list A)
    (config : pydict) : M pydict :=
  match l with
  | [] => ret config
  | x :: rest => config' <- body config x ;; for_each body rest config'
  end.

Section WithWorld.
Variable B : Builtins.
Variable w : World.

(** The body of the loop of [_merge_with_defaults]. *)
Definition merge_item (merged : pydict) (item : string * pyval) : M pydict :=
  let '(key, value) := item in
  match value, dict_lookup key merged with
  | PDict d, Some old =>
      match old with
      | PDict od => ret (dict_set key (PDict (dict_union od d)) merged)
      | _ => raise (type_error "object is not a mapping")
      end
  | _, _ => ret (dict_set key value merged)
  end.

(** [ConfigManager._merge_with_defaults] *)
Definition _merge_with_defaults (config : pyval) : M pydict :=
  match config with
  | PDict d => for_each merge_item d DEFAULT_SETTINGS
  | _ => raise (attribute_error "object has no attribute 'items'")
  end.

(** The conversions of the nested overrides. *)
Definition convert (data_type : string) (value : string) : outcome pyval :=
  if String.eqb data_type "bool" then
    Val (PBool (existsb (String.eqb (lower value)) ["true"; "1"; "yes"; "on"]))
  else if String.eqb data_type "int" then
    match py_int value with
    | Some z => Val (PInt z)
    | None => Exc (value_error "invalid literal for int()")
    end
  else if String.eqb data_type "float" then
    match py_float B value with
    | Some f => Val (PFloat f)
    | None => Exc (value_error "could not convert string to float")
    end
  else if String.eqb data_type "list" then
    Val (PList (split_list value))
  else Val (PStr value).

(** The conversions of the top-level overrides. *)
Definition convert_top (data_type : string) (value : string) : outcome pyval :=
  if String.eqb data_type "int" then
    match py_int value with
    | Some z => Val (PInt z)
    | None => Exc (value_error "invalid literal for int()")
    end
  else if String.eqb data_type "float" then
    match py_float B value with
    | Some f => Val (PFloat f)
    | None => Exc (value_error "could not convert string to float")
    end
  else Val (PStr value).

(** [value is not None and value.strip()] *)
Definition overriding (value : option string) : option string :=
  match value with
  | Some v => if String.eqb (strip v) "" then None else Some v
  | None => None
  end.

(** [if section not in config: config[section] = {}] *)
Definition ensure_section (section : string) (config : pydict) : pydict :=
  match dict_lookup section config with
  | Some _ => config
  | None => dict_set section (PDict []) config
  end.

(** [config[section][key] = v] *)
Definition set_item (section key : string) (v : pyval) (config : pydict)
  : M pydict :=
  match dict_lookup section config with
  | Some (PDict d) =>
      ret (dict_set section (PDict (dict_set key v d)) config)
  | _ => raise (type_error "object does not support item assignment")
  end.

(** The body of the loop over [env_map]. *)
Definition override_nested (config : pydict)
    (entry : string * (string * string * option string)) : M pydict :=
  let '(env_var, (section, key, data_type)) := entry in
  match overriding (environ w env_var) with
  | Some value =>
      let config := ensure_section section config in
      v <- lift (convert (default "str" data_type) value) ;;
      set_item section key v config
  | None => ret config
  end.

(** The body of the loop over [top_level_map]. *)
Definition override_top (config : pydict)
    (entry : string * (string * option string)) : M pydict :=
  let '(env_var, (key, data_type)) := entry in
  match overriding (environ w env_var) with
  | Some value =>
      v <- lift (convert_top (default "str" data_type) value) ;;
      ret (dict_set key v config)
  | None => ret config
  end.

(** [ConfigManager._apply_env_overrides] *)
Definition _apply_env_overrides (config : pydict) : M pydict :=
  config <- for_each override_nested env_map config ;;
  for_each override_top top_level_map config.

(** [if url and not (url.startswith("http://") or ...): raise] *)
Definition check_url (service : string) (url : pyval) : M unit :=
  if py_truthy url then
    match url with
    | PStr u =>
        if negb (startswith u "http://" || startswith u "https://")
        then raise (value_error
                      (service +:+ " API URL must start with http:// or https://"))
        else ret ()
    | _ => raise (attribute_error "object has no attribute 'startswith'")
    end
  else ret ().

(** A comparison that raises [TypeError] on unorderable operands. *)
Definition compare (c : option bool) : M bool :=
  match c with
  | Some b => ret b
  | None => raise (type_error "comparison not supported")
  end.

(** [ConfigManager._validate_config] *)
Definition _validate_config (config : pydict) : M unit :=
  overseerr <- as_dict (py_get_default config "overseerr" (PDict [])) ;;
  let overseerr_configured := py_truthy (py_get overseerr "api_key") in
  riven <- as_dict (py_get_default config "riven" (PDict [])) ;;
  let riven_configured := py_truthy (py_get riven "api_key") in
  _ <- (if overseerr_configured
        then check_url "Overseerr" (py_get_default overseerr "api_url" (PStr ""))
        else ret ()) ;;
  _ <- (if riven_configured
        then check_url "Riven" (py_get_default riven "api_url" (PStr ""))
        else ret ()) ;;
  filters <- as_dict (py_get_default config "filters" (PDict [])) ;;
  let rating := py_get_default filters "min_tmdb_rating" (PInt 0) in
  below <- compare (py_lt_int rating 0) ;;
  if below then raise (value_error "min_tmdb_rating must be between 0 and 10")
  else
    above <- compare (py_gt_int rating 10) ;;
    if above then raise (value_error "min_tmdb_rating must be between 0 and 10")
    else ret ().

(** [ConfigManager.load_config].  Writing the defaults to a missing
    [settings.json] is not modelled: its failures are caught and it
    does not change the configuration returned. *)
Definition load_config : M pydict :=
  try_except
    (config <- match config_file w with
               | Some (Val v) => _merge_with_defaults v
               | Some (Exc e) => raise e
               | None => ret DEFAULT_SETTINGS
               end ;;
     config <- _apply_env_overrides config ;;
     _ <- _validate_config config ;;
     ret config)
    (λ e, if String.eqb (exn_class e) "JSONDecodeError"
          then raise (value_error ("Invalid JSON in settings.json: " +:+ exn_msg e))
          else raise (Exn "Exception"
                        ("Error loading configuration: " +:+ exn_msg e))).

End WithWorld.
End Config.

(** ** dvd_release_checker.py: the record a release source produces *)

Module Source.
Import Py Eff.

(** The dictionary [DVDReleaseChecker._lookup_on_tmdb] returns for the
    best match [movie] of a search, given the queried [title] and the
    genre names and certification read from the details of the movie. *)
Definition release_record (title : string) (movie : pydict)
    (genre_names : list string) (certification : string) : M Release :=
  match dict_lookup "id" movie with
  | None => raise (key_error "'id'")
  | Some id =>
      ret [("id", id);
           ("title", py_get_default movie "title" (PStr title));
           ("overview", py_get_default movie "overview" (PStr ""));
           ("vote_average", py_get_default movie "vote_average" (PInt 0));
           ("poster_path", py_get movie "poster_path");
           ("release_date", py_get_default movie "release_date" (PStr ""));
           ("original_language",
              py_get_default movie "original_language" (PStr ""));
           ("adult", py_get_default movie "adult" (PBool false));
           ("genre_names", PList (PStr <$> genre_names));
           ("certification", PStr certification);
           ("media_type", PStr "movie")]
  end.

End Source.

(** ** main.py: the entry point and the scheduler *)

Module Main.
Import Py Eff Time Riven Orchestrator Config.

(** [v * n] for a number [v] and an integer literal [n] that is a
    float as well; the product of a float is rounded. *)
Definition py_mul_int (B : Builtins) (v : pyval) (n : Z) : pyval :=
  match v with
  | PBool b => PInt (Z.b2z b * n)
  | PInt z => PInt (z * n)
  | PFloat (FFin q) => PFloat (float_round B (q * inject_Z n))
  | _ => v
  end.

(** [target_hour, target_minute = map(int, run_time.split(":"))] *)
Definition parse_run_time (run_time : pyval) : M (Z * Z) :=
  match run_time with
  | PStr s =>
      let int_of part :=
        match py_int part with
        | Some z => ret z
        | None => raise (value_error "invalid literal for int()")
        end in
      match split_on ":" s with
      | [] => raise (value_error "not enough values to unpack")
      | [h] =>
          _ <- int_of h ;;
          raise (value_error "not enough values to unpack")
      | h :: m :: rest =>
          target_hour <- int_of h ;;
          target_minute <- int_of m ;;
          match rest with
          | [] => ret (target_hour, target_minute)
          | extra :: _ =>
              _ <- int_of extra ;;
              raise (value_error "too many values to unpack")
          end
      end
  | _ => raise (attribute_error "object has no attribute 'split'")
  end.

(** The computation of [next_run] from [now]. *)
Definition next_run_time (run_time : pyval) (now : datetime) : M datetime :=
  target <- parse_run_time run_time ;;
  match replace_time now target.1 target.2 with
  | None => raise (value_error "hour must be in 0..23")
  | Some next_run =>
      if le next_run now then
        match replace_day next_run (day now + 1) with
        | None => raise (value_error "day is out of range for month")
        | Some next_run => ret next_run
        end
      else ret next_run
  end.

Section WithWorld.
Variable B : Builtins.
Variable w : World.

(** [time.sleep(seconds)] *)
Definition sleep (seconds : pyval) : M unit :=
  call (EvSleep seconds) (λ t, sleep_result w t seconds).

(** [datetime.now()] *)
Definition get_now : M datetime :=
  λ t, (Val (now w t), t ++ [EvNow]).

(** [setup_logging] *)
Definition setup_logging (config : pydict) : M unit :=
  logging <- as_dict (py_get_default config "logging" (PDict [])) ;;
  let log_level := py_get_default logging "level" (PStr "INFO") in
  λ t, (logging_config w log_level, t).

(** [bool(config.get(section, {}).get(key))] *)
Definition configured (config : pydict) (section key : string) : M bool :=
  d <- as_dict (py_get_default config section (PDict [])) ;;
  ret (py_truthy (py_get d key)).

(** A constructor of a collaborator. *)
Definition new (class : string) (config : pydict) : M unit :=
  λ t, (construct w class config, t).

(** [if request_delay_minutes > 0: time.sleep(request_delay_minutes * 60)] *)
Definition delay (request_delay_minutes : pyval) : M unit :=
  positive <- compare (py_gt_int request_delay_minutes 0) ;;
  if positive then sleep (py_mul_int B request_delay_minutes 60) else ret ().

(** The body of [while True]. *)
Definition cycle (run_time request_delay_minutes : pyval)
    (release_checker : ReleaseSource)
    (overseerr_requester : option OverseerrRequester)
    (riven_requester : option RivenRequester) : M unit :=
  now <- get_now ;;
  next_run <- next_run_time run_time now ;;
  let sleep_seconds := float_round B (total_seconds next_run now) in
  _ <- sleep (PFloat sleep_seconds) ;;
  try_except
    (_ <- delay request_delay_minutes ;;
     _ <- run_check B w release_checker overseerr_requester riven_requester ;;
     ret ())
    (λ _, ret ()).

(** [while True], cut after [cycles] iterations. *)
Fixpoint scheduled_loop (cycles : nat) (run_time request_delay_minutes : pyval)
    (release_checker : ReleaseSource)
    (overseerr_requester : option OverseerrRequester)
    (riven_requester : option RivenRequester) : M unit :=
  match cycles with
  | O => ret ()
  | S n =>
      _ <- cycle run_time request_delay_minutes release_checker
                 overseerr_requester riven_requester ;;
      scheduled_loop n run_time request_delay_minutes release_checker
                     overseerr_requester riven_requester
  end.

(** [main]: the exit code, or [None] when the scheduled loop is still
    running after [cycles] iterations. *)
Definition main (cycles : nat) : M (option Z) :=
  try_except
    (config <- load_config B w ;;
     _ <- setup_logging config ;;
     overseerr_enabled <- configured config "overseerr" "api_key" ;;
     riven_enabled <- configured config "riven" "api_key" ;;
     _ <- configured config "discord" "webhook_url" ;;
     if negb overseerr_enabled && negb riven_enabled then
       raise (value_error
         "At least one requester (Overseerr or Riven) must be configured with an API key")
     else
     has_tmdb_key <- configured config "tmdb" "api_key" ;;
     if negb has_tmdb_key then raise (value_error "TMDB API key is required")
     else
     release_source <-
       match py_get_default config "release_source" (PStr "tmdb") with
       | PStr s => ret (lower s)
       | _ => raise (attribute_error "object has no attribute 'lower'")
       end ;;
     release_checker <-
       (if String.eqb release_source "dvdsreleasedates"
        then ret ScrapedSource
        else _ <- new "ReleaseChecker" config ;; ret TmdbSource) ;;
     overseerr_requester <-
       (if overseerr_enabled
        then _ <- new "OverseerrRequester" config ;; ret (Some OverseerrHandle)
        else ret None) ;;
     riven_requester <-
       (if riven_enabled
        then rr <- Riven.init config ;; ret (Some rr)
        else ret None) ;;
     _ <- new "FilterEngine" config ;;
     _ <- new "DiscordNotifier" config ;;
     let run_time := py_get_default config "run_time" (PStr "") in
     let request_delay_minutes :=
       py_get_default config "request_delay_minutes" (PInt 0) in
     if negb (py_truthy run_time) then
       _ <- delay request_delay_minutes ;;
       _ <- run_check B w release_checker overseerr_requester riven_requester ;;
       ret (Some 0)
     else
       _ <- scheduled_loop cycles run_time request_delay_minutes
              release_checker overseerr_requester riven_requester ;;
       ret None)
    (λ _, ret (Some 1)).

End WithWorld.
End Main.

(** ** The filter engine *)

Module Filters.

(** Modelled from the spec: [filters.py] ([FilterEngine.apply_filters])
    is not among the sources.  The release and the filter configuration
    follow the data model of the specification, the admission test its
    five rules. *)
Record release := {
  tmdb_id : Z;
  title : string;
  vote_average : option Q;
  original_language : string;
  adult : bool;
  genre_names : list string;
  certification : string
}.

Record filter_config := {
  min_tmdb_rating : Q;
  exclude_adult : bool;
  allowed_languages : list string;
  excluded_genres : list string;
  excluded_certifications : list string
}.

(** Case-insensitive membership. *)
Definition matches_any (s : string) (l : list string) : bool :=
  existsb (λ x, String.eqb (Py.lower x) (Py.lower s)) l.

(** Rule 1: the rating, 0 when absent, reaches the minimum. *)
Definition rating_ok (cfg : filter_config) (r : release) : bool :=
  Qle_bool (min_tmdb_rating cfg) (default 0%Q (vote_average r)).

(** Rule 2. *)
Definition adult_ok (cfg : filter_config) (r : release) : bool :=
  if exclude_adult cfg then negb (adult r) else true.

(** Rule 3: case-sensitive membership, no restriction when empty. *)
Definition language_ok (cfg : filter_config) (r : release) : bool :=
  match allowed_languages cfg with
  | [] => true
  | langs => existsb (String.eqb (original_language r)) langs
  end.

(** Rule 4. *)
Definition genres_ok (cfg : filter_config) (r : release) : bool :=
  negb (existsb (λ g, matches_any g (excluded_genres cfg)) (genre_names r)).

(** Rule 5: an empty certification passes. *)
Definition certification_ok (cfg : filter_config) (r : release) : bool :=
  if String.eqb (certification r) "" then true
  else negb (matches_any (certification r) (excluded_certifications cfg)).

Definition admits (cfg : filter_config) (r : release) : bool :=
  rating_ok cfg r && adult_ok cfg r && language_ok cfg r
  && genres_ok cfg r && certification_ok cfg r.

(** Modelled from the spec: [apply_filters] keeps the releases that pass
    the admission test and drops the others. *)
Definition apply_filters (cfg : filter_config) (releases : list release)
  : list release :=
  List.filter (admits cfg) releases.

End Filters.


(** ** riven_requester.py: the health check *)

Module RivenHealth.
Import Py Eff Riven.

Section WithWorld.
Variable B : Builtins.
Variable w : World.

Definition health_request (self : RivenRequester) : http_request :=
  {| req_method := GET;
     req_url := py_str B (api_url self) +:+ "/health";
     req_headers := [];
     req_params := [];
     req_json := None;
     req_timeout := 5 |}.

(** [RivenRequester.get_status] *)
Definition get_status (self : RivenRequester) : M pydict :=
  try_except
    (response <- send w (health_request self) ;;
     if status_code response =? 200 then
       ret [("status", PStr "healthy")]
     else
       ret [("status", PStr "unhealthy"); ("code", PInt (status_code response))])
    (λ e, ret [("status", PStr "unreachable"); ("error", PStr (exn_msg e))]).

End WithWorld.
End RivenHealth.

(** ** dvd_release_checker.py *)

Module Scraper.
Import Py Eff Time Riven.

Definition DVDSRELEASEDATES_URL : string :=
  "https://www.dvdsreleasedates.com/digital-releases/".

Definition tmdb_base_url : string := "https://api.themoviedb.org/3".

(** The classes of [requests.exceptions], all of which derive from
    [RequestException]. *)
Definition request_exceptions : list string :=
  ["RequestException"; "InvalidJSONError"; "JSONDecodeError"; "HTTPError";
   "ConnectionError"; "ProxyError"; "SSLError"; "Timeout"; "ConnectTimeout";
   "ReadTimeout"; "URLRequired"; "TooManyRedirects"; "MissingSchema";
   "InvalidSchema"; "InvalidURL"; "InvalidHeader"; "InvalidProxyURL";
   "ChunkedEncodingError"; "ContentDecodingError"; "StreamConsumedError";
   "RetryError"; "UnrewindableBodyError"].

Definition is_request_exception (e : exn) : bool :=
  existsb (String.eqb (exn_class e)) request_exceptions.

(** [try: m except requests.RequestException as e: h e] *)
Definition try_except_request {A} (m : M A) (h : exn → M A) : M A :=
  λ t, match m t with
       | (Val a, t') => (Val a, t')
       | (Exc e, t') => if is_request_exception e then h e t' else (Exc e, t')
       end.

(** [response.raise_for_status()] *)
Definition raise_for_status (r : response) : M unit :=
  if (400 <=? status_code r) && (status_code r <? 600)
  then raise (Exn "HTTPError" (pretty (status_code r) +:+ " Error"))
  else ret ().

(** [v[k]] for a string [k] *)
Definition subscript (v : pyval) (k : string) : M pyval :=
  match v with
  | PDict d =>
      match dict_lookup k d with
      | Some x => ret x
      | None => raise (key_error k)
      end
  | _ => raise (type_error "indices must be integers, or object is not subscriptable")
  end.

(** [v[0]] *)
Definition first_item (v : pyval) : M pyval :=
  match v with
  | PList (x :: _) => ret x
  | PList [] => raise (Exn "IndexError" "list index out of range")
  | PStr (String c _) => ret (PStr (String c EmptyString))
  | PStr EmptyString => raise (Exn "IndexError" "string index out of range")
  | PDict _ => raise (key_error "0")
  | _ => raise (type_error "object is not subscriptable")
  end.

(** A loop that collects the results of its iterations. *)
Fixpoint map_m {A C} (f : A → M C) (l : list A) : M (list C) :=
  match l with
  | [] => ret []
  | x :: rest => y <- f x ;; ys <- map_m f rest ;; ret (y :: ys)
  end.

(** The inner loop of [_get_us_certification]: the first truthy
    certification of the releases of a country. *)
Fixpoint first_certification (releases : list pyval) : M (option pyval) :=
  match releases with
  | [] => ret None
  | release :: rest =>
      d <- as_dict release ;;
      let cert := py_get_default d "certification" (PStr "") in
      if py_truthy cert then ret (Some cert) else first_certification rest
  end.

(** The outer loop of [_get_us_certification]. *)
Fixpoint us_certification (countries : list pyval) : M pyval :=
  match countries with
  | [] => ret (PStr "")
  | country :: rest =>
      d <- as_dict country ;;
      if py_eq_str (py_get d "iso_3166_1") "US" then
        releases <- iterate (py_get_default d "release_dates" (PList [])) ;;
        found <- first_certification releases ;;
        match found with
        | Some cert => ret cert
        | None => us_certification rest
        end
      else us_certification rest
  end.

(** [DVDReleaseChecker._get_us_certification] *)
Definition _get_us_certification (release_dates : pyval) : M pyval :=
  d <- as_dict release_dates ;;
  results <- iterate (py_get_default d "results" (PList [])) ;;
  us_certification results.

(** *** The page of the site, as [_parse_releases] reads it *)

(** A link of an element: [link.get('href', '')] and
    [link.get_text(strip=True)]. *)
Record link := { href : string; link_title : string }.

(** An element of [soup.find_all(['td', 'div', 'tr'])]: the groups 2,
    3 and 4 (month name, day, year) of the first match of the date
    pattern in its text, and the links below it. *)
Record element := {
  date_match : option (string * string * string);
  links : list link
}.

(** An entry of [movies]: [{'title': ..., 'year': ...}]. *)
Record movie_info := { mi_title : string; mi_year : Z }.

(** A [date]: year, month, day. *)
Definition date : Type := Z * Z * Z.

Definition month_names : list string :=
  ["January"; "February"; "March"; "April"; "May"; "June"; "July"; "August";
   "September"; "October"; "November"; "December"].

Fixpoint index_from (n : Z) (name : string) (names : list string) : option Z :=
  match names with
  | [] => None
  | x :: rest => if String.eqb name x then Some n else index_from (n + 1) name rest
  end.

(** The number of a month name that the pattern matched. *)
Definition month_number (name : string) : option Z :=
  index_from 1 name month_names.

(** [datetime.strptime(f"{month_name} {day} {year}", "%B %d %Y").date()]
    with [day] and [year] the [int] of the matched digits; [None] is
    the [ValueError] the loop skips the element on.  The year must
    print with four digits and the day must exist in the month. *)
Definition header_date (m : string * string * string) : option date :=
  let '(month_name, day_digits, year_digits) := m in
  match py_int day_digits, py_int year_digits, month_number month_name with
  | Some day, Some year, Some month =>
      if (1000 <=? year) && (year <=? 9999)
         && (1 <=? day) && (day <=? days_in_month year month)
      then Some (year, month, day) else None
  | _, _, _ => None
  end.

(** [needle in s] *)
Fixpoint contains (needle s : string) : bool :=
  String.prefix needle s
  || match s with
     | String _ s' => contains needle s'
     | EmptyString => false
     end.

Definition navigation_titles : list string :=
  ["digital releases"; "new dvd releases"; "release date news"].

(** The conditions under which a link is taken for a movie. *)
Definition is_movie_link (l : link) : bool :=
  contains "/movies/" (href l)
  && negb (String.eqb (link_title l) "")
  && (1 <? Z.of_nat (String.length (link_title l)))
  && negb (existsb (String.eqb (lower (link_title l))) navigation_titles).

(** The entries an element adds when the current date is the target. *)
Definition movies_of (el : element) (target current : option date) (year : Z)
  : list movie_info :=
  if bool_decide (current = target)
  then (λ l, {| mi_title := link_title l; mi_year := year |})
         <$> List.filter is_movie_link (links el)
  else [].

(** The first loop of [_parse_releases]. *)
Fixpoint collect (elements : list element) (target_date : date)
    (current_date : option date) : list movie_info :=
  match elements with
  | [] => []
  | el :: rest =>
      match date_match el with
      | Some m =>
          match header_date m with
          | None => collect rest target_date current_date
          | Some d =>
              movies_of el (Some target_date) (Some d) target_date.1.1
              ++ collect rest target_date (Some d)
          end
      | None =>
          movies_of el (Some target_date) current_date target_date.1.1
          ++ collect rest target_date current_date
      end
  end.

(** The second loop of [_parse_releases]: the first entry of every
    title. *)
Fixpoint unique_movies (movies : list movie_info) (seen : gset string)
  : list movie_info :=
  match movies with
  | [] => []
  | m :: rest =>
      if bool_decide (mi_title m ∈ seen) then unique_movies rest seen
      else m :: unique_movies rest ({[mi_title m]} ∪ seen)
  end.

(** [DVDReleaseChecker._parse_releases] *)
Definition _parse_releases (soup : list element) (target_date : date)
  : list movie_info :=
  unique_movies (collect soup target_date None) ∅.

Section WithWorld.
Variable B : Builtins.
Variable w : World.
(** The exception [response.json()] raises on a body that is not JSON. *)
Variable json_error : exn.
(** [BeautifulSoup(text, 'html.parser').find_all(['td', 'div', 'tr'])] *)
Variable soup_elements : string → outcome (list element).
(** [self.tmdb_api_key] *)
Variable tmdb_api_key : pyval.

(** [response.json()] *)
Definition json_of (r : response) : M pyval :=
  match json r with
  | Some v => ret v
  | None => raise json_error
  end.

Definition search_request (title : string) (year : option pyval)
  : http_request :=
  {| req_method := GET;
     req_url := tmdb_base_url +:+ "/search/movie";
     req_headers := [];
     req_params := [("api_key", tmdb_api_key); ("query", PStr title);
                    ("include_adult", PBool false)]
                   ++ match year with
                      | Some y => [("year", y)]
                      | None => []
                      end;
     req_json := None;
     req_timeout := 10 |}.

Definition details_request (id : pyval) : http_request :=
  {| req_method := GET;
     req_url := tmdb_base_url +:+ "/movie/" +:+ py_str B id;
     req_headers := [];
     req_params := [("api_key", tmdb_api_key);
                    ("append_to_response", PStr "release_dates")];
     req_json := None;
     req_timeout := 10 |}.

(** The search of [_lookup_on_tmdb], with its second attempt without
    the year: the answer that has results, if one has. *)
Definition search (title : string) (year : pyval) : M (option pyval) :=
  response <- send w (search_request title
                        (if py_truthy year then Some year else None)) ;;
  _ <- raise_for_status response ;;
  data <- json_of response ;;
  d <- as_dict data ;;
  if py_truthy (py_get d "results") then ret (Some data)
  else
    data <- (if py_truthy year then
               response <- send w (search_request title None) ;;
               json_of response
             else ret data) ;;
    d <- as_dict data ;;
    if py_truthy (py_get d "results") then ret (Some data) else ret None.

(** [DVDReleaseChecker._lookup_on_tmdb] *)
Definition _lookup_on_tmdb (title : string) (year : pyval)
  : M (option Release) :=
  try_except_request
    (found <- search title year ;;
     match found with
     | None => ret None
     | Some data =>
         results <- subscript data "results" ;;
         movie <- first_item results ;;
         id <- subscript movie "id" ;;
         details_response <- send w (details_request id) ;;
         details <- json_of details_response ;;
         dd <- as_dict details ;;
         certification <-
           _get_us_certification (py_get_default dd "release_dates" (PDict [])) ;;
         genres <- iterate (py_get_default dd "genres" (PList [])) ;;
         genre_names <- map_m (λ g, subscript g "name") genres ;;
         m <- as_dict movie ;;
         ret (Some
                [("id", id);
                 ("title", py_get_default m "title" (PStr title));
                 ("overview", py_get_default m "overview" (PStr ""));
                 ("vote_average", py_get_default m "vote_average" (PInt 0));
                 ("poster_path", py_get m "poster_path");
                 ("release_date", py_get_default m "release_date" (PStr ""));
                 ("original_language",
                    py_get_default m "original_language" (PStr ""));
                 ("adult", py_get_default m "adult" (PBool false));
                 ("genre_names", PList genre_names);
                 ("certification", certification);
                 ("media_type", PStr "movie")])
     end)
    (λ _, ret None).

Definition site_request : http_request :=
  {| req_method := GET;
     req_url := DVDSRELEASEDATES_URL;
     req_headers :=
       [("User-Agent",
         PStr "Mozilla/5.0 (Windows NT 10.0; Win64; x64) AppleWebKit/537.36")];
     req_params := [];
     req_json := None;
     req_timeout := 30 |}.

(** The loop of [get_todays_digital_releases] over the movies of the
    day. *)
Fixpoint lookup_all (movies : list movie_info) (releases : list Release)
  : M (list Release) :=
  match movies with
  | [] => ret releases
  | movie_info :: rest =>
      tmdb_movie <- _lookup_on_tmdb (mi_title movie_info)
                      (PInt (mi_year movie_info)) ;;
      match tmdb_movie with
      | Some release =>
          if py_truthy (PDict release)
          then lookup_all rest (releases ++ [release])
          else lookup_all rest releases
      | None => lookup_all rest releases
      end
  end.

(** [DVDReleaseChecker.get_todays_digital_releases] *)
Definition get_todays_digital_releases : M (list Release) :=
  today <- (λ t, (Val (now w t), t ++ [EvNow])) ;;
  try_except
    (response <- send w site_request ;;
     _ <- raise_for_status response ;;
     soup <- lift (soup_elements (text response)) ;;
     let movies_today :=
       _parse_releases soup (year today, month today, day today) in
     match movies_today with
     | [] => ret []
     | _ => lookup_all movies_today []
     end)
    (λ _, ret []).

End WithWorld.
End Scraper.

(** * Vocabulary of the properties *)

Import Py Eff Time Riven Orchestrator Config Main.

(** ** The Riven sink *)

(** The four outcome classes of the add call. *)
Inductive add_class := FullSuccess | NotFound | ValidationFailure | GenericError.

Definition classify (out : http_outcome) : add_class :=
  match out with
  | Response s _ _ =>
      if s =? 200 then FullSuccess
      else if s =? 404 then NotFound
      else if s =? 422 then ValidationFailure
      else GenericError
  | RequestFailed _ => GenericError
  end.

(** The result detail reported for an answer to the add call. *)
Definition detail_of (tmdb_ids : list string) (out : http_outcome) : pydict :=
  match out with
  | Response s _ _ =>
      if s =? 200 then
        [("status", PStr "success"); ("ids", PList (PStr <$> tmdb_ids))]
      else if s =? 404 then
        [("status", PStr "error"); ("code", PInt 404);
         ("message", PStr "Not found")]
      else if s =? 422 then
        [("status", PStr "error"); ("code", PInt 422);
         ("message", PStr "Validation error")]
      else [("status", PStr "error"); ("code", PInt s)]
  | RequestFailed e => [("status", PStr "error"); ("message", PStr (exn_msg e))]
  end.

(** The aggregate counts for a class and a number of ids. *)
Definition counts_of (c : add_class) (n : Z) : Z * Z :=
  match c with
  | FullSuccess => (n, 0)
  | _ => (0, n)
  end.

(** The map of Unknown items the sink obtains when it queries the
    backend after the calls of [t]. *)
Definition unknown_items_at (B : Builtins) (w : World) (self : RivenRequester)
    (media_type : string) (t : trace) : gmap string string :=
  match (_get_unknown_items B w self media_type t).1 with
  | Val m => m
  | Exc _ => ∅
  end.

(** The backend-internal ids of the targets found in that map. *)
Definition removal_ids (B : Builtins) (w : World) (self : RivenRequester)
    (media_type : string) (releases : list Release) (t : trace) : list string :=
  omap (λ tmdb_id, unknown_items_at B w self media_type t !! tmdb_id)
       (tmdb_ids_of B releases).

(** The calls that precede the add call: the query, and one bulk remove
    when there is something to remove. *)
Definition reconcile_calls (B : Builtins) (w : World) (self : RivenRequester)
    (media_type : string) (releases : list Release) (t : trace) : list event :=
  EvHttp (unknown_request B self media_type)
  :: match removal_ids B w self media_type releases t with
     | [] => []
     | ids => [EvHttp (remove_request B self ids)]
     end.

(** A setting is empty: the empty string, or another value that
    [bool] takes for false, such as [None]. *)
Definition empty_setting (v : pyval) : Prop := py_truthy v = false.

(** A result with nothing added and nothing failed. *)
Definition nothing_done : SinkResult :=
  {| success := 0; failed := 0; results := [] |}.

(** ** Concrete inputs *)

(** The concrete runs below pass no float and no container to [str] and
    read no numeric float literal, so these two builtins are never
    consulted there; what they round is a whole number of seconds below
    a day, which is a float. *)
Definition plain_builtins : Builtins :=
  {| py_repr := λ _, "<object>";
     float_literal := λ _, None;
     float_round := FFin |}.

(** A world given by its configuration file, its environment, its clock,
    its backend and its Overseerr service; logging and the constructors
    succeed, the source finds nothing, the filter keeps everything and
    notifications are enabled. *)
Definition world_of (file : option (outcome pyval))
    (env : string → option string) (clock : trace → datetime)
    (backend : trace → http_request → http_outcome)
    (overseerr : trace → Release → outcome pyval) : World :=
  {| config_file := file;
     environ := env;
     logging_config := λ _, Val ();
     construct := λ _ _, Val ();
     now := clock;
     http := backend;
     today_releases := λ _ _, Val [];
     filter_engine := λ _ releases, Val releases;
     overseerr_request := overseerr;
     discord_enabled := λ _, Val (PBool true);
     discord_send := λ _ _ _, Val ();
     sleep_result := λ _ _, Val () |}.

Definition no_env : string → option string := λ _, None.

Definition noon : datetime :=
  {| year := 2025; month := 1; day := 14;
     hour := 12; minute := 0; second := 0; microsecond := 0 |}.

(** A backend that knows the movie 603 as the Unknown item 17, refuses
    removals and accepts additions. *)
Definition stale_backend : trace → http_request → http_outcome :=
  λ _ req,
    match req_method req with
    | GET => Response 200 ""
               (Some (PDict [("items",
                              PList [PDict [("tmdb_id", PInt 603);
                                            ("id", PInt 17)]])]))
    | DELETE => Response 500 "Internal Server Error" None
    | POST => Response 200 "" None
    end.

(** A backend that cannot be reached. *)
Definition dead_backend : trace → http_request → http_outcome :=
  λ _ _, RequestFailed (Exn "ConnectionError" "connection refused").

Definition always_accepts : trace → Release → outcome pyval :=
  λ _ _, Val (PBool true).

Definition stale_world : World :=
  world_of None no_env (λ _, noon) stale_backend always_accepts.

Definition riven_client : RivenRequester :=
  {| api_url := PStr "http://riven:8083"; api_key := PStr "secret" |}.

Definition riven_no_key : RivenRequester :=
  {| api_url := PStr "http://riven:8083"; api_key := PStr "" |}.

Definition matrix : Release :=
  [("tmdb_id", PInt 603); ("title", PStr "The Matrix"); ("type", PStr "movie")].

Definition inception : Release :=
  [("tmdb_id", PInt 27205); ("title", PStr "Inception"); ("type", PStr "movie")].

(** ** The orchestrator *)

(** The submissions of the Overseerr loop: one per release, in order,
    each answered by the service after the calls made before it. *)
Fixpoint submissions (w : World) (releases : list Release) (t : trace)
  : list event :=
  match releases with
  | [] => []
  | release :: rest =>
      let ev := EvRequestMedia release (overseerr_request w t release) in
      ev :: submissions w rest (t ++ [ev])
  end.

(** The submission returned a truthy value. *)
Definition accepted (ev : event) : bool :=
  match ev with
  | EvRequestMedia _ (Val v) => py_truthy v
  | _ => false
  end.

(** The submission is about the release with key [k]. *)
Definition attempted_key (B : Builtins) (k : string) (ev : event) : bool :=
  match ev with
  | EvRequestMedia release _ => String.eqb (release_key B release) k
  | _ => false
  end.

Definition accepted_key (B : Builtins) (k : string) (ev : event) : bool :=
  attempted_key B k ev && accepted ev.

(** The number of accepted submissions. *)
Definition accepted_count (evs : list event) : Z :=
  len (List.filter accepted evs).



Definition dune : Release :=
  [("tmdb_id", PInt 438631); ("title", PStr "Dune"); ("type", PStr "movie")].

(** An Overseerr service that fails with a network error on Inception
    and accepts everything else. *)
Definition flaky_overseerr : trace → Release → outcome pyval :=
  λ _ release,
    if py_eq_str (py_get release "title") "Inception"
    then Exc (Exn "ConnectionError" "connection reset by peer")
    else Val (PBool true).

Definition flaky_world : World :=
  world_of None no_env (λ _, noon) stale_backend flaky_overseerr.





(** ** Releases of the scraping source *)

(** The best match of a TMDB search. *)
Definition tmdb_best_match : pydict :=
  [("adult", PBool false);
   ("id", PInt 27205);
   ("original_language", PStr "en");
   ("overview", PStr "A thief who steals corporate secrets.");
   ("poster_path", PStr "/inception.jpg");
   ("release_date", PStr "2010-07-15");
   ("title", PStr "Inception");
   ("vote_average", PFloat (FFin (42 # 5)))].

(** The release [_lookup_on_tmdb] makes of it. *)
Definition scraped_inception : Release :=
  [("id", PInt 27205);
   ("title", PStr "Inception");
   ("overview", PStr "A thief who steals corporate secrets.");
   ("vote_average", PFloat (FFin (42 # 5)));
   ("poster_path", PStr "/inception.jpg");
   ("release_date", PStr "2010-07-15");
   ("original_language", PStr "en");
   ("adult", PBool false);
   ("genre_names", PList [PStr "Action"; PStr "Science Fiction"]);
   ("certification", PStr "PG-13");
   ("media_type", PStr "movie")].

(** ** Configuration *)

(** The effective minimum rating, as [_validate_config] reads it:
    [config.get("filters", {}).get("min_tmdb_rating", 0)]. *)
Definition min_tmdb_rating_of (config : pydict) : pyval :=
  match py_get_default config "filters" (PDict []) with
  | PDict filters => py_get_default filters "min_tmdb_rating" (PInt 0)
  | _ => PNone
  end.

(** An environment that sets the Riven and TMDB credentials and one
    more variable. *)
Definition env_with (var value : string) : string → option string :=
  λ name,
    if String.eqb name var then Some value
    else if String.eqb name "RIVEN_API_KEY" then Some "secret"
    else if String.eqb name "RIVEN_API_URL" then Some "http://riven:8083"
    else if String.eqb name "TMDB_API_KEY" then Some "tmdb-key"
    else None.

(** No [settings.json]; [FILTERS_MIN_TMDB_RATING=nan]. *)
Definition nan_env_world : World :=
  world_of None (env_with "FILTERS_MIN_TMDB_RATING" "nan") (λ _, noon)
           dead_backend always_accepts.

(** A [settings.json] whose minimum rating is the literal [NaN], which
    [json.load] reads as [float("nan")]. *)
Definition nan_file_world : World :=
  world_of
    (Some (Val (PDict [("riven", PDict [("api_key", PStr "secret")]);
                       ("filters", PDict [("min_tmdb_rating", PFloat FNan)])])))
    no_env (λ _, noon) dead_backend always_accepts.

(** ** The scheduler *)

(** The evening of 31 January 2025, after the daily run time. *)
Definition month_end_evening : datetime :=
  {| year := 2025; month := 1; day := 31;
     hour := 20; minute := 0; second := 0; microsecond := 0 |}.

(** Scheduled daily at 19:00, started when the clock shows the evening
    of the last day of a month. *)
Definition month_end_world : World :=
  world_of None (env_with "RUN_TIME" "19:00") (λ _, month_end_evening)
           dead_backend always_accepts.

(** The same schedule in the middle of a month. *)
Definition mid_month_world : World :=
  world_of None (env_with "RUN_TIME" "19:00") (λ _, noon)
           dead_backend always_accepts.

(** ** Environment overrides *)

(** Where an override lands: [config[section][key]] or [config[key]]. *)
Inductive target :=
| Nested (section key : string)
| TopLevel (key : string).

(** The value at a target, if the configuration has one. *)
Definition read (tg : target) (config : pydict) : option pyval :=
  match tg with
  | Nested section key =>
      match dict_lookup section config with
      | Some (PDict d) => dict_lookup key d
      | _ => None
      end
  | TopLevel key => dict_lookup key config
  end.

(** The supported variables, each with its target and its type. *)
Definition supported_overrides : list (string * target * string) :=
  ((λ e : string * (string * string * option string),
      (e.1, Nested e.2.1.1 e.2.1.2, default "str" e.2.2)) <$> env_map)
  ++ ((λ e : string * (string * option string),
         (e.1, TopLevel e.2.1, default "str" e.2.2)) <$> top_level_map).

(** The variable is unset, empty or made of whitespace only. *)
Definition blank (value : option string) : Prop :=
  value = None ∨ ∃ v, value = Some v ∧ strip v = "".

(** The value of a variable read as a type: a boolean is true for
    [true], [1], [yes] and [on] in any case, a list is the non-empty
    stripped items between commas, a string is the value as it is. *)
Definition as_type (B : Builtins) (data_type value : string) : option pyval :=
  if String.eqb data_type "bool" then
    Some (PBool (bool_decide (lower value ∈ ["true"; "1"; "yes"; "on"])))
  else if String.eqb data_type "int" then PInt <$> py_int value
  else if String.eqb data_type "float" then PFloat <$> py_float B value
  else if String.eqb data_type "list" then Some (PList (split_list value))
  else Some (PStr value).

(** One iteration of either loop of [_apply_env_overrides]. *)
Definition override_step (B : Builtins) (w : World) (config : pydict)
    (e : string * target * string) : M pydict :=
  match e.1.2 with
  | Nested section key =>
      override_nested B w config (e.1.1, (section, key, Some e.2))
  | TopLevel key => override_top B w config (e.1.1, (key, Some e.2))
  end.

(** The override of [tg'] leaves the value at [tg] alone. *)
Definition independent (tg tg' : target) : bool :=
  match tg, tg' with
  | Nested s k, Nested s' k' => negb (String.eqb s s' && String.eqb k k')
  | Nested s _, TopLevel k' => negb (String.eqb s k')
  | TopLevel k, Nested s' _ => negb (String.eqb k s')
  | TopLevel k, TopLevel k' => negb (String.eqb k k')
  end.

(** No two overrides of the list touch the same place. *)
Fixpoint separated (l : list (string * target * string)) : bool :=
  match l with
  | [] => true
  | e :: rest =>
      forallb (λ e', independent e.1.2 e'.1.2 && independent e'.1.2 e.1.2) rest
      && separated rest
  end.

(** The conversion the code applies for an override. *)
Definition conversion (B : Builtins) (e : string * target * string)
    (v : string) : outcome pyval :=
  match e.1.2 with
  | Nested _ _ => convert B e.2 v
  | TopLevel _ => convert_top B e.2 v
  end.

(** Only [FILTERS_EXCLUDED_GENRES] is set. *)
Definition genres_world : World :=
  world_of None
    (λ name, if String.eqb name "FILTERS_EXCLUDED_GENRES"
             then Some "Horror, ,Documentary" else None)
    (λ _, noon) dead_backend always_accepts.


(** * Vocabulary of the further properties *)

(** The HTTP calls among events. *)
Definition is_http (ev : event) : bool :=
  match ev with
  | EvHttp _ => true
  | _ => false
  end.

(** The request carries the API key of the requester. *)
Definition carries_key (self : RivenRequester) (ev : event) : Prop :=
  match ev with
  | EvHttp req => dict_lookup "x-api-key" (req_headers req) = Some (api_key self)
  | _ => False
  end.

(** The release is one [add_media] accepts: typed as a movie and with a
    truthy [tmdb_id]. *)
Definition addable (release : Release) : Prop :=
  py_eq_str (py_get release "type") "movie" = true
  ∧ py_truthy (py_get release "tmdb_id") = true.

(** A JSON value is an object. *)
Definition is_object (v : pyval) : bool :=
  match v with
  | PDict _ => true
  | _ => false
  end.

(** A world whose backend cannot be reached. *)
Definition dead_world : World :=
  world_of None no_env (λ _, noon) dead_backend always_accepts.

(** A backend whose list of Unknown items has a stray [null]. *)
Definition sloppy_backend : trace → http_request → http_outcome :=
  λ _ req,
    match req_method req with
    | GET => Response 200 ""
               (Some (PDict [("items",
                              PList [PDict [("tmdb_id", PInt 603);
                                            ("id", PInt 17)];
                                     PNone])]))
    | _ => Response 200 "" None
    end.

Definition sloppy_world : World :=
  world_of None no_env (λ _, noon) sloppy_backend always_accepts.

(** ** The orchestrator *)

(** The source, the filter engine and the notifier return normally,
    whatever was called before. *)
Definition collaborators_return (w : World) : Prop :=
  (∀ source t, ∃ releases, today_releases w source t = Val releases)
  ∧ (∀ t releases, ∃ filtered, filter_engine w t releases = Val filtered)
  ∧ (∀ t, ∃ v, discord_enabled w t = Val v)
  ∧ (∀ t releases tbl, discord_send w t releases tbl = Val ()).

(** Some release of the list has the key [k]. *)
Definition has_key (B : Builtins) (k : string) (releases : list Release) : bool :=
  existsb (λ r, String.eqb (release_key B r) k) releases.

(** The summary of a run in which nothing was requested. *)
Definition idle_summary (filtered : list Release) : summary :=
  {| filtered_releases := filtered;
     release_results := ∅;
     overseerr_successful := 0;
     overseerr_failed := 0;
     riven_success_count := 0;
     riven_failed_count := 0 |}.

(** ** Configuration *)

(** The keys of a dictionary are distinct, as they are in every Python
    dictionary. *)
Definition distinct_keys (d : pydict) : Prop := NoDup d.*1.

(** What [_merge_with_defaults] stores for a value of the file, given
    what the defaults have under the same key. *)
Definition merged_value (v : pyval) (old : option pyval) : pyval :=
  match v, old with
  | PDict d, Some (PDict od) => PDict (dict_union od d)
  | _, _ => v
  end.

(** The URL of a service passes the check: it is empty, or a string
    that starts with one of the two schemes. *)
Definition url_ok (url : pyval) : Prop :=
  py_truthy url = false
  ∨ ∃ u, url = PStr u
         ∧ (startswith u "http://" = true ∨ startswith u "https://" = true).

(** The section of a service is an object, and its URL passes the check
    when its API key is set. *)
Definition service_ok (config : pydict) (service : string) : Prop :=
  ∃ d, py_get_default config service (PDict []) = PDict d
       ∧ (py_truthy (py_get d "api_key") = true →
          url_ok (py_get_default d "api_url" (PStr ""))).

(** The configurations [_validate_config] accepts. *)
Definition valid_config (config : pydict) : Prop :=
  service_ok config "overseerr"
  ∧ service_ok config "riven"
  ∧ py_lt_int (min_tmdb_rating_of config) 0 = Some false
  ∧ py_gt_int (min_tmdb_rating_of config) 10 = Some false.

(** A settings file with a custom section and a partial filter
    section. *)
Definition partial_settings : pydict :=
  [("filters", PDict [("min_tmdb_rating", PInt 6)]);
   ("riven", PDict [("api_key", PStr "secret");
                    ("api_url", PStr "http://riven:8083")]);
   ("plex", PDict [("library", PStr "Movies")])].

(** A settings file that gives an object where a string is expected. *)
Definition misplaced_object : pydict :=
  [("run_time", PDict [("hour", PInt 19)])].

(** The Riven key is empty and its URL has no scheme; the Overseerr key
    is set and its URL is fine. *)
Definition unchecked_url_config : pydict :=
  [("overseerr", PDict [("api_url", PStr "https://overseerr.local");
                        ("api_key", PStr "secret")]);
   ("riven", PDict [("api_url", PStr "riven:8083"); ("api_key", PStr "")]);
   ("filters", PDict [("min_tmdb_rating", PInt 7)])].

(** ** Computations that make no call *)

(** The computation leaves the trace as it is. *)
Definition traceless {A} (m : M A) : Prop := ∀ t, ∃ o, m t = (o, t).

(** ** The entry point *)

(** [bool(config.get(section, {}).get("api_key"))], false when the
    section is not an object. *)
Definition key_set (config : pydict) (section : string) : bool :=
  match py_get_default config section (PDict []) with
  | PDict d => py_truthy (py_get d "api_key")
  | _ => false
  end.

(** The configuration lets [main] start: a requester key and the TMDB
    key are set. *)
Definition startable (config : pydict) : bool :=
  (key_set config "overseerr" || key_set config "riven")
  && key_set config "tmdb".

(** [config.get("run_time", "")] *)
Definition run_time_of (config : pydict) : pyval :=
  py_get_default config "run_time" (PStr "").

(** Only the Riven API key is set: no TMDB key. *)
Definition no_tmdb_world : World :=
  world_of None
    (λ name, if String.eqb name "RIVEN_API_KEY" then Some "secret" else None)
    (λ _, noon) dead_backend always_accepts.

(** Run once: the Riven and TMDB keys are set, no run time. *)
Definition run_once_world : World :=
  world_of None (env_with "LOGGING_LEVEL" "DEBUG") (λ _, noon)
           stale_backend always_accepts.

(** ** The scheduler *)

(** The fields of a [datetime] are in range. *)
Definition valid_datetime (d : datetime) : Prop :=
  1 ≤ month d ≤ 12
  ∧ 1 ≤ day d ≤ days_in_month (year d) (month d)
  ∧ 0 ≤ hour d ≤ 23
  ∧ 0 ≤ minute d ≤ 59
  ∧ 0 ≤ second d ≤ 59
  ∧ 0 ≤ microsecond d ≤ 999999.

(** Microseconds since midnight. *)
Definition time_of_day (d : datetime) : Z :=
  ((hour d * 60 + minute d) * 60 + second d) * 1000000 + microsecond d.

(** The run time [h:m] as microseconds since midnight. *)
Definition run_time_of_day (h m : Z) : Z := (h * 60 + m) * 60 * 1000000.

(** A [time.sleep] that refuses a whole number of seconds too large
    for its timestamp, as it does for a delay of [10 ^ 30] minutes. *)
Definition overflowing_sleep : trace → pyval → outcome unit :=
  λ _ seconds,
    match seconds with
    | PInt z =>
        if 9223372036 <? z
        then Exc (Exn "OverflowError"
                      "timestamp too large to convert to C PyTime_t")
        else Val ()
    | _ => Val ()
    end.

(** Scheduled daily at 19:00 in the middle of a month, with that
    [time.sleep]. *)
Definition long_delay_world : World :=
  {| config_file := config_file mid_month_world;
     environ := environ mid_month_world;
     logging_config := logging_config mid_month_world;
     construct := construct mid_month_world;
     now := now mid_month_world;
     http := http mid_month_world;
     today_releases := today_releases mid_month_world;
     filter_engine := filter_engine mid_month_world;
     overseerr_request := overseerr_request mid_month_world;
     discord_enabled := discord_enabled mid_month_world;
     discord_send := discord_send mid_month_world;
     sleep_result := overflowing_sleep |}.

(** ** The scraping source *)

(** The titles of the entries, in order. *)
Definition titles (movies : list Scraper.movie_info) : list string :=
  Scraper.mi_title <$> movies.

(** The link stands in an element at or after a date header of the
    target date. *)
Definition under_header (soup : list Scraper.element) (target : Scraper.date)
    (l : Scraper.link) : Prop :=
  ∃ (i j : nat) header m el,
    soup !! i = Some header
    ∧ Scraper.date_match header = Some m
    ∧ Scraper.header_date m = Some target
    ∧ (i ≤ j)%nat
    ∧ soup !! j = Some el
    ∧ l ∈ Scraper.links el.

(** The releases listed for a country and the certification of one. *)
Definition releases_of (country : pydict) : list pyval :=
  match py_get_default country "release_dates" (PList []) with
  | PList l => l
  | _ => []
  end.

Definition certification_of (release : pyval) : pyval :=
  match release with
  | PDict d => py_get_default d "certification" (PStr "")
  | _ => PStr ""
  end.

(** The certifications of the releases of the US entries, in order. *)
Definition us_certifications (countries : list pydict) : list pyval :=
  flat_map (λ c, if py_eq_str (py_get c "iso_3166_1") "US"
                 then certification_of <$> releases_of c else [])
           countries.

(** A US entry lists its releases as objects. *)
Definition well_formed_country (country : pydict) : bool :=
  if py_eq_str (py_get country "iso_3166_1") "US" then
    match py_get_default country "release_dates" (PList []) with
    | PList l => forallb is_object l
    | _ => false
    end
  else true.

(** The keys of the record [_lookup_on_tmdb] returns. *)
Definition record_keys : list string :=
  ["id"; "title"; "overview"; "vote_average"; "poster_path"; "release_date";
   "original_language"; "adult"; "genre_names"; "certification"; "media_type"].

(** Release data with a German and a US entry; the first US release
    has no certification. *)
Definition sample_countries : list pydict :=
  [[("iso_3166_1", PStr "DE");
    ("release_dates", PList [PDict [("certification", PStr "12")]])];
   [("iso_3166_1", PStr "US");
    ("release_dates", PList [PDict [("certification", PStr "")];
                             PDict [("certification", PStr "PG-13")]])]].

Definition sample_release_dates : pydict :=
  [("results", PList (PDict <$> sample_countries))].

(** A TMDB that finds Inception for every search and gives its details
    for every other request. *)
Definition tmdb_backend : trace → http_request → http_outcome :=
  λ _ req,
    if String.eqb (req_url req) (Scraper.tmdb_base_url +:+ "/search/movie")
    then Response 200 ""
           (Some (PDict [("results", PList [PDict tmdb_best_match])]))
    else Response 200 ""
           (Some (PDict
              [("genres",
                PList [PDict [("id", PInt 28); ("name", PStr "Action")]]);
               ("release_dates", PDict sample_release_dates)])).

Definition tmdb_world : World :=
  world_of None no_env (λ _, noon) tmdb_backend always_accepts.

(** What [response.json()] raises on a body that is not JSON. *)
Definition json_decode_error : exn := Exn "JSONDecodeError" "Expecting value".

(** A TMDB that finds nothing. *)
Definition empty_tmdb_backend : trace → http_request → http_outcome :=
  λ _ _, Response 200 "" (Some (PDict [("results", PList [])])).

Definition empty_tmdb_world : World :=
  world_of None no_env (λ _, noon) empty_tmdb_backend always_accepts.

(** A page of the site: a header of another day with a link, the header
    of the target day, two rows below it, one of which repeats a title
    and has a navigation link. *)
Definition january_14 : Scraper.date := (2025, 1, 14).

Definition sample_page : list Scraper.element :=
  [ {| Scraper.date_match := Some ("January", "7", "2025");
       Scraper.links := [ {| Scraper.href := "/movies/1/wicked";
                             Scraper.link_title := "Wicked" |} ] |};
    {| Scraper.date_match := Some ("January", "14", "2025");
       Scraper.links := [ {| Scraper.href := "/movies/2/inception";
                             Scraper.link_title := "Inception" |} ] |};
    {| Scraper.date_match := None;
       Scraper.links := [ {| Scraper.href := "/movies/2/inception";
                             Scraper.link_title := "Inception" |};
                          {| Scraper.href := "/digital-releases/";
                             Scraper.link_title := "Digital Releases" |} ] |};
    {| Scraper.date_match := None;
       Scraper.links := [ {| Scraper.href := "/movies/3/dune";
                             Scraper.link_title := "Dune" |} ] |} ].

(** The service answers the request, whenever it is made, with a
    success status and an object without results. *)
Definition finds_nothing (w : World) (req : http_request) : Prop :=
  ∀ t, ∃ s tx d,
    http w t req = Response s tx (Some (PDict d))
    ∧ (400 <=? s) && (s <? 600) = false
    ∧ py_truthy (py_get d "results") = false.

(** The year as the first search of [_lookup_on_tmdb] passes it. *)
Definition searched_year (year : pyval) : option pyval :=
  if py_truthy year then Some year else None.

(** The release has the keys of the scraping source and is marked as a
    movie under [media_type]. *)
Definition scraped_record (release : Release) : Prop :=
  release.*1 = record_keys
  ∧ dict_lookup "media_type" release = Some (PStr "movie").

(** * Properties *)

(** ** Inversion of computations *)

Lemma bind_val {A C} (m : M A) (k : A → M C) t c t' :
  (x <- m ;; k x) t = (Val c, t') →
  ∃ a t1, m t = (Val a, t1) ∧ k a t1 = (Val c, t').
Proof.
  unfold bind. destruct (m t) as [[a|e] t1]; [eauto|discriminate].
Qed.

Lemma as_dict_val v t d t' :
  as_dict v t = (Val d, t') → v = PDict d ∧ t' = t.
Proof. destruct v; try discriminate. by intros [= -> ->]. Qed.

Lemma ret_val {A} (a a' : A) t t' :
  ret a t = (Val a', t') → a' = a ∧ t' = t.
Proof. by intros [= -> ->]. Qed.

Lemma compare_val c t b t' :
  compare c t = (Val b, t') → c = Some b ∧ t' = t.
Proof. destruct c; try discriminate. by intros [= -> ->]. Qed.

(** ** The Riven sink *)

Section RivenSink.
Variable B : Builtins.
Variable w : World.
Variable self : RivenRequester.

Lemma unknown_of_items_pure items acc t :
  ∃ o, unknown_of_items B items acc t = (o, t).
Proof.
  revert acc. induction items as [|item rest IH]; intros acc; simpl.
  - eexists; reflexivity.
  - unfold bind, as_dict. destruct item; try (eexists; reflexivity).
    unfold ret. destruct (py_truthy _); apply IH.
Qed.

Lemma get_unknown_items_run media_type t :
  ∃ m, _get_unknown_items B w self media_type t
       = (Val m, t ++ [EvHttp (unknown_request B self media_type)]).
Proof.
  unfold _get_unknown_items, try_except, bind, send.
  destruct (http w t _) as [s tx j|e]; [|eexists; reflexivity].
  simpl. destruct (s =? 200); [|eexists; reflexivity].
  unfold response_json; simpl.
  destruct j as [data|]; [|eexists; reflexivity].
  unfold ret at 1. unfold as_dict.
  destruct data; try (eexists; reflexivity).
  unfold ret at 1. unfold iterate.
  destruct (py_get_default _ _ _); try (eexists; reflexivity); unfold ret at 1.
  all: match goal with
       | |- context [unknown_of_items B ?l ?a ?t'] =>
           destruct (unknown_of_items_pure l a t') as [o ->]
       end; destruct o; eexists; reflexivity.
Qed.

Lemma unknown_items_at_run media_type t :
  _get_unknown_items B w self media_type t
  = (Val (unknown_items_at B w self media_type t),
     t ++ [EvHttp (unknown_request B self media_type)]).
Proof.
  unfold unknown_items_at.
  destruct (get_unknown_items_run media_type t) as [m ->]. reflexivity.
Qed.

Lemma remove_items_run item_ids t :
  item_ids ≠ [] →
  ∃ b, _remove_items B w self item_ids t
       = (Val b, t ++ [EvHttp (remove_request B self item_ids)]).
Proof.
  intros Hne. destruct item_ids as [|i ids]; [done|].
  unfold _remove_items, try_except, bind, send.
  destruct (http w t _) as [s tx j|e]; [|eexists; reflexivity].
  simpl. destruct (s =? 200); eexists; reflexivity.
Qed.

(** What [_add_items] does once it has ids to submit. *)
Lemma add_items_run media_type releases t :
  tmdb_ids_of B releases ≠ [] →
  let tmdb_ids := tmdb_ids_of B releases in
  let t_add := t ++ reconcile_calls B w self media_type releases t in
  let request := add_request B self media_type tmdb_ids in
  let out := http w t_add request in
  _add_items B w self media_type releases t
  = (Val {| success := (counts_of (classify out) (len tmdb_ids)).1;
            failed := match out with
                      | Response _ _ _ => (counts_of (classify out) (len tmdb_ids)).2
                      | RequestFailed _ => len releases
                      end;
            results := [detail_of tmdb_ids out] |},
     t_add ++ [EvHttp request]).
Proof.
  intros Hne. cbv zeta.
  unfold _add_items, try_except.
  destruct (tmdb_ids_of B releases) as [|i ids] eqn:Hids; [done|].
  rewrite <- Hids.
  unfold bind at 1. rewrite unknown_items_at_run.
  unfold reconcile_calls, removal_ids. rewrite Hids. rewrite <- Hids.
  destruct (omap _ (tmdb_ids_of B releases)) as [|r rs] eqn:Hrm.
  - unfold bind at 1. unfold ret at 1.
    unfold bind, send.
    destruct (http w _ _) as [s tx j|e]; simpl; [|reflexivity].
    destruct (s =? 200); [reflexivity|].
    destruct (s =? 404); [reflexivity|].
    destruct (s =? 422); reflexivity.
  - unfold bind at 1.
    destruct (remove_items_run (r :: rs)
                (t ++ [EvHttp (unknown_request B self media_type)]))
      as [b ->]; [done|].
    rewrite <- !app_assoc. simpl.
    unfold bind, send.
    destruct (http w _ _) as [s tx j|e]; simpl;
      [|unfold ret; by rewrite <- !app_assoc].
    destruct (s =? 200); [unfold ret; by rewrite <- !app_assoc|].
    destruct (s =? 404); [unfold ret; by rewrite <- !app_assoc|].
    destruct (s =? 422); unfold ret; by rewrite <- !app_assoc.
Qed.

(** [add_media] catches every exception and only adds calls. *)
Lemma add_media_total releases t :
  ∃ res evs, add_media B w self releases t = (Val res, t ++ evs).
Proof.
  unfold add_media. destruct (negb (is_enabled self)).
  { exists nothing_done, []. by rewrite app_nil_r. }
  destruct (List.filter (λ r, py_eq_str (py_get r "type") "movie") releases)
    as [|m ms].
  { exists nothing_done, []. by rewrite app_nil_r. }
  destruct (tmdb_ids_of B (m :: ms)) as [|i ids] eqn:Hids.
  - unfold _add_items, try_except. rewrite Hids.
    eexists _, []. unfold ret. by rewrite app_nil_r.
  - rewrite add_items_run by (by rewrite Hids).
    eexists _, _. by rewrite <- app_assoc.
Qed.

Lemma tmdb_ids_all releases :
  Forall (λ r, py_truthy (py_get r "tmdb_id") = true) releases →
  tmdb_ids_of B releases = (λ r, py_str B (py_get r "tmdb_id")) <$> releases.
Proof.
  unfold tmdb_ids_of. induction 1 as [|r rs Hr _ IH]; [done|].
  simpl. rewrite Hr. rewrite fmap_cons. by f_equal.
Qed.

Lemma detail_of_distinct tmdb_ids o1 o2 :
  classify o1 ≠ classify o2 → detail_of tmdb_ids o1 ≠ detail_of tmdb_ids o2.
Proof.
  destruct o1 as [s1 x1 j1|e1], o2 as [s2 x2 j2|e2]; simpl;
    repeat match goal with
           | |- context [?s =? ?n] => destruct (Z.eqb_spec s n); subst
           end;
    try congruence; intros _ Heq; inversion Heq; lia.
Qed.

(** C5: for a non-empty list of releases that all carry a TMDB id,
    the add call falls in exactly one of four classes, decided by
    the answer to the POST: on status 200 it returns success = number
    of ids and failed = 0; on 404, on 422, and on any other status or
    an exception it returns success = 0 and failed = number of ids;
    the result detail of one class differs from that of any other. *)
Theorem add_outcome_classes media_type releases t :
  releases ≠ [] →
  Forall (λ r, py_truthy (py_get r "tmdb_id") = true) releases →
  let tmdb_ids := tmdb_ids_of B releases in
  let t_add := t ++ reconcile_calls B w self media_type releases t in
  let out := http w t_add (add_request B self media_type tmdb_ids) in
  len tmdb_ids = len releases
  ∧ (_add_items B w self media_type releases t).1
    = Val {| success := (counts_of (classify out) (len tmdb_ids)).1;
             failed := (counts_of (classify out) (len tmdb_ids)).2;
             results := [detail_of tmdb_ids out] |}
  ∧ (∀ o1 o2, classify o1 ≠ classify o2 →
              detail_of tmdb_ids o1 ≠ detail_of tmdb_ids o2).
Proof.
  intros Hne Hall. cbv zeta.
  assert (Hlen : len (tmdb_ids_of B releases) = len releases).
  { rewrite (tmdb_ids_all _ Hall). unfold len. by rewrite length_fmap. }
  split; [exact Hlen|]. split; [|apply detail_of_distinct].
  rewrite add_items_run.
  - simpl. destruct (http w _ _); [reflexivity|].
    simpl. by rewrite Hlen.
  - rewrite (tmdb_ids_all _ Hall). by destruct releases.
Qed.

(** C6: when the sink has ids to add, it first queries the backend
    for the items in the Unknown state of the media type, then issues
    one bulk remove call carrying the backend-internal id of every
    target id found in the map obtained, then the add call; the add
    call is issued whatever the query and the remove call answer. *)
Theorem unknown_items_removed_before_add media_type releases t :
  tmdb_ids_of B releases ≠ [] →
  let tmdb_ids := tmdb_ids_of B releases in
  let query := unknown_request B self media_type in
  let unknown_items := unknown_items_at B w self media_type t in
  let to_remove := removal_ids B w self media_type releases t in
  req_method query = GET
  ∧ dict_lookup "states" (req_params query) = Some (PStr "Unknown")
  ∧ dict_lookup "type" (req_params query) = Some (PStr media_type)
  ∧ (_add_items B w self media_type releases t).2
    = t ++ [EvHttp query]
        ++ match to_remove with
           | [] => []
           | _ => [EvHttp (remove_request B self to_remove)]
           end
        ++ [EvHttp (add_request B self media_type tmdb_ids)]
  ∧ req_json (remove_request B self to_remove)
    = Some (PDict [("ids", PList (PStr <$> to_remove))])
  ∧ (∀ tmdb_id internal_id,
       tmdb_id ∈ tmdb_ids →
       unknown_items !! tmdb_id = Some internal_id →
       internal_id ∈ to_remove).
Proof.
  intros Hne. cbv zeta. repeat split.
  - rewrite add_items_run by done. simpl.
    unfold reconcile_calls. rewrite <- app_assoc. simpl.
    by destruct (removal_ids _ _ _ _ _ _).
  - intros tmdb_id internal_id Hin Hlook.
    unfold removal_ids. apply list_elem_of_omap. eauto.
Qed.

(** C9: with an empty API key or an empty API URL, [add_media]
    returns success 0, failed 0 and no results for every list of
    releases, and makes no call: the trace is the one it started from. *)
Theorem add_media_disabled releases t :
  empty_setting (api_key self) ∨ empty_setting (api_url self) →
  add_media B w self releases t = (Val nothing_done, t).
Proof.
  intros Hempty. unfold add_media, is_enabled, empty_setting in *.
  destruct Hempty as [-> | ->]; [done|].
  by rewrite andb_false_r.
Qed.
End RivenSink.

Lemma add_outcome_classes_witness :
  let tmdb_ids := tmdb_ids_of plain_builtins [matrix; inception] in
  let t_add := [] ++ reconcile_calls plain_builtins stale_world riven_client
                       "movie" [matrix; inception] [] in
  let out := http stale_world t_add
               (add_request plain_builtins riven_client "movie" tmdb_ids) in
  len tmdb_ids = len [matrix; inception]
  ∧ (_add_items plain_builtins stale_world riven_client "movie"
       [matrix; inception] []).1
    = Val {| success := (counts_of (classify out) (len tmdb_ids)).1;
             failed := (counts_of (classify out) (len tmdb_ids)).2;
             results := [detail_of tmdb_ids out] |}
  ∧ (∀ o1 o2, classify o1 ≠ classify o2 →
              detail_of tmdb_ids o1 ≠ detail_of tmdb_ids o2).
Proof.
  apply (add_outcome_classes plain_builtins stale_world riven_client
           "movie" [matrix; inception] []).
  - discriminate.
  - repeat constructor.
Defined.

Lemma unknown_items_removed_before_add_witness :
  (_add_items plain_builtins stale_world riven_client "movie"
     [matrix; inception] []).2
  = [EvHttp (unknown_request plain_builtins riven_client "movie");
     EvHttp (remove_request plain_builtins riven_client ["17"]);
     EvHttp (add_request plain_builtins riven_client "movie" ["603"; "27205"])].
Proof.
  destruct (unknown_items_removed_before_add plain_builtins stale_world
              riven_client "movie" [matrix; inception] [])
    as (_ & _ & _ & Hcalls & _).
  - discriminate.
  - exact Hcalls.
Defined.

Lemma add_media_disabled_witness :
  add_media plain_builtins stale_world riven_no_key [matrix; inception] []
  = (Val nothing_done, []).
Proof.
  apply (add_media_disabled plain_builtins stale_world riven_no_key).
  left. reflexivity.
Defined.

(** ** The orchestrator *)

Section Orchestration.
Variable B : Builtins.
Variable w : World.

Lemma ensure_entry_lookup tmdb_id tbl k :
  ensure_entry tmdb_id tbl !! k
  = match tbl !! k with
    | Some f => Some f
    | None => if decide (tmdb_id = k) then Some (Flags false false) else None
    end.
Proof.
  unfold ensure_entry. destruct (tbl !! tmdb_id) as [f|] eqn:Hk.
  - destruct (tbl !! k) eqn:Hk'; [done|].
    case_decide; [congruence|done].
  - rewrite lookup_insert. case_decide; subst.
    + by rewrite Hk.
    + by destruct (tbl !! k).
Qed.

Lemma accepted_key_attempted k evs :
  existsb (attempted_key B k) evs = false →
  existsb (accepted_key B k) evs = false.
Proof.
  induction evs as [|ev evs IH]; simpl; [done|].
  intros [H1 H2]%orb_false_elim. unfold accepted_key at 1.
  rewrite H1. simpl. auto.
Qed.

(** One iteration of the Overseerr loop. *)
Lemma overseerr_body_run st release t :
  let ev := EvRequestMedia release (overseerr_request w t release) in
  ∃ st',
    overseerr_body B w st release t = (Val st', t ++ [ev])
    ∧ successful st' = successful st + (if accepted ev then 1 else 0)
    ∧ unsuccessful st' = unsuccessful st + (if accepted ev then 0 else 1)
    ∧ ∀ k, table st' !! k
           = if attempted_key B k ev
             then Some (Flags (from_option overseerr false (table st !! k)
                               || accepted ev)
                              (from_option riven false (table st !! k)))
             else table st !! k.
Proof.
  cbv zeta. unfold overseerr_body, try_except, bind, request_media.
  simpl. destruct (overseerr_request w t release) as [v|e]; simpl.
  - destruct (py_truthy v); eexists; (split; [reflexivity|]); simpl;
      (split; [lia|]); (split; [lia|]); intros k.
    + rewrite lookup_alter, ensure_entry_lookup.
      destruct (String.eqb_spec (release_key B release) k) as [->|Hne].
      * rewrite decide_True by done.
        destruct (table st !! k) as [[o r]|]; simpl;
          [by rewrite orb_true_r|].
        by rewrite decide_True.
      * rewrite decide_False by done. rewrite ensure_entry_lookup.
        rewrite decide_False by done. by destruct (table st !! k).
    + rewrite ensure_entry_lookup.
      destruct (String.eqb_spec (release_key B release) k) as [->|Hne].
      * destruct (table st !! k) as [[o r]|]; simpl;
          [by rewrite orb_false_r|].
        by rewrite decide_True.
      * rewrite decide_False by done. by destruct (table st !! k).
  - eexists; (split; [reflexivity|]); simpl;
      (split; [lia|]); (split; [lia|]); intros k.
    rewrite ensure_entry_lookup.
    destruct (String.eqb_spec (release_key B release) k) as [->|Hne].
    * destruct (table st !! k) as [[o r]|]; simpl;
        [by rewrite orb_false_r|].
      by rewrite decide_True.
    * rewrite decide_False by done. by destruct (table st !! k).
Qed.

(** The whole loop: it never raises, submits every release in order
    and tallies the answers. *)
Lemma overseerr_loop_run releases st t :
  let evs := submissions w releases t in
  ∃ st',
    overseerr_loop B w releases st t = (Val st', t ++ evs)
    ∧ successful st' = successful st + accepted_count evs
    ∧ unsuccessful st' = unsuccessful st + (len releases - accepted_count evs)
    ∧ ∀ k, table st' !! k
           = if existsb (attempted_key B k) evs
             then Some (Flags (from_option overseerr false (table st !! k)
                               || existsb (accepted_key B k) evs)
                              (from_option riven false (table st !! k)))
             else table st !! k.
Proof.
  cbv zeta. revert st t.
  induction releases as [|release rest IH]; intros st t.
  - exists st. simpl. unfold ret. rewrite app_nil_r.
    unfold accepted_count, len. simpl. repeat split; try lia; done.
  - destruct (overseerr_body_run st release t) as (st1 & Hrun & Hs & Hu & Ht).
    destruct (IH st1 (t ++ [EvRequestMedia release (overseerr_request w t release)]))
      as (st' & Hrun' & Hs' & Hu' & Ht').
    exists st'. cbn [overseerr_loop submissions]. unfold bind.
    rewrite Hrun, Hrun'.
    rewrite <- app_assoc. split; [reflexivity|].
    set (ev := EvRequestMedia release (overseerr_request w t release)) in *.
    set (evs := submissions w rest (t ++ [ev])) in *.
    assert (Hcount : accepted_count (ev :: evs)
                     = (if accepted ev then 1 else 0) + accepted_count evs).
    { unfold accepted_count, len. cbn [List.filter].
      destruct (accepted ev); cbn [length]; lia. }
    split; [rewrite Hs', Hs, Hcount; lia|].
    split.
    { rewrite Hu', Hu, Hcount. unfold len. simpl length.
      destruct (accepted ev); lia. }
    assert (Hcons : ∀ f, existsb f (ev :: evs) = f ev || existsb f evs)
      by done.
    intros k. rewrite Ht', Ht, !Hcons.
    unfold accepted_key at 2.
    destruct (attempted_key B k ev) eqn:Hatt;
      cbn [orb andb from_option overseerr riven].
    + destruct (existsb (attempted_key B k) evs) eqn:Hex.
      * by rewrite orb_assoc.
      * by rewrite (accepted_key_attempted _ _ Hex), orb_false_r.
    + done.
Qed.

Lemma mark_riven_lookup tbl release k :
  mark_riven B tbl release !! k
  = if String.eqb (release_key B release) k
    then Some (Flags (from_option overseerr false (tbl !! k)) true)
    else tbl !! k.
Proof.
  unfold mark_riven. rewrite lookup_alter, ensure_entry_lookup.
  destruct (String.eqb_spec (release_key B release) k) as [->|Hne].
  - rewrite decide_True by done.
    destruct (tbl !! k) as [[o r]|]; [done|]. by rewrite decide_True.
  - rewrite decide_False by done. rewrite ensure_entry_lookup.
    rewrite decide_False by done. by destruct (tbl !! k).
Qed.

Lemma foldl_mark_riven_lookup releases tbl k :
  foldl (mark_riven B) tbl releases !! k
  = if existsb (λ r, String.eqb (release_key B r) k) releases
    then Some (Flags (from_option overseerr false (tbl !! k)) true)
    else tbl !! k.
Proof.
  revert tbl. induction releases as [|release rest IH]; intros tbl; [done|].
  cbn [foldl existsb]. rewrite IH, mark_riven_lookup.
  destruct (String.eqb (release_key B release) k); cbn [orb from_option].
  - by destruct (existsb _ rest).
  - done.
Qed.

Lemma existsb_key_of releases release :
  release ∈ releases →
  existsb (λ r, String.eqb (release_key B r) (release_key B release)) releases
  = true.
Proof.
  intros Hin. apply existsb_exists. exists release. split.
  - by apply list_elem_of_In.
  - apply String.eqb_refl.
Qed.


(** The Overseerr step: it never raises and sets no riven flag. *)
Lemma overseerr_step_run ov filtered t :
  ∃ st evs,
    overseerr_step B w ov filtered t = (Val st, t ++ evs)
    ∧ ∀ k f, table st !! k = Some f → riven f = false.
Proof.
  unfold overseerr_step.
  destruct ov as [h|], filtered as [|r rs];
    try (eexists _, []; unfold ret; rewrite app_nil_r;
         split; [reflexivity|]; intros k f; simpl;
         rewrite lookup_empty; discriminate).
  destruct (overseerr_loop_run (r :: rs)
              {| table := ∅; successful := 0; unsuccessful := 0 |} t)
    as (st & Hrun & _ & _ & Htbl).
  exists st, (submissions w (r :: rs) t). split; [exact Hrun|].
  intros k f. rewrite Htbl. cbn [table]. rewrite lookup_empty.
  destruct (existsb _ _); [|discriminate].
  by intros [= <-].
Qed.


(** C2: in every run with the Riven sink and a non-empty filtered set,
    if the batch call returns a success count above zero, every release
    of the filtered set has its riven flag set in the outcome table,
    under the string form of its tmdb_id, whatever the count is; if the
    count is zero, no riven flag is set.  The table is the one the
    notification step receives and the run ends with. *)
Theorem riven_batch_marks_all ov rr filtered t :
  filtered ≠ [] →
  ∃ st t1 res t2 tbl,
    overseerr_step B w ov filtered t = (Val st, t1)
    ∧ add_media B w rr filtered t1 = (Val res, t2)
    ∧ riven_step B w (Some rr) filtered (table st) t1
      = (Val (tbl, success res, failed res), t2)
    ∧ (0 < success res →
       ∀ release, release ∈ filtered →
         ∃ f, tbl !! release_key B release = Some f ∧ riven f = true)
    ∧ (success res = 0 → ∀ k f, tbl !! k = Some f → riven f = false)
    ∧ request_releases B w ov (Some rr) filtered t
      = (_ <- notify_step w filtered tbl ;;
         ret {| filtered_releases := filtered;
                release_results := tbl;
                overseerr_successful := successful st;
                overseerr_failed := unsuccessful st;
                riven_success_count := success res;
                riven_failed_count := failed res |}) t2.
Proof.
  intros Hne.
  destruct (overseerr_step_run ov filtered t) as (st & evs & Hov & Hclean).
  destruct (add_media_total B w rr filtered (t ++ evs)) as (res & evs' & Hadd).
  assert (Hstep : riven_step B w (Some rr) filtered (table st) (t ++ evs)
                  = (Val (if 0 <? success res
                          then foldl (mark_riven B) (table st) filtered
                          else table st, success res, failed res),
                     (t ++ evs) ++ evs')).
  { unfold riven_step. destruct filtered as [|r0 rs]; [done|].
    unfold bind. by rewrite Hadd. }
  eexists st, (t ++ evs), res, ((t ++ evs) ++ evs'), _.
  split; [exact Hov|]. split; [exact Hadd|]. split; [exact Hstep|].
  split; [|split].
  - intros Hpos release Hin. rewrite (proj2 (Z.ltb_lt _ _) Hpos).
    rewrite foldl_mark_riven_lookup, (existsb_key_of _ _ Hin). eauto.
  - intros Hzero k f. rewrite Hzero. cbn [Z.ltb Z.compare]. apply Hclean.
  - unfold request_releases. unfold bind at 1. rewrite Hov.
    unfold bind at 1. by rewrite Hstep.
Qed.

End Orchestration.

Lemma riven_batch_marks_all_witness :
  ∃ res t1 t2 tbl,
    add_media plain_builtins stale_world riven_client [matrix; inception] t1
    = (Val res, t2)
    ∧ success res = 2
    ∧ tbl !! "603" = Some (Flags false true)
    ∧ tbl !! "27205" = Some (Flags false true)
    ∧ (request_releases plain_builtins stale_world None (Some riven_client)
         [matrix; inception] []).2
      = t2 ++ [EvNotify [matrix; inception] tbl].
Proof.
  destruct (riven_batch_marks_all plain_builtins stale_world None riven_client
              [matrix; inception] [])
    as (st & t1 & res & t2 & tbl & Hov & Hadd & Hstep & _ & _ & Hrun).
  - discriminate.
  - exists res, t1, t2, tbl.
    vm_compute in Hov. injection Hov as <- <-.
    assert (Hadd' := Hadd). vm_compute in Hadd'. injection Hadd' as <- <-.
    assert (Hstep' := Hstep). vm_compute in Hstep'. injection Hstep' as <-.
    split; [exact Hadd|]. split; [reflexivity|].
    split; [reflexivity|]. split; [reflexivity|].
    rewrite Hrun. vm_compute. reflexivity.
Defined.



(** ** Releases of the scraping source and the Riven sink *)

Lemma release_record_no_type title movie genre_names certification t release t' :
  Source.release_record title movie genre_names certification t
  = (Val release, t') →
  dict_lookup "type" release = None ∧ dict_lookup "tmdb_id" release = None.
Proof.
  unfold Source.release_record. destruct (dict_lookup "id" movie); [|discriminate].
  unfold ret. intros [= <- _]. split; reflexivity.
Qed.

Lemma untyped_releases_skipped B w self releases t :
  Forall (λ r, dict_lookup "type" r = None) releases →
  add_media B w self releases t = (Val nothing_done, t).
Proof.
  intros Hall. unfold add_media. destruct (negb (is_enabled self)); [done|].
  assert (Hnil : List.filter (λ r, py_eq_str (py_get r "type") "movie") releases
                 = []).
  { induction Hall as [|r rs Hr _ IH]; [done|].
    simpl. unfold py_get at 1. rewrite Hr. simpl. exact IH. }
  by rewrite Hnil.
Qed.

(** C1, at a release of the scraping source: the record carries
    [media_type] and [id], [add_media] selects on [type] and reads
    [tmdb_id]; handed the filtered set, it returns with nothing added
    and without any call to the backend, and no riven flag is set. *)
Theorem scraped_release_not_added B w t :
  Source.release_record "Inception" tmdb_best_match
    ["Action"; "Science Fiction"] "PG-13" t
  = (Val scraped_inception, t)
  ∧ is_enabled riven_client = true
  ∧ add_media B w riven_client [scraped_inception] t = (Val nothing_done, t)
  ∧ riven_step B w (Some riven_client) [scraped_inception] ∅ t
    = (Val (∅, 0, 0), t).
Proof.
  assert (Hadd : add_media B w riven_client [scraped_inception] t
                 = (Val nothing_done, t)).
  { apply untyped_releases_skipped. by repeat constructor. }
  repeat split; try done.
Qed.

(** ** Configuration *)

Section Configuration.
Variable B : Builtins.
Variable w : World.

(** What [_validate_config] has checked of the rating when it
    returns. *)
Lemma validate_config_rating config t t' :
  _validate_config config t = (Val (), t') →
  py_lt_int (min_tmdb_rating_of config) 0 = Some false
  ∧ py_gt_int (min_tmdb_rating_of config) 10 = Some false.
Proof.
  unfold _validate_config. intros H.
  apply bind_val in H as (overseerr & t1 & _ & H).
  apply bind_val in H as (riven & t2 & _ & H).
  apply bind_val in H as (? & t3 & _ & H).
  apply bind_val in H as (? & t4 & _ & H).
  apply bind_val in H as (filters & t5 & [Hf ->]%as_dict_val & H).
  apply bind_val in H as (below & t6 & [Hlt ->]%compare_val & H).
  destruct below; [discriminate|].
  apply bind_val in H as (above & t7 & [Hgt ->]%compare_val & H).
  destruct above; [discriminate|].
  unfold min_tmdb_rating_of. rewrite Hf. done.
Qed.

(** A rating that passed both comparisons lies in [0, 10] unless it
    is not a number. *)
Lemma checked_rating_between v :
  py_lt_int v 0 = Some false →
  py_gt_int v 10 = Some false →
  v ≠ PFloat FNan →
  py_between 0 10 v.
Proof.
  destruct v as [|b|z|[|neg|q]|s|l|d]; simpl; try discriminate.
  - intros [= H1] [= H2] _. lia.
  - intros [= H1] [= H2] _. lia.
  - done.
  - by intros [= ->] [= ?].
  - intros [= H1] [= H2] _.
    apply negb_false_iff in H1, H2. by apply Qle_bool_iff in H1, H2.
Qed.

(** Every configuration [load_config] returns passed the check of
    [_validate_config]. *)
Lemma load_config_rating_checked t config t' :
  load_config B w t = (Val config, t') →
  py_lt_int (min_tmdb_rating_of config) 0 = Some false
  ∧ py_gt_int (min_tmdb_rating_of config) 10 = Some false.
Proof.
  unfold load_config, try_except.
  match goal with
  | |- context [let (_, _) := ?run t in _] =>
      destruct (run t) as [[c|e] t1] eqn:Hrun
  end.
  - intros [= -> ->].
    apply bind_val in Hrun as (c0 & t2 & _ & Hrun).
    apply bind_val in Hrun as (c1 & t3 & _ & Hrun).
    apply bind_val in Hrun as ([] & t4 & Hvalid & [-> ->]%ret_val).
    by apply validate_config_rating in Hvalid.
  - by destruct (String.eqb _ _).
Qed.
End Configuration.

(** C7, at a rating that is not a number: [load_config] returns the
    configuration although its effective [min_tmdb_rating] does not
    satisfy [0 <= min_tmdb_rating <= 10], both when the value comes from
    [FILTERS_MIN_TMDB_RATING=nan] and when it comes from a [NaN] in
    [settings.json]. *)
Theorem nan_rating_accepted B t :
  (∃ config, load_config B nan_env_world t = (Val config, t)
             ∧ min_tmdb_rating_of config = PFloat FNan
             ∧ ¬ py_between 0 10 (min_tmdb_rating_of config))
  ∧ (∃ config, load_config B nan_file_world t = (Val config, t)
               ∧ min_tmdb_rating_of config = PFloat FNan
               ∧ ¬ py_between 0 10 (min_tmdb_rating_of config)).
Proof.
  split; eexists; (split; [vm_compute; reflexivity|]);
    (split; [reflexivity|]); intros [].
Qed.

(** ** The scheduler *)

(** An exception of the delay or of [run_check] ends the cycle, not the
    loop: once the next run time is computed and the sleep is over, the
    cycle returns normally. *)
Lemma cycle_catches_check B w run_time request_delay_minutes release_checker
    overseerr_requester riven_requester t next_run t1 :
  next_run_time run_time (now w t) (t ++ [EvNow]) = (Val next_run, t1) →
  sleep_result w t1 (PFloat (float_round B (total_seconds next_run (now w t))))
  = Val () →
  ∃ t', cycle B w run_time request_delay_minutes release_checker
          overseerr_requester riven_requester t = (Val (), t').
Proof.
  intros Hnext Hsleep. unfold cycle. unfold bind at 1, get_now.
  unfold bind at 1. rewrite Hnext. unfold bind at 1, sleep, call.
  rewrite Hsleep. unfold try_except.
  match goal with
  | |- context [let (_, _) := ?run ?tr in _] => destruct (run tr) as [[[]|e] t2]
  end; eauto.
Qed.

(** C4, at the end of a month: scheduled daily at 19:00 and reaching the
    computation of the next run time at 20:00 on 31 January,
    [now.replace(day=32)] raises; the exception is outside the [try] of
    the cycle, and [main] returns 1 in the first iteration, whatever
    the number of iterations allowed. *)
Theorem month_end_exit B n :
  next_run_time (PStr "19:00") month_end_evening [EvNow]
  = (Exc (value_error "day is out of range for month"), [EvNow])
  ∧ main B month_end_world (S n) [] = (Val (Some 1), [EvNow]).
Proof. split; vm_compute; reflexivity. Qed.

(** The same schedule in the middle of a month completes its cycle and
    stays in the loop. *)
Lemma mid_month_continues B :
  (main B mid_month_world 1 []).1 = Val None.
Proof. vm_compute. reflexivity. Qed.

(** ** Environment overrides *)

Lemma dict_lookup_set_eq k v d : dict_lookup k (dict_set k v d) = Some v.
Proof.
  induction d as [|[k' v'] d IH]; simpl.
  - by rewrite String.eqb_refl.
  - destruct (String.eqb_spec k k') as [->|Hne]; simpl.
    + by rewrite String.eqb_refl.
    + by rewrite (proj2 (String.eqb_neq _ _) Hne).
Qed.

Lemma dict_lookup_set_ne k k' v d :
  k ≠ k' → dict_lookup k' (dict_set k v d) = dict_lookup k' d.
Proof.
  intros Hne. induction d as [|[k0 v0] d IH]; simpl.
  - by rewrite (proj2 (String.eqb_neq k' k)).
  - destruct (String.eqb_spec k k0) as [->|Hne0]; simpl.
    + by rewrite (proj2 (String.eqb_neq k' k0)).
    + by rewrite IH.
Qed.

Lemma for_each_app {A} (f : pydict → A → M pydict) l1 l2 config t :
  for_each f (l1 ++ l2) config t
  = (config' <- for_each f l1 config ;; for_each f l2 config') t.
Proof.
  revert config t. induction l1 as [|x l1 IH]; intros config t; [done|].
  simpl. unfold bind in *.
  destruct (f config x t) as [[c1|e] t1]; [|done]. apply IH.
Qed.

Lemma for_each_fmap {A C} (f : pydict → A → M pydict)
    (g : pydict → C → M pydict) (h : A → C) l config t :
  (∀ c x t, f c x t = g c (h x) t) →
  for_each f l config t = for_each g (h <$> l) config t.
Proof.
  intros Hfg. revert config t.
  induction l as [|x l IH]; intros config t; [done|].
  simpl. unfold bind. rewrite Hfg.
  destruct (g config (h x) t) as [[c1|e] t1]; [|done]. apply IH.
Qed.

Section Overrides.
Variable B : Builtins.
Variable w : World.

Lemma apply_env_overrides_steps config t :
  _apply_env_overrides B w config t
  = for_each (override_step B w) supported_overrides config t.
Proof.
  unfold _apply_env_overrides, supported_overrides.
  rewrite for_each_app. unfold bind.
  rewrite (for_each_fmap (override_nested B w) (override_step B w)
             (λ e, (e.1, Nested e.2.1.1 e.2.1.2, default "str" e.2.2)));
    [|by intros c [var [[sec key] ty]] t0].
  destruct (for_each _ _ _ _) as [[c1|e] t1]; [|done].
  apply for_each_fmap. by intros c [var [key ty]] t0.
Qed.

Lemma set_item_spec section key v config t c1 t1 :
  set_item section key v (ensure_section section config) t = (Val c1, t1) →
  read (Nested section key) c1 = Some v
  ∧ ∀ tg, independent tg (Nested section key) = true →
          read tg c1 = read tg config.
Proof.
  unfold set_item, ensure_section.
  destruct (dict_lookup section config) as [old|] eqn:Hsec.
  - rewrite Hsec. destruct old as [| | | | | |d]; try discriminate.
    intros [= <- _]. split.
    + simpl. by rewrite !dict_lookup_set_eq.
    + intros [s k|k] Hind; simpl in *.
      * destruct (decide (s = section)) as [Hs|Hs].
        -- subst s. rewrite dict_lookup_set_eq, Hsec.
           rewrite String.eqb_refl in Hind. simpl in Hind.
           apply negb_true_iff, String.eqb_neq in Hind.
           (rewrite dict_lookup_set_ne by congruence); done.
        -- (rewrite dict_lookup_set_ne by congruence); done.
      * apply negb_true_iff, String.eqb_neq in Hind.
        (rewrite dict_lookup_set_ne by congruence); done.
  - rewrite dict_lookup_set_eq. intros [= <- _]. split.
    + cbn [read]. rewrite dict_lookup_set_eq. simpl.
      by rewrite String.eqb_refl.
    + intros [s k|k] Hind; cbn [read independent] in *.
      * destruct (decide (s = section)) as [Hs|Hs].
        -- subst s. rewrite dict_lookup_set_eq, Hsec.
           rewrite String.eqb_refl in Hind. simpl in Hind.
           apply negb_true_iff in Hind. simpl. by rewrite Hind.
        -- (rewrite !dict_lookup_set_ne by congruence); done.
      * apply negb_true_iff, String.eqb_neq in Hind.
        (rewrite !dict_lookup_set_ne by congruence); done.
Qed.

(** One override: it is the identity when the variable does not
    override, it stores the converted value at its target otherwise,
    and it leaves every independent target alone. *)
Lemma override_step_spec e config t c1 t1 :
  override_step B w config e t = (Val c1, t1) →
  (∀ tg, independent tg e.1.2 = true → read tg c1 = read tg config)
  ∧ (overriding (environ w e.1.1) = None → c1 = config)
  ∧ (∀ v, overriding (environ w e.1.1) = Some v →
          ∃ x, conversion B e v = Val x ∧ read e.1.2 c1 = Some x).
Proof.
  destruct e as [[var tg] ty]. unfold override_step, conversion. simpl.
  destruct tg as [section key|key]; simpl.
  - destruct (overriding (environ w var)) as [value|].
    + unfold bind, lift.
      destruct (convert B ty value) as [x|err] eqn:Hconv; [|done].
      intros [Hset Hframe]%set_item_spec.
      split; [exact Hframe|]. split; [done|].
      intros v [= <-]. eauto.
    + intros [= <- _]. split; [done|]. split; [done|]. done.
  - destruct (overriding (environ w var)) as [value|].
    + unfold bind, lift.
      destruct (convert_top B ty value) as [x|err] eqn:Hconv; [|done].
      intros [= <- _]. split; [|split; [done|]].
      * intros [s k|k] Hind; simpl in *;
          apply negb_true_iff, String.eqb_neq in Hind.
        -- (rewrite dict_lookup_set_ne by congruence); done.
        -- (rewrite dict_lookup_set_ne by congruence); done.
      * intros v [= <-]. exists x. by rewrite dict_lookup_set_eq.
    + intros [= <- _]. split; [done|]. split; [done|]. done.
Qed.

Lemma for_each_frame tg l config t c' t' :
  Forall (λ e : string * target * string, independent tg e.1.2 = true) l →
  for_each (override_step B w) l config t = (Val c', t') →
  read tg c' = read tg config.
Proof.
  intros Hall. revert config t.
  induction Hall as [|e l He _ IH]; intros config t.
  - by intros [= <- _].
  - simpl. intros (c1 & t1 & Hstep & Hrest)%bind_val.
    apply override_step_spec in Hstep as (Hframe & _ & _).
    rewrite (IH _ _ Hrest). by apply Hframe.
Qed.

Lemma for_each_entry l e config t c' t' :
  separated l = true →
  e ∈ l →
  for_each (override_step B w) l config t = (Val c', t') →
  (overriding (environ w e.1.1) = None → read e.1.2 c' = read e.1.2 config)
  ∧ (∀ v, overriding (environ w e.1.1) = Some v →
          ∃ x, conversion B e v = Val x ∧ read e.1.2 c' = Some x).
Proof.
  revert config t. induction l as [|e0 l IH]; intros config t Hsep Hin.
  { by apply elem_of_nil in Hin. }
  simpl in Hsep. apply andb_true_iff in Hsep as [Hfirst Hsep].
  rewrite forallb_forall in Hfirst.
  simpl. intros (c1 & t1 & Hstep & Hrest)%bind_val.
  apply override_step_spec in Hstep as (Hframe & Hunset & Hset).
  apply elem_of_cons in Hin as [->|Hin].
  - assert (Hkeep : read e0.1.2 c' = read e0.1.2 c1).
    { eapply for_each_frame; [|exact Hrest].
      apply Forall_forall. intros e' He'.
      apply list_elem_of_In, Hfirst, andb_true_iff in He'. tauto. }
    split.
    + intros Hnone. by rewrite Hkeep, (Hunset Hnone).
    + intros v Hsome. destruct (Hset v Hsome) as (x & Hx & Hread).
      exists x. by rewrite Hkeep.
  - destruct (IH _ _ Hsep Hin Hrest) as [IHunset IHset].
    split; [|exact IHset].
    intros Hnone. rewrite (IHunset Hnone). apply Hframe.
    apply list_elem_of_In, Hfirst, andb_true_iff in Hin. tauto.
Qed.
End Overrides.

Lemma existsb_eqb_elem_of (s : string) (l : list string) :
  existsb (String.eqb s) l = bool_decide (s ∈ l).
Proof.
  induction l as [|x l IH]; cbn [existsb].
  - symmetry. apply bool_decide_eq_false_2. apply not_elem_of_nil.
  - rewrite IH. destruct (String.eqb_spec s x) as [->|Hne]; cbn [orb].
    + symmetry. apply bool_decide_eq_true_2. apply elem_of_cons. by left.
    + apply bool_decide_ext. rewrite elem_of_cons. tauto.
Qed.

Lemma separated_supported_overrides : separated supported_overrides = true.
Proof. vm_compute. reflexivity. Qed.

(** On the supported overrides the conversion of the code is the
    reading of the value as the mapped type. *)
Lemma conversion_as_type B e v x :
  e ∈ supported_overrides →
  conversion B e v = Val x →
  as_type B e.2 v = Some x.
Proof.
  intros Hin. unfold supported_overrides, env_map, top_level_map in Hin.
  cbn in Hin.
  repeat (apply elem_of_cons in Hin as [->|Hin]);
    try (by apply elem_of_nil in Hin);
    unfold conversion, convert, convert_top, as_type;
    rewrite <- ?existsb_eqb_elem_of; cbn;
    try destruct (py_int v); try destruct (py_float B v);
    cbn; congruence.
Qed.

(** C10: for every supported override variable, when the variable is
    unset, empty or whitespace-only the value at its place in the
    configuration is the one [_apply_env_overrides] was given; when it
    has a non-blank value, the value at its place is that value read as
    the mapped type. *)
Theorem env_override_applies B w config t config' t' var tg ty :
  (var, tg, ty) ∈ supported_overrides →
  _apply_env_overrides B w config t = (Val config', t') →
  (blank (environ w var) → read tg config' = read tg config)
  ∧ (∀ v, environ w var = Some v → strip v ≠ "" →
          ∃ x, as_type B ty v = Some x ∧ read tg config' = Some x).
Proof.
  intros Hin Hrun. rewrite apply_env_overrides_steps in Hrun.
  destruct (for_each_entry B w _ _ _ _ _ _ separated_supported_overrides
              Hin Hrun) as [Hunset Hset].
  cbn [fst snd] in *. split.
  - intros Hblank. apply Hunset.
    destruct Hblank as [->|(v & -> & Hv)]; [done|].
    simpl. by rewrite Hv.
  - intros v Hv Hne. destruct (Hset v) as (x & Hconv & Hread).
    + rewrite Hv. simpl. by rewrite (proj2 (String.eqb_neq _ _) Hne).
    + exists x. split; [|exact Hread].
      by apply (conversion_as_type B _ v x Hin).
Qed.

Lemma env_override_applies_witness :
  ∃ config' t',
    _apply_env_overrides plain_builtins genres_world DEFAULT_SETTINGS []
    = (Val config', t')
    ∧ read (Nested "filters" "excluded_genres") config'
      = Some (PList [PStr "Horror"; PStr "Documentary"])
    ∧ read (Nested "logging" "level") config' = Some (PStr "INFO").
Proof.
  pose proof (env_override_applies plain_builtins genres_world
                DEFAULT_SETTINGS []) as H.
  eexists _, _. split; [vm_compute; reflexivity|].
  lazymatch goal with
  | |- read _ ?c = _ ∧ _ =>
      destruct (H c [] "FILTERS_EXCLUDED_GENRES"
                  (Nested "filters" "excluded_genres") "list")
        as [_ Hset];
      [apply list_elem_of_In; vm_compute; tauto | vm_compute; reflexivity |];
      destruct (H c [] "LOGGING_LEVEL" (Nested "logging" "level") "str")
        as [Hunset _];
      [apply list_elem_of_In; vm_compute; tauto | vm_compute; reflexivity |]
  end.
  split.
  - destruct (Hset "Horror, ,Documentary") as (x & Hx & Hread).
    + reflexivity.
    + vm_compute. discriminate.
    + vm_compute in Hx. injection Hx as <-. exact Hread.
  - rewrite Hunset; [reflexivity|]. left. reflexivity.
Defined.

(** ** The filter engine *)

(** C8: whatever the filter configuration and the input, the output of
    [apply_filters] is a subsequence of its input: its elements are
    elements of the input, in the same relative order. *)
Theorem apply_filters_subsequence cfg releases :
  Filters.apply_filters cfg releases `sublist_of` releases
  ∧ ∀ r, r ∈ Filters.apply_filters cfg releases → r ∈ releases.
Proof.
  assert (Hsub : Filters.apply_filters cfg releases `sublist_of` releases).
  { unfold Filters.apply_filters.
    induction releases as [|r rs IH]; simpl; [constructor|].
    destruct (Filters.admits cfg r); by constructor. }
  split; [exact Hsub|].
  intros r Hr. by eapply elem_of_sublist.
Qed.

(** * Further properties *)

(** ** The Riven sink *)

Section RivenSinkMore.
Variable B : Builtins.
Variable w : World.
Variable self : RivenRequester.

Lemma filter_none {A} (f : A → bool) (l : list A) :
  Forall (λ x, f x = false) l → List.filter f l = [].
Proof.
  induction 1 as [|x l Hx _ IH]; [done|]. simpl. by rewrite Hx.
Qed.

Lemma filter_all {A} (f : A → bool) (l : list A) :
  Forall (λ x, f x = true) l → List.filter f l = l.
Proof.
  induction 1 as [|x l Hx _ IH]; [done|]. simpl. rewrite Hx. by f_equal.
Qed.

Lemma len_filter_le {A} (f : A → bool) (l : list A) :
  len (List.filter f l) ≤ len l.
Proof. unfold len. pose proof (filter_length_le f l). lia. Qed.

Lemma len_tmdb_ids_le releases : len (tmdb_ids_of B releases) ≤ len releases.
Proof.
  unfold tmdb_ids_of, len. rewrite length_fmap.
  apply Nat2Z.inj_le, filter_length_le.
Qed.

(** X1: a batch in which no release has a TMDB id is counted as failed
    as a whole, without any call to the backend. *)
Theorem add_items_without_ids media_type releases t :
  Forall (λ r, py_truthy (py_get r "tmdb_id") = false) releases →
  _add_items B w self media_type releases t
  = (Val {| success := 0; failed := len releases; results := [] |}, t).
Proof.
  intros Hnone. unfold _add_items, try_except, tmdb_ids_of.
  by rewrite (filter_none _ _ Hnone).
Qed.

(** X2: whatever the backend does, the counts [add_media] returns are
    not negative, at most one of them is not zero, together they do not
    exceed the number of releases given, and there is at most one
    result detail. *)
Theorem add_media_counts releases t :
  ∃ res t',
    add_media B w self releases t = (Val res, t')
    ∧ 0 ≤ success res
    ∧ 0 ≤ failed res
    ∧ (success res = 0 ∨ failed res = 0)
    ∧ success res + failed res ≤ len releases
    ∧ (length (results res) ≤ 1)%nat.
Proof.
  unfold add_media. destruct (negb (is_enabled self)).
  { eexists _, _. split; [reflexivity|]. cbn [success failed results length].
    unfold len. repeat split; lia. }
  pose proof (len_filter_le (λ r, py_eq_str (py_get r "type") "movie") releases)
    as Hmovies.
  destruct (List.filter (λ r, py_eq_str (py_get r "type") "movie") releases)
    as [|m ms] eqn:Hm.
  { eexists _, _. split; [reflexivity|]. cbn [success failed results length].
    unfold len. repeat split; lia. }
  set (movies := m :: ms) in *.
  pose proof (len_tmdb_ids_le movies) as Hids.
  assert (0 ≤ len (tmdb_ids_of B movies)) by (unfold len; lia).
  destruct (tmdb_ids_of B movies) as [|i ids] eqn:Hi.
  - unfold _add_items, try_except. rewrite Hi.
    eexists _, _. split; [reflexivity|]. cbn [success failed results].
    unfold len, Release in *. cbn [length] in *. repeat split; lia.
  - rewrite add_items_run by (by rewrite Hi). rewrite Hi.
    eexists _, _. split; [reflexivity|]. cbn [success failed results].
    destruct (http w _ _) as [s tx j|e]; cbn [classify];
      repeat match goal with
             | |- context [?s =? ?n] => destruct (s =? n)
             end;
      cbn [counts_of fst snd length]; unfold len, Release in *;
      repeat split; lia.
Qed.

(** X3: for an enabled requester and a non-empty list of releases that
    all are typed as movies and carry a truthy [tmdb_id], the last call
    of [add_media] is the add call and its [tmdb_ids] are the string
    forms of the ids of all the releases, in their order. *)
Theorem add_media_covers_addable releases t :
  is_enabled self = true →
  releases ≠ [] →
  Forall addable releases →
  ∃ calls,
    (add_media B w self releases t).2
    = t ++ calls
        ++ [EvHttp (add_request B self "movie"
                      ((λ r, py_str B (py_get r "tmdb_id")) <$> releases))].
Proof.
  intros Hen Hne Hall. unfold add_media. rewrite Hen. cbn [negb].
  rewrite filter_all by (eapply Forall_impl; [exact Hall|]; by intros r [? ?]).
  destruct releases as [|r rs] eqn:Hr; [done|]. rewrite <- Hr in *.
  assert (Hids : tmdb_ids_of B releases
                 = (λ r, py_str B (py_get r "tmdb_id")) <$> releases).
  { apply tmdb_ids_all. eapply Forall_impl; [exact Hall|]. by intros ? [? ?]. }
  rewrite add_items_run by (rewrite Hids, Hr; done).
  rewrite Hids. cbn [snd]. rewrite <- app_assoc. eauto.
Qed.

(** X4: the query for the Unknown items is best effort: unless the
    backend answers 200 with a JSON object, the map is empty; in every
    case exactly one call is made and nothing is raised. *)
Theorem unknown_items_best_effort media_type t :
  match http w t (unknown_request B self media_type) with
  | Response s _ (Some (PDict _)) => s ≠ 200
  | _ => True
  end →
  _get_unknown_items B w self media_type t
  = (Val ∅, t ++ [EvHttp (unknown_request B self media_type)]).
Proof.
  intros Hbad. unfold _get_unknown_items, try_except, bind, send.
  destruct (http w t _) as [s tx j|e]; [|reflexivity].
  cbn [status_code json]. destruct (Z.eqb_spec s 200) as [->|Hs]; [|reflexivity].
  unfold response_json. cbn [json].
  destruct j as [data|]; [|reflexivity].
  unfold ret at 1. destruct data; try reflexivity. done.
Qed.

Lemma unknown_of_items_objects (items : list pydict) acc t :
  ∃ m,
    unknown_of_items B (PDict <$> items) acc t = (Val m, t)
    ∧ (∀ k v, m !! k = Some v →
         acc !! k = Some v
         ∨ ∃ item, item ∈ items
                   ∧ py_truthy (py_get item "tmdb_id") = true
                   ∧ py_str B (py_get item "tmdb_id") = k
                   ∧ py_str B (py_get item "id") = v)
    ∧ (∀ k, is_Some (acc !! k) → is_Some (m !! k))
    ∧ (∀ item, item ∈ items →
         py_truthy (py_get item "tmdb_id") = true →
         is_Some (m !! py_str B (py_get item "tmdb_id"))).
Proof.
  revert acc. induction items as [|item rest IH]; intros acc.
  - exists acc. split; [reflexivity|]. split; [auto|]. split; [auto|].
    intros item Hin. by apply elem_of_nil in Hin.
  - rewrite fmap_cons. cbn [unknown_of_items]. unfold bind, as_dict, ret.
    destruct (py_truthy (py_get item "tmdb_id")) eqn:Htruthy.
    + destruct (IH (<[py_str B (py_get item "tmdb_id")
                      := py_str B (py_get item "id")]> acc))
        as (m & Hrun & Hfrom & Hkeep & Hall).
      exists m. split; [exact Hrun|]. split; [|split].
      * intros k v Hk. destruct (Hfrom k v Hk) as [Hacc|(it & ? & ? & ? & ?)].
        -- rewrite lookup_insert in Hacc. case_decide as Hkey.
           ++ injection Hacc as <-. right. exists item.
              split; [apply elem_of_cons; by left|]. by rewrite Hkey.
           ++ by left.
        -- right. exists it. split; [apply elem_of_cons; by right|]. done.
      * intros k Hk. apply Hkeep. rewrite lookup_insert.
        case_decide; [eauto|done].
      * intros it [->|Hin]%elem_of_cons Hit.
        -- apply Hkeep. rewrite lookup_insert_eq. eauto.
        -- by apply Hall.
    + destruct (IH acc) as (m & Hrun & Hfrom & Hkeep & Hall).
      exists m. split; [exact Hrun|]. split; [|split].
      * intros k v Hk. destruct (Hfrom k v Hk) as [Hacc|(it & ? & ? & ? & ?)].
        -- by left.
        -- right. exists it. split; [apply elem_of_cons; by right|]. done.
      * exact Hkeep.
      * intros it [->|Hin]%elem_of_cons Hit; [congruence|]. by apply Hall.
Qed.

(** X5: when the backend answers 200 with an object whose [items] is a
    list of objects, every entry of the map of Unknown items maps the
    string form of the [tmdb_id] of one of the items to the string form
    of its [id], and every item with a truthy [tmdb_id] has an entry. *)
Theorem unknown_items_of_answer media_type t tx d (items : list pydict) :
  http w t (unknown_request B self media_type) = Response 200 tx (Some (PDict d)) →
  py_get_default d "items" (PList []) = PList (PDict <$> items) →
  let m := unknown_items_at B w self media_type t in
  (∀ k v, m !! k = Some v →
     ∃ item, item ∈ items
             ∧ py_truthy (py_get item "tmdb_id") = true
             ∧ py_str B (py_get item "tmdb_id") = k
             ∧ py_str B (py_get item "id") = v)
  ∧ (∀ item, item ∈ items →
       py_truthy (py_get item "tmdb_id") = true →
       is_Some (m !! py_str B (py_get item "tmdb_id"))).
Proof.
  intros Hresp Hitems. cbv zeta.
  unfold unknown_items_at, _get_unknown_items, try_except, bind, send.
  rewrite Hresp. cbn [status_code json Z.eqb Pos.eqb response_json ret as_dict].
  rewrite Hitems. cbn [iterate ret].
  destruct (unknown_of_items_objects items ∅
              (t ++ [EvHttp (unknown_request B self media_type)]))
    as (m & -> & Hfrom & _ & Hall).
  cbn [fst]. split; [|exact Hall].
  intros k v Hk. destruct (Hfrom k v Hk) as [Hempty|?]; [|done].
  by rewrite lookup_empty in Hempty.
Qed.

Lemma unknown_of_items_stray items acc t :
  existsb (λ v, negb (is_object v)) items = true →
  ∃ e, unknown_of_items B items acc t = (Exc e, t).
Proof.
  revert acc. induction items as [|item rest IH]; intros acc; [done|].
  cbn [existsb unknown_of_items]. unfold bind, as_dict.
  destruct item; cbn [is_object negb orb]; try (intros _; eexists; reflexivity).
  intros Hrest. unfold ret. destruct (py_truthy _); by apply IH.
Qed.

(** X6: one element of [items] that is not an object voids the whole
    answer: the map of Unknown items is empty, so nothing is removed
    before the add. *)
Theorem unknown_items_stray_element media_type t tx d items releases :
  http w t (unknown_request B self media_type) = Response 200 tx (Some (PDict d)) →
  py_get_default d "items" (PList []) = PList items →
  existsb (λ v, negb (is_object v)) items = true →
  unknown_items_at B w self media_type t = ∅
  ∧ removal_ids B w self media_type releases t = [].
Proof.
  intros Hresp Hitems Hstray.
  assert (Hempty : unknown_items_at B w self media_type t = ∅).
  { unfold unknown_items_at, _get_unknown_items, try_except, bind, send.
    rewrite Hresp.
    cbn [status_code json Z.eqb Pos.eqb response_json ret as_dict].
    rewrite Hitems. cbn [iterate ret].
    destruct (unknown_of_items_stray items ∅
                (t ++ [EvHttp (unknown_request B self media_type)]) Hstray)
      as [e ->].
    reflexivity. }
  split; [exact Hempty|].
  unfold removal_ids. rewrite Hempty.
  induction (tmdb_ids_of B releases) as [|i ids IH]; [done|].
  cbn [omap list_omap]. by rewrite lookup_empty.
Qed.

(** X7: the health check never raises and makes exactly one call,
    without the API key; it reports [healthy] exactly when the backend
    answers 200. *)
Theorem get_status_healthy t :
  ∃ d,
    RivenHealth.get_status B w self t
    = (Val d, t ++ [EvHttp (RivenHealth.health_request B self)])
    ∧ req_headers (RivenHealth.health_request B self) = []
    ∧ (dict_lookup "status" d = Some (PStr "healthy")
       ↔ ∃ tx j, http w t (RivenHealth.health_request B self)
                 = Response 200 tx j).
Proof.
  unfold RivenHealth.get_status, try_except, bind, send.
  destruct (http w t _) as [s tx j|e].
  - cbn [status_code]. destruct (Z.eqb_spec s 200) as [->|Hs].
    + eexists. split; [reflexivity|]. split; [reflexivity|].
      split; [eauto|reflexivity].
    + eexists. split; [reflexivity|]. split; [reflexivity|].
      split; [discriminate|]. intros (? & ? & [= ? _ _]). done.
  - eexists. split; [reflexivity|]. split; [reflexivity|].
    split; [discriminate|]. intros (? & ? & ?). discriminate.
Qed.
End RivenSinkMore.

Lemma add_media_covers_addable_witness :
  ∃ calls,
    (add_media plain_builtins stale_world riven_client [matrix; inception] []).2
    = [] ++ calls
         ++ [EvHttp (add_request plain_builtins riven_client "movie"
                       ["603"; "27205"])].
Proof.
  apply (add_media_covers_addable plain_builtins stale_world riven_client
           [matrix; inception] []).
  - reflexivity.
  - discriminate.
  - repeat constructor.
Defined.

Lemma add_items_without_ids_witness :
  _add_items plain_builtins stale_world riven_client "movie"
    [scraped_inception] []
  = (Val {| success := 0; failed := 1; results := [] |}, []).
Proof.
  apply (add_items_without_ids plain_builtins stale_world riven_client
           "movie" [scraped_inception] []).
  repeat constructor.
Defined.

Lemma unknown_items_best_effort_witness :
  _get_unknown_items plain_builtins dead_world riven_client "movie" []
  = (Val ∅, [EvHttp (unknown_request plain_builtins riven_client "movie")]).
Proof.
  apply (unknown_items_best_effort plain_builtins dead_world riven_client
           "movie" []).
  exact I.
Defined.

Lemma unknown_items_of_answer_witness :
  unknown_items_at plain_builtins stale_world riven_client "movie" [] !! "603"
  = Some "17".
Proof.
  destruct (unknown_items_of_answer plain_builtins stale_world riven_client
              "movie" [] ""
              [("items", PList [PDict [("tmdb_id", PInt 603); ("id", PInt 17)]])]
              [[("tmdb_id", PInt 603); ("id", PInt 17)]])
    as [Hfrom Hall]; [reflexivity | reflexivity |].
  destruct (Hall [("tmdb_id", PInt 603); ("id", PInt 17)]) as [v Hv].
  - apply elem_of_cons. by left.
  - reflexivity.
  - destruct (Hfrom _ _ Hv) as (item & Hin & _ & _ & <-).
    apply elem_of_cons in Hin as [->|Hin]; [exact Hv|].
    by apply elem_of_nil in Hin.
Defined.

Lemma unknown_items_stray_element_witness :
  unknown_items_at plain_builtins sloppy_world riven_client "movie" [] = ∅
  ∧ removal_ids plain_builtins sloppy_world riven_client "movie" [matrix] []
    = [].
Proof.
  apply (unknown_items_stray_element plain_builtins sloppy_world riven_client
           "movie" [] ""
           [("items", PList [PDict [("tmdb_id", PInt 603); ("id", PInt 17)];
                             PNone])]
           [PDict [("tmdb_id", PInt 603); ("id", PInt 17)]; PNone]
           [matrix]);
    reflexivity.
Defined.

(** ** The orchestrator *)

Section OrchestrationMore.
Variable B : Builtins.
Variable w : World.

Lemma length_submissions releases t :
  length (submissions w releases t) = length releases.
Proof.
  revert t. induction releases as [|r rest IH]; intros t; [done|].
  cbn [submissions length]. by rewrite IH.
Qed.

Lemma accepted_count_bounds evs : 0 ≤ accepted_count evs ≤ len evs.
Proof.
  unfold accepted_count, len.
  pose proof (filter_length_le accepted evs). lia.
Qed.

Lemma attempted_submissions k releases t :
  existsb (attempted_key B k) (submissions w releases t) = has_key B k releases.
Proof.
  unfold has_key. revert t.
  induction releases as [|r rest IH]; intros t; [done|].
  cbn [submissions existsb]. by rewrite IH.
Qed.

(** The three steps of a run after filtering. *)
Lemma request_releases_steps ov rv filtered t :
  ∃ st t1 tbl n_ok n_failed t2,
    overseerr_step B w ov filtered t = (Val st, t1)
    ∧ riven_step B w rv filtered (table st) t1 = (Val (tbl, n_ok, n_failed), t2)
    ∧ request_releases B w ov rv filtered t
      = (_ <- notify_step w filtered tbl ;;
         ret {| filtered_releases := filtered;
                release_results := tbl;
                overseerr_successful := successful st;
                overseerr_failed := unsuccessful st;
                riven_success_count := n_ok;
                riven_failed_count := n_failed |}) t2.
Proof.
  destruct (overseerr_step_run B w ov filtered t) as (st & evs & Hov & _).
  assert (Hriven : ∃ r t2, riven_step B w rv filtered (table st) (t ++ evs)
                           = (Val r, t2)).
  { unfold riven_step. destruct rv as [rr|]; [|eexists _, _; reflexivity].
    destruct filtered as [|r0 rs]; [eexists _, _; reflexivity|].
    destruct (add_media_total B w rr (r0 :: rs) (t ++ evs)) as (res & evs' & Hadd).
    unfold bind. rewrite Hadd. eexists _, _. reflexivity. }
  destruct Hriven as ([[tbl n_ok] n_failed] & t2 & Hriven).
  exists st, (t ++ evs), tbl, n_ok, n_failed, t2.
  split; [exact Hov|]. split; [exact Hriven|].
  unfold request_releases. unfold bind at 1. rewrite Hov.
  unfold bind at 1. by rewrite Hriven.
Qed.

(** X8: when a run completes, the two Overseerr tallies are not
    negative and add up to the number of filtered releases if the
    Overseerr sink is configured, to zero otherwise: every release is
    counted once, as a success or as a failure. *)
Theorem overseerr_tallies_add_up ov rv filtered t s t' :
  request_releases B w ov rv filtered t = (Val s, t') →
  0 ≤ overseerr_successful s
  ∧ 0 ≤ overseerr_failed s
  ∧ overseerr_successful s + overseerr_failed s
    = match ov with Some _ => len filtered | None => 0 end.
Proof.
  intros Hrun.
  destruct (request_releases_steps ov rv filtered t)
    as (st & t1 & tbl & n_ok & n_failed & t2 & Hov & _ & Hsteps).
  rewrite Hsteps in Hrun.
  apply bind_val in Hrun as ([] & t3 & _ & [-> _]%ret_val).
  cbn [overseerr_successful overseerr_failed].
  unfold overseerr_step in Hov.
  destruct ov as [h|]; [destruct filtered as [|r0 rs]|];
    try (injection Hov as <- _; cbn; unfold len; cbn; lia).
  destruct (overseerr_loop_run B w (r0 :: rs)
              {| table := ∅; successful := 0; unsuccessful := 0 |} t)
    as (st' & Hloop & Hs & Hu & _).
  rewrite Hloop in Hov. injection Hov as <- _.
  cbn [successful unsuccessful] in *.
  pose proof (accepted_count_bounds (submissions w (r0 :: rs) t)) as Hb.
  unfold len in *. rewrite length_submissions in Hb. lia.
Qed.

Lemma overseerr_step_table ov filtered t :
  ∃ st t1,
    overseerr_step B w ov filtered t = (Val st, t1)
    ∧ ∀ k, table st !! k
           = if bool_decide (is_Some ov) && has_key B k filtered
             then Some (Flags (existsb (accepted_key B k)
                                 (submissions w filtered t)) false)
             else None.
Proof.
  unfold overseerr_step. destruct ov as [h|].
  - destruct filtered as [|r0 rs].
    + eexists _, _. split; [reflexivity|]. intros k. cbn [table].
      rewrite lookup_empty. by rewrite andb_false_r.
    + destruct (overseerr_loop_run B w (r0 :: rs)
                  {| table := ∅; successful := 0; unsuccessful := 0 |} t)
        as (st & Hloop & _ & _ & Htbl).
      exists st, (t ++ submissions w (r0 :: rs) t). split; [exact Hloop|].
      intros k. rewrite Htbl. cbn [table]. rewrite lookup_empty.
      rewrite attempted_submissions.
      rewrite (bool_decide_eq_true_2 (is_Some (Some h))) by eauto.
      cbn [andb from_option orb]. done.
  - eexists _, _. split; [reflexivity|]. intros k. cbn [table].
    rewrite lookup_empty.
    rewrite (bool_decide_eq_false_2 (is_Some None)) by (by intros [? ?]).
    done.
Qed.

Lemma riven_step_table rv filtered tbl0 t1 tbl n_ok n_failed t2 :
  riven_step B w rv filtered tbl0 t1 = (Val (tbl, n_ok, n_failed), t2) →
  ∀ k, tbl !! k
       = if (0 <? n_ok) && has_key B k filtered
         then Some (Flags (from_option overseerr false (tbl0 !! k)) true)
         else tbl0 !! k.
Proof.
  unfold riven_step. destruct rv as [rr|]; [destruct filtered as [|r0 rs]|];
    try (by intros [= <- <- _ _] k).
  intros (res & t3 & _ & [= <- <- _ _])%bind_val k.
  destruct (0 <? success res); [|done].
  change (foldl (mark_riven B) (mark_riven B tbl0 r0) rs)
    with (foldl (mark_riven B) tbl0 (r0 :: rs)).
  cbn [andb]. apply foldl_mark_riven_lookup.
Qed.

(** The rows of the outcome table of a completed run. *)
Lemma request_releases_table ov rv filtered t s t' :
  request_releases B w ov rv filtered t = (Val s, t') →
  ∀ k, release_results s !! k
       = if has_key B k filtered
            && (bool_decide (is_Some ov) || (0 <? riven_success_count s))
         then Some (Flags (bool_decide (is_Some ov)
                           && existsb (accepted_key B k)
                                (submissions w filtered t))
                          (0 <? riven_success_count s))
         else None.
Proof.
  intros Hrun k.
  destruct (overseerr_step_table ov filtered t) as (st & t1 & Hov & Htbl0).
  unfold request_releases in Hrun.
  apply bind_val in Hrun as (st' & t1' & Hov' & Hrun).
  rewrite Hov in Hov'. injection Hov' as <- <-.
  apply bind_val in Hrun as ([[tbl n_ok] n_failed] & t2 & Hriven & Hrun).
  apply bind_val in Hrun as ([] & t3 & _ & [-> _]%ret_val).
  cbn [release_results riven_success_count].
  rewrite (riven_step_table _ _ _ _ _ _ _ _ Hriven), Htbl0.
  destruct (bool_decide (is_Some ov)), (has_key B k filtered), (0 <? n_ok);
    reflexivity.
Qed.

(** X9: the outcome table a completed run ends with has a row exactly
    for the keys of the filtered releases, and only if the Overseerr
    sink is configured or the Riven batch reported a success; in a row
    the overseerr flag tells whether a submission for that key was
    accepted and the riven flag whether the batch reported a success. *)
Theorem outcome_table_rows ov rv filtered t s t' :
  request_releases B w ov rv filtered t = (Val s, t') →
  ∀ k, release_results s !! k
       = if has_key B k filtered
            && (bool_decide (is_Some ov) || (0 <? riven_success_count s))
         then Some (Flags (bool_decide (is_Some ov)
                           && existsb (accepted_key B k)
                                (submissions w filtered t))
                          (0 <? riven_success_count s))
         else None.
Proof. apply request_releases_table. Qed.

Lemma has_key_elem k releases :
  has_key B k releases = true →
  ∃ r, r ∈ releases ∧ release_key B r = k.
Proof.
  unfold has_key. intros (r & Hin & Hk)%existsb_exists.
  exists r. split; [by apply list_elem_of_In|]. by apply String.eqb_eq.
Qed.

(** X10: releases without a [tmdb_id] all fall under the empty key:
    when no filtered release has one, the outcome table of a completed
    run has no row but the row of the empty string. *)
Theorem releases_without_id_share_row ov rv filtered t s t' :
  Forall (λ r, dict_lookup "tmdb_id" r = None) filtered →
  request_releases B w ov rv filtered t = (Val s, t') →
  ∀ k, is_Some (release_results s !! k) → k = "".
Proof.
  intros Hnone Hrun k. rewrite (request_releases_table _ _ _ _ _ _ Hrun).
  destruct (has_key B k filtered) eqn:Hk; [|by intros [? ?]].
  intros _. apply has_key_elem in Hk as (r & Hin & <-).
  rewrite Forall_forall in Hnone. unfold release_key, py_get_default.
  by rewrite (Hnone r Hin).
Qed.

(** X11: with no filtered release, or with no sink, a run makes no
    call and sends no notification; it ends with an empty table and
    zero counts. *)
Theorem nothing_to_request ov rv filtered t v :
  filtered = [] ∨ (ov = None ∧ rv = None) →
  discord_enabled w t = Val v →
  request_releases B w ov rv filtered t = (Val (idle_summary filtered), t).
Proof.
  intros Hidle Hen.
  assert (Hov : overseerr_step B w ov filtered t
                = (Val {| table := ∅; successful := 0; unsuccessful := 0 |}, t)).
  { unfold overseerr_step.
    destruct Hidle as [->|[-> _]]; [by destruct ov|done]. }
  assert (Hrv : riven_step B w rv filtered ∅ t = (Val (∅, 0, 0), t)).
  { unfold riven_step.
    destruct Hidle as [->|[_ ->]]; [by destruct rv|done]. }
  unfold request_releases. unfold bind at 1. rewrite Hov. cbn [table].
  unfold bind at 1. rewrite Hrv.
  unfold bind, notify_step, bind. rewrite Hen.
  rewrite bool_decide_eq_true_2 by done. cbn [negb]. by rewrite andb_false_r.
Qed.

(** X12: a run raises only through the source, the filter engine or
    the notifier: when these three return normally, [run_check]
    completes whatever the Overseerr service and the Riven backend
    answer. *)
Theorem run_check_completes source ov rv t :
  collaborators_return w →
  ∃ s t', run_check B w source ov rv t = (Val s, t').
Proof.
  intros (Hsrc & Hflt & Hen & Hsend).
  unfold run_check, bind, call.
  destruct (Hsrc source t) as [releases ->].
  destruct (Hflt (t ++ [EvGetReleases source]) releases) as [filtered ->].
  destruct (request_releases_steps ov rv filtered
              ((t ++ [EvGetReleases source]) ++ [EvApplyFilters releases]))
    as (st & t1 & tbl & n_ok & n_failed & t2 & _ & _ & ->).
  unfold bind, notify_step, bind, call. destruct (Hen t2) as [v ->].
  destruct (py_truthy v && negb (bool_decide (tbl = ∅))).
  - rewrite Hsend. eexists _, _. reflexivity.
  - eexists _, _. reflexivity.
Qed.
End OrchestrationMore.

Lemma overseerr_tallies_add_up_witness :
  ∃ s t',
    request_releases plain_builtins flaky_world (Some OverseerrHandle) None
      [matrix; inception; dune] [] = (Val s, t')
    ∧ overseerr_successful s + overseerr_failed s = 3.
Proof.
  destruct (request_releases plain_builtins flaky_world (Some OverseerrHandle)
              None [matrix; inception; dune] []) as [[s|e] t'] eqn:Hrun.
  - exists s, t'. split; [reflexivity|].
    destruct (overseerr_tallies_add_up plain_builtins flaky_world
                (Some OverseerrHandle) None [matrix; inception; dune] [] s t'
                Hrun) as (_ & _ & Hsum).
    exact Hsum.
  - vm_compute in Hrun. discriminate.
Defined.

Lemma outcome_table_rows_witness :
  ∃ s t',
    request_releases plain_builtins flaky_world (Some OverseerrHandle)
      (Some riven_client) [matrix; inception; dune] [] = (Val s, t')
    ∧ release_results s !! "27205" = Some (Flags false true)
    ∧ release_results s !! "603" = Some (Flags true true)
    ∧ release_results s !! "1" = None.
Proof.
  destruct (request_releases plain_builtins flaky_world (Some OverseerrHandle)
              (Some riven_client) [matrix; inception; dune] [])
    as [[s|e] t'] eqn:Hrun.
  - exists s, t'. split; [reflexivity|].
    pose proof (outcome_table_rows plain_builtins flaky_world
                  (Some OverseerrHandle) (Some riven_client)
                  [matrix; inception; dune] [] s t' Hrun) as Hrows.
    vm_compute in Hrun. injection Hrun as <- <-.
    rewrite !Hrows. repeat split; vm_compute; reflexivity.
  - vm_compute in Hrun. discriminate.
Defined.

Lemma releases_without_id_share_row_witness :
  ∃ s t',
    request_releases plain_builtins flaky_world (Some OverseerrHandle)
      (Some riven_client) [scraped_inception; scraped_inception] []
    = (Val s, t')
    ∧ ∀ k, is_Some (release_results s !! k) → k = "".
Proof.
  destruct (request_releases plain_builtins flaky_world (Some OverseerrHandle)
              (Some riven_client) [scraped_inception; scraped_inception] [])
    as [[s|e] t'] eqn:Hrun.
  - exists s, t'. split; [reflexivity|].
    apply (releases_without_id_share_row plain_builtins flaky_world
             (Some OverseerrHandle) (Some riven_client)
             [scraped_inception; scraped_inception] [] s t');
      [repeat constructor | exact Hrun].
  - vm_compute in Hrun. discriminate.
Defined.

Lemma nothing_to_request_witness :
  request_releases plain_builtins stale_world (Some OverseerrHandle)
    (Some riven_client) [] []
  = (Val (idle_summary []), []).
Proof.
  apply (nothing_to_request plain_builtins stale_world (Some OverseerrHandle)
           (Some riven_client) [] [] (PBool true)).
  - left. reflexivity.
  - reflexivity.
Defined.

Lemma run_check_completes_witness :
  ∃ s t',
    run_check plain_builtins stale_world TmdbSource (Some OverseerrHandle)
      (Some riven_client) [] = (Val s, t').
Proof.
  apply (run_check_completes plain_builtins stale_world TmdbSource
           (Some OverseerrHandle) (Some riven_client) []).
  repeat split; intros; eexists; reflexivity.
Defined.

(** ** Configuration: merging with the defaults *)

Ltac solve_distinct_keys :=
  unfold distinct_keys;
  match goal with
  | |- NoDup ?l => apply (bool_decide_unpack (NoDup l)); vm_compute; exact I
  end.

Lemma dict_lookup_fresh k (d : pydict) :
  k ∉ d.*1 → dict_lookup k d = None.
Proof.
  induction d as [|[k' v] d IH]; [done|].
  rewrite fmap_cons, not_elem_of_cons. cbn [fst dict_lookup].
  intros [Hne Hnot]. rewrite (proj2 (String.eqb_neq k k') Hne). by apply IH.
Qed.

Lemma dict_lookup_union od d k :
  distinct_keys d →
  dict_lookup k (dict_union od d)
  = match dict_lookup k d with
    | Some v => Some v
    | None => dict_lookup k od
    end.
Proof.
  unfold dict_union, distinct_keys. revert od.
  induction d as [|[k' v] d IH]; intros od Hnodup; [done|].
  rewrite fmap_cons in Hnodup. apply NoDup_cons in Hnodup as [Hfresh Hnodup].
  cbn [fst] in Hfresh.
  cbn [foldl fst snd dict_lookup]. rewrite (IH _ Hnodup).
  destruct (String.eqb_spec k k') as [->|Hne].
  - rewrite (dict_lookup_fresh _ _ Hfresh). apply dict_lookup_set_eq.
  - destruct (dict_lookup k d); [done|].
    apply dict_lookup_set_ne. congruence.
Qed.

Lemma merge_items_lookup items acc t merged t' :
  distinct_keys items →
  for_each merge_item items acc t = (Val merged, t') →
  ∀ key, dict_lookup key merged
         = match dict_lookup key items with
           | Some v => Some (merged_value v (dict_lookup key acc))
           | None => dict_lookup key acc
           end.
Proof.
  unfold distinct_keys. revert acc t.
  induction items as [|[k v] items IH]; intros acc t Hnodup.
  - by intros [= <- _] key.
  - rewrite fmap_cons in Hnodup. apply NoDup_cons in Hnodup as [Hfresh Hnodup].
  cbn [fst] in Hfresh.
    cbn [for_each]. intros (acc1 & t1 & Hstep & Hrest)%bind_val key.
    rewrite (IH _ _ Hnodup Hrest). cbn [dict_lookup fst].
    assert (Hacc1 : acc1 = dict_set k (merged_value v (dict_lookup k acc)) acc).
    { unfold merge_item in Hstep.
      destruct v; try (by injection Hstep as <- _).
      destruct (dict_lookup k acc) as [old|]; [|by injection Hstep as <- _].
      destruct old; try discriminate. by injection Hstep as <- _. }
    subst acc1. destruct (String.eqb_spec key k) as [->|Hne].
    + rewrite (dict_lookup_fresh _ _ Hfresh). apply dict_lookup_set_eq.
    + rewrite dict_lookup_set_ne by congruence. done.
Qed.

(** X13: merging a settings file with the defaults keeps the default
    of every top-level key the file does not have, takes the value of
    the file for every key whose value is not an object or that the
    defaults do not have, and for a section stores the union of the
    default section and the section of the file. *)
Theorem merge_with_defaults_lookup file t merged t' :
  distinct_keys file →
  _merge_with_defaults (PDict file) t = (Val merged, t') →
  ∀ key, dict_lookup key merged
         = match dict_lookup key file with
           | Some v => Some (merged_value v (dict_lookup key DEFAULT_SETTINGS))
           | None => dict_lookup key DEFAULT_SETTINGS
           end.
Proof. intros Hkeys Hrun. by apply (merge_items_lookup file _ t _ t'). Qed.

(** X14: in a merged section the keys of the file win and the keys the
    file leaves out keep their defaults: the merge goes one level
    deep. *)
Theorem merge_with_defaults_section file t merged t' section d od key :
  distinct_keys file →
  distinct_keys d →
  _merge_with_defaults (PDict file) t = (Val merged, t') →
  dict_lookup section file = Some (PDict d) →
  dict_lookup section DEFAULT_SETTINGS = Some (PDict od) →
  read (Nested section key) merged
  = match dict_lookup key d with
    | Some v => Some v
    | None => dict_lookup key od
    end.
Proof.
  intros Hkeys Hd Hrun Hfile Hdefault. cbn [read].
  rewrite (merge_items_lookup file _ t _ t' Hkeys Hrun), Hfile, Hdefault.
  cbn [merged_value]. by apply dict_lookup_union.
Qed.

(** X15: a settings file that gives an object under a key whose
    default is not an object is refused: the merge raises a
    [TypeError]. *)
Theorem merge_with_defaults_misplaced_object file t key d old :
  distinct_keys file →
  dict_lookup key file = Some (PDict d) →
  dict_lookup key DEFAULT_SETTINGS = Some old →
  is_object old = false →
  ∃ e t', _merge_with_defaults (PDict file) t = (Exc e, t')
          ∧ exn_class e = "TypeError".
Proof.
  intros Hkeys Hfile Hdefault Hold. unfold _merge_with_defaults.
  assert (Hgen : ∀ acc, dict_lookup key acc = Some old →
            ∃ e t', for_each merge_item file acc t = (Exc e, t')
                    ∧ exn_class e = "TypeError").
  { clear Hdefault. revert t Hkeys Hfile. unfold distinct_keys.
    induction file as [|[k v] file IH]; intros t Hkeys Hfile acc Hacc;
      [discriminate|].
    rewrite fmap_cons in Hkeys. apply NoDup_cons in Hkeys as [Hfresh Hkeys].
    cbn [fst] in Hfresh.
    cbn [dict_lookup fst] in Hfile. cbn [for_each]. unfold bind.
    destruct (String.eqb_spec key k) as [<-|Hne].
    - injection Hfile as ->. unfold merge_item. rewrite Hacc.
      destruct old; try discriminate; eexists _, _; split; reflexivity.
    - destruct (merge_item acc (k, v) t) as [[acc1|e] t1] eqn:Hstep.
      + apply (IH t1 Hkeys Hfile).
        assert (acc1 = dict_set k (merged_value v (dict_lookup k acc)) acc)
          as ->.
        { unfold merge_item in Hstep.
          destruct v; try (by injection Hstep as <- _).
          destruct (dict_lookup k acc) as [o|]; [|by injection Hstep as <- _].
          destruct o; try discriminate. by injection Hstep as <- _. }
        rewrite dict_lookup_set_ne by congruence. exact Hacc.
      + exists e, t1. split; [reflexivity|].
        unfold merge_item in Hstep.
        destruct v; try discriminate.
        destruct (dict_lookup k acc) as [o|]; [|discriminate].
        destruct o; try discriminate; by injection Hstep as <- _. }
  by apply Hgen.
Qed.

(** ** Configuration: validation *)

Lemma check_url_val service url t t' :
  check_url service url t = (Val (), t') → url_ok url.
Proof.
  unfold check_url, url_ok. destruct (py_truthy url) eqn:Htruthy; [|by left].
  destruct url; try discriminate.
  destruct (startswith s "http://") eqn:H1; [right; eauto|].
  destruct (startswith s "https://") eqn:H2; [right; eauto|].
  discriminate.
Qed.

Lemma check_url_ok service url t :
  url_ok url → check_url service url t = (Val (), t).
Proof.
  unfold check_url, url_ok. intros [->|(u & -> & Hscheme)]; [done|].
  destruct (py_truthy (PStr u)); [|done].
  by destruct Hscheme as [-> | ->]; rewrite ?orb_true_r.
Qed.

(** X16: [_validate_config] accepts exactly the configurations in
    which the Overseerr and Riven sections are objects, the URL of each
    service whose API key is set is empty or starts with [http://] or
    [https://], and the minimum rating is neither below 0 nor above 10;
    the URL of a service without API key is not looked at. *)
Theorem validate_config_accepts config t :
  _validate_config config t = (Val (), t) ↔ valid_config config.
Proof.
  unfold valid_config, service_ok. split.
  - intros H. pose proof (validate_config_rating _ _ _ H) as [Hlt Hgt].
    unfold _validate_config in H.
    apply bind_val in H as (overseerr & t1 & [Hov ->]%as_dict_val & H).
    apply bind_val in H as (riven & t2 & [Hrv ->]%as_dict_val & H).
    apply bind_val in H as ([] & t3 & Hurl1 & H).
    apply bind_val in H as ([] & t4 & Hurl2 & H).
    split; [|split; [|done]].
    + exists overseerr. split; [exact Hov|]. intros Hkey.
      rewrite Hkey in Hurl1. by apply check_url_val in Hurl1.
    + exists riven. split; [exact Hrv|]. intros Hkey.
      rewrite Hkey in Hurl2. by apply check_url_val in Hurl2.
  - intros ((overseerr & Hov & Hurl1) & (riven & Hrv & Hurl2) & Hlt & Hgt).
    unfold _validate_config, min_tmdb_rating_of in *.
    rewrite Hov, Hrv. unfold bind at 1. cbn [as_dict ret].
    unfold bind at 1. cbn [as_dict ret].
    unfold bind at 1.
    assert (H1 : (if py_truthy (py_get overseerr "api_key")
                  then check_url "Overseerr"
                         (py_get_default overseerr "api_url" (PStr ""))
                  else ret ()) t = (Val (), t)).
    { destruct (py_truthy (py_get overseerr "api_key")); [|done].
      by apply check_url_ok, Hurl1. }
    rewrite H1. unfold bind at 1.
    assert (H2 : (if py_truthy (py_get riven "api_key")
                  then check_url "Riven"
                         (py_get_default riven "api_url" (PStr ""))
                  else ret ()) t = (Val (), t)).
    { destruct (py_truthy (py_get riven "api_key")); [|done].
      by apply check_url_ok, Hurl2. }
    rewrite H2. unfold bind at 1.
    destruct (py_get_default config "filters" (PDict [])); try discriminate.
    cbn [as_dict ret]. unfold bind at 1. rewrite Hlt. cbn [compare ret].
    unfold bind. by rewrite Hgt.
Qed.

Lemma merge_with_defaults_lookup_witness :
  ∃ merged t',
    _merge_with_defaults (PDict partial_settings) [] = (Val merged, t')
    ∧ dict_lookup "plex" merged = Some (PDict [("library", PStr "Movies")])
    ∧ dict_lookup "run_time" merged = Some (PStr "").
Proof.
  destruct (_merge_with_defaults (PDict partial_settings) [])
    as [[merged|e] t'] eqn:Hrun.
  - exists merged, t'. split; [reflexivity|].
    assert (Hkeys : distinct_keys partial_settings).
    { solve_distinct_keys. }
    pose proof (merge_with_defaults_lookup partial_settings [] merged t'
                  Hkeys Hrun) as Hlook.
    rewrite !Hlook. split; reflexivity.
  - vm_compute in Hrun. discriminate.
Defined.

Lemma merge_with_defaults_section_witness :
  ∃ merged t',
    _merge_with_defaults (PDict partial_settings) [] = (Val merged, t')
    ∧ read (Nested "filters" "min_tmdb_rating") merged = Some (PInt 6)
    ∧ read (Nested "filters" "exclude_adult") merged = Some (PBool true).
Proof.
  destruct (_merge_with_defaults (PDict partial_settings) [])
    as [[merged|e] t'] eqn:Hrun.
  - exists merged, t'. split; [reflexivity|].
    assert (Hkeys : distinct_keys partial_settings).
    { solve_distinct_keys. }
    assert (Hd : distinct_keys [("min_tmdb_rating", PInt 6)]).
    { solve_distinct_keys. }
    split.
    + rewrite (merge_with_defaults_section partial_settings [] merged t'
                 "filters" [("min_tmdb_rating", PInt 6)]
                 [("min_tmdb_rating", PInt 0); ("exclude_adult", PBool true);
                  ("allowed_languages", PList []);
                  ("excluded_genres", PList []);
                  ("excluded_certifications", PList [])]
                 "min_tmdb_rating" Hkeys Hd Hrun); reflexivity.
    + rewrite (merge_with_defaults_section partial_settings [] merged t'
                 "filters" [("min_tmdb_rating", PInt 6)]
                 [("min_tmdb_rating", PInt 0); ("exclude_adult", PBool true);
                  ("allowed_languages", PList []);
                  ("excluded_genres", PList []);
                  ("excluded_certifications", PList [])]
                 "exclude_adult" Hkeys Hd Hrun); reflexivity.
  - vm_compute in Hrun. discriminate.
Defined.

Lemma merge_with_defaults_misplaced_object_witness :
  ∃ e t', _merge_with_defaults (PDict misplaced_object) [] = (Exc e, t')
          ∧ exn_class e = "TypeError".
Proof.
  apply (merge_with_defaults_misplaced_object misplaced_object [] "run_time"
           [("hour", PInt 19)] (PStr "")).
  - solve_distinct_keys.
  - reflexivity.
  - reflexivity.
  - reflexivity.
Defined.

Lemma validate_config_accepts_witness :
  _validate_config unchecked_url_config [] = (Val (), []).
Proof.
  apply (validate_config_accepts unchecked_url_config []).
  repeat split.
  - eexists. split; [reflexivity|]. intros _. right. eexists.
    split; [reflexivity|]. right. reflexivity.
  - eexists. split; [reflexivity|]. discriminate.
Defined.

(** ** Configuration: environment overrides *)

Lemma dict_set_same k v d : dict_lookup k d = Some v → dict_set k v d = d.
Proof.
  induction d as [|[k' v'] d IH]; [discriminate|]. cbn [dict_lookup dict_set].
  destruct (String.eqb_spec k k') as [->|Hne].
  - by intros [= ->].
  - intros Hd. by rewrite (IH Hd).
Qed.

Section OverridesMore.
Variable B : Builtins.
Variable w : World.

Lemma override_step_fixed e config t v x :
  overriding (environ w e.1.1) = Some v →
  conversion B e v = Val x →
  read e.1.2 config = Some x →
  override_step B w config e t = (Val config, t).
Proof.
  destruct e as [[var tg] ty]. unfold override_step, conversion.
  cbn [fst snd]. intros Hv Hconv Hread. destruct tg as [section key|key].
  - unfold override_nested. rewrite Hv. cbn [from_option id].
    unfold bind, lift. rewrite Hconv.
    cbn [read] in Hread. unfold ensure_section, set_item.
    destruct (dict_lookup section config) as [old|] eqn:Hsec; [|discriminate].
    rewrite Hsec. destruct old; try discriminate.
    by rewrite (dict_set_same _ _ _ Hread), (dict_set_same _ _ _ Hsec).
  - unfold override_top. rewrite Hv. cbn [from_option id].
    unfold bind, lift. rewrite Hconv. cbn [read] in Hread.
    by rewrite (dict_set_same _ _ _ Hread).
Qed.

Lemma for_each_fixed (l : list (string * target * string)) config t :
  (∀ e, e ∈ l → override_step B w config e t = (Val config, t)) →
  for_each (override_step B w) l config t = (Val config, t).
Proof.
  induction l as [|e l IH]; intros Hfix; [done|].
  cbn [for_each]. unfold bind. rewrite Hfix by (apply elem_of_cons; by left).
  apply IH. intros e' He'. apply Hfix, elem_of_cons. by right.
Qed.

Lemma override_step_unset e config t :
  overriding (environ w e.1.1) = None →
  override_step B w config e t = (Val config, t).
Proof.
  destruct e as [[var tg] ty]. unfold override_step. cbn [fst snd].
  intros Hnone. destruct tg; unfold override_nested, override_top;
    by rewrite Hnone.
Qed.

Lemma override_step_pure e config t o t' :
  override_step B w config e t = (o, t') → t' = t.
Proof.
  destruct e as [[var tg] ty]. unfold override_step. cbn [fst snd].
  destruct tg as [section key|key]; unfold override_nested, override_top;
    destruct (overriding _); unfold bind, lift, ret;
    try (by intros [= _ <-]).
  - destruct (convert B _ _); [|by intros [= _ <-]].
    unfold set_item. destruct (dict_lookup _ _) as [[]|]; by intros [= _ <-].
  - destruct (convert_top B _ _); by intros [= _ <-].
Qed.

Lemma for_each_steps_pure (l : list (string * target * string)) config t o t' :
  for_each (override_step B w) l config t = (o, t') → t' = t.
Proof.
  revert config. induction l as [|e l IH]; intros config.
  - by intros [= _ <-].
  - cbn [for_each]. unfold bind.
    destruct (override_step B w config e t) as [[c1|err] t1] eqn:Hstep;
      apply override_step_pure in Hstep as ->.
    + apply IH.
    + by intros [= _ <-].
Qed.

(** X17: applying the environment overrides a second time changes
    nothing: the configuration that comes out of
    [_apply_env_overrides] is a fixed point of it. *)
Theorem env_overrides_idempotent config t config' t' :
  _apply_env_overrides B w config t = (Val config', t') →
  _apply_env_overrides B w config' t' = (Val config', t').
Proof.
  rewrite !apply_env_overrides_steps. intros Hrun.
  apply for_each_fixed. intros e He.
  destruct (for_each_entry B w _ e _ _ _ _ separated_supported_overrides
              He Hrun) as [_ Hset].
  destruct (overriding (environ w e.1.1)) as [v|] eqn:Hv.
  - destruct (Hset v eq_refl) as (x & Hconv & Hread).
    by apply (override_step_fixed e config' t' v x).
  - by apply override_step_unset.
Qed.

(** X18: the overrides touch nothing but their own places: a value of
    the configuration that lies at none of the places of the supported
    variables, and in none of the sections they replace, is the same
    after [_apply_env_overrides]. *)
Theorem env_overrides_frame config t config' t' tg :
  (∀ e, e ∈ supported_overrides → independent tg e.1.2 = true) →
  _apply_env_overrides B w config t = (Val config', t') →
  read tg config' = read tg config.
Proof.
  intros Hind. rewrite apply_env_overrides_steps. intros Hrun.
  eapply for_each_frame; [|exact Hrun]. by apply Forall_forall.
Qed.
End OverridesMore.

Lemma env_overrides_idempotent_witness :
  ∃ config' t',
    _apply_env_overrides plain_builtins genres_world DEFAULT_SETTINGS []
    = (Val config', t')
    ∧ _apply_env_overrides plain_builtins genres_world config' t'
      = (Val config', t').
Proof.
  destruct (_apply_env_overrides plain_builtins genres_world
              DEFAULT_SETTINGS []) as [[config'|e] t'] eqn:Hrun.
  - exists config', t'. split; [reflexivity|].
    by apply (env_overrides_idempotent plain_builtins genres_world
                DEFAULT_SETTINGS []).
  - vm_compute in Hrun. discriminate.
Defined.

Lemma env_overrides_frame_witness :
  ∃ config' t',
    _apply_env_overrides plain_builtins genres_world partial_settings []
    = (Val config', t')
    ∧ read (Nested "plex" "library") config' = Some (PStr "Movies").
Proof.
  destruct (_apply_env_overrides plain_builtins genres_world
              partial_settings []) as [[config'|e] t'] eqn:Hrun.
  - exists config', t'. split; [reflexivity|].
    rewrite (env_overrides_frame plain_builtins genres_world partial_settings
               [] config' t' (Nested "plex" "library")); [reflexivity| |exact Hrun].
    intros e He. apply list_elem_of_In in He. vm_compute in He.
    repeat (destruct He as [<-|He]; [reflexivity|]). destruct He.
  - vm_compute in Hrun. discriminate.
Defined.

(** ** Computations that make no call *)

Create HintDb traceless.

Lemma traceless_ret {A} (a : A) : traceless (ret a).
Proof. intros t. by eexists. Qed.

Lemma traceless_raise {A} e : traceless (@raise A e).
Proof. intros t. by eexists. Qed.

Lemma traceless_lift {A} (o : outcome A) : traceless (lift o).
Proof. intros t. by eexists. Qed.

Lemma traceless_bind {A C} (m : M A) (k : A → M C) :
  traceless m → (∀ a, traceless (k a)) → traceless (x <- m ;; k x).
Proof.
  intros Hm Hk t. unfold bind. destruct (Hm t) as [[a|e] ->]; [|by eexists].
  apply Hk.
Qed.

Lemma traceless_try_except {A} (m : M A) (h : exn → M A) :
  traceless m → (∀ e, traceless (h e)) → traceless (try_except m h).
Proof.
  intros Hm Hh t. unfold try_except.
  destruct (Hm t) as [[a|e] ->]; [by eexists|]. apply Hh.
Qed.

Lemma traceless_as_dict v : traceless (as_dict v).
Proof. intros t. destruct v; by eexists. Qed.

Lemma traceless_compare c : traceless (compare c).
Proof. intros t. destruct c; by eexists. Qed.

Lemma traceless_check_url service url : traceless (check_url service url).
Proof.
  intros t. unfold check_url. destruct (py_truthy url); [|by eexists].
  destruct url; try by eexists. destruct (negb _); by eexists.
Qed.

Lemma traceless_for_each {A} (f : pydict → A → M pydict) l config :
  (∀ c x, traceless (f c x)) → traceless (for_each f l config).
Proof.
  intros Hf. revert config. induction l as [|x l IH]; intros config.
  - apply traceless_ret.
  - cbn [for_each]. apply traceless_bind; [apply Hf|]. intros c. apply IH.
Qed.

#[local] Hint Resolve traceless_ret traceless_raise traceless_lift
  traceless_as_dict traceless_compare traceless_check_url : traceless.

Lemma traceless_merge_item merged item : traceless (merge_item merged item).
Proof.
  destruct item as [key value]. unfold merge_item.
  destruct value; auto with traceless.
  destruct (dict_lookup key merged) as [[]|]; auto with traceless.
Qed.

Lemma traceless_validate_config config : traceless (_validate_config config).
Proof.
  unfold _validate_config.
  repeat (apply traceless_bind; [|intros ?]);
    repeat match goal with
           | |- traceless (if ?b then _ else _) => destruct b
           end;
    auto with traceless.
  apply traceless_bind; [auto with traceless|]. intros [];
    auto with traceless.
Qed.

Lemma traceless_apply_env_overrides B w config :
  traceless (_apply_env_overrides B w config).
Proof.
  intros t. destruct (_apply_env_overrides B w config t) as [o t'] eqn:Hrun.
  rewrite apply_env_overrides_steps in Hrun.
  apply for_each_steps_pure in Hrun as ->. by eexists.
Qed.

Lemma traceless_load_config B w : traceless (load_config B w).
Proof.
  unfold load_config. apply traceless_try_except.
  - apply traceless_bind.
    + destruct (config_file w) as [[v|e]|]; auto with traceless.
      unfold _merge_with_defaults. destruct v; auto with traceless.
      apply traceless_for_each. intros c x. apply traceless_merge_item.
    + intros c. apply traceless_bind; [apply traceless_apply_env_overrides|].
      intros c'. apply traceless_bind; [apply traceless_validate_config|].
      intros []. auto with traceless.
  - intros e. destruct (String.eqb _ _); auto with traceless.
Qed.

(** X19: every configuration [load_config] returns has a minimum
    rating that is not below 0 and not above 10: unless it is the
    float NaN, it is a number of the interval [0, 10].  Loading makes
    no call. *)
Theorem load_config_rating_in_range B w t config t' :
  load_config B w t = (Val config, t') →
  min_tmdb_rating_of config ≠ PFloat FNan →
  py_between 0 10 (min_tmdb_rating_of config) ∧ t' = t.
Proof.
  intros Hrun Hnan. split.
  - unfold load_config, try_except in Hrun.
    match type of Hrun with
    | (let (_, _) := ?run t in _) = _ =>
        destruct (run t) as [[c|e] t1] eqn:Hbody
    end.
    + injection Hrun as Hc Ht. subst c t1.
      apply bind_val in Hbody as (c0 & t2 & _ & Hbody).
      apply bind_val in Hbody as (c1 & t3 & _ & Hbody).
      apply bind_val in Hbody as ([] & t4 & Hvalid & [Hc Ht]%ret_val).
      subst c1 t4.
      apply validate_config_rating in Hvalid as [Hlt Hgt].
      destruct (min_tmdb_rating_of config) as [|b|z|[|neg|q]|s|l|d];
        cbn in Hlt, Hgt |- *; try discriminate; try done.
      * injection Hlt as Hlt. injection Hgt as Hgt. lia.
      * injection Hlt as Hlt. injection Hgt as Hgt. lia.
      * injection Hlt as ->. discriminate.
      * injection Hlt as Hlt. injection Hgt as Hgt.
        apply negb_false_iff in Hlt, Hgt. by apply Qle_bool_iff in Hlt, Hgt.
    + by destruct (String.eqb _ _).
  - destruct (traceless_load_config B w t) as [o Ho]. congruence.
Qed.

(** ** The entry point *)

Section EntryPoint.
Variable B : Builtins.
Variable w : World.

Lemma configured_run config section key t :
  configured config section key t
  = (match py_get_default config section (PDict []) with
     | PDict d => Val (py_truthy (py_get d key))
     | _ => Exc (attribute_error "object has no attribute 'get'")
     end, t).
Proof.
  unfold configured, bind, as_dict.
  by destruct (py_get_default config section (PDict [])).
Qed.

Lemma configured_val config section t b t' :
  configured config section "api_key" t = (Val b, t') →
  b = key_set config section ∧ t' = t.
Proof.
  rewrite configured_run. unfold key_set.
  destruct (py_get_default config section (PDict [])); try discriminate.
  by intros [= <- <-].
Qed.

(** X20: [main] returns 1 before any cycle when the configuration
    cannot be loaded, or when it has neither requester API key, or no
    TMDB API key: no release is fetched, no request is sent and nothing
    is slept. *)
Theorem main_startup_failure cycles t :
  match (load_config B w t).1 with
  | Val config => startable config = false
  | Exc _ => True
  end →
  main B w cycles t = (Val (Some 1), t).
Proof.
  intros Hbad. destruct (traceless_load_config B w t) as [o Hload].
  rewrite Hload in Hbad. cbn [fst] in Hbad.
  unfold main, try_except. unfold bind at 1. rewrite Hload.
  destruct o as [config|e]; [|reflexivity].
  unfold bind at 1, setup_logging. unfold bind at 1, as_dict.
  destruct (py_get_default config "logging" (PDict [])); try reflexivity.
  unfold ret at 1. destruct (logging_config w _); [|reflexivity].
  unfold bind at 1. rewrite configured_run.
  unfold startable, key_set in Hbad.
  destruct (py_get_default config "overseerr" (PDict [])); try reflexivity.
  unfold bind at 1. rewrite configured_run.
  destruct (py_get_default config "riven" (PDict [])); try reflexivity.
  unfold bind at 1. rewrite configured_run.
  destruct (py_get_default config "discord" (PDict [])); try reflexivity.
  destruct (py_truthy (py_get d0 "api_key")), (py_truthy (py_get d1 "api_key"));
    cbn [negb andb orb] in *; try reflexivity;
    unfold bind at 1; rewrite configured_run;
    destruct (py_get_default config "tmdb" (PDict [])); try reflexivity;
    rewrite Hbad; reflexivity.
Qed.

(** X21: [main] never raises, and its result tells the mode: when it
    is not 1, the configuration was loaded and lets [main] start, the
    result is 0 if no run time is configured and "still running"
    otherwise.  A scheduled [main] never returns 0. *)
Theorem main_exit_code cycles t :
  ∃ code t',
    main B w cycles t = (Val code, t')
    ∧ (code ≠ Some 1 →
       ∃ config,
         load_config B w t = (Val config, t)
         ∧ startable config = true
         ∧ code = if py_truthy (run_time_of config) then None else Some 0).
Proof.
  unfold main, try_except.
  match goal with
  | |- context [let (_, _) := ?body t in _] =>
      destruct (body t) as [[code|e] t'] eqn:Hbody
  end; [|exists (Some 1), t'; split; [reflexivity|done]].
  exists code, t'. split; [reflexivity|]. intros _.
  apply bind_val in Hbody as (config & t0 & Hload & Hbody).
  destruct (traceless_load_config B w t) as [o Ho].
  assert (t0 = t) as -> by congruence.
  exists config. split; [exact Hload|].
  apply bind_val in Hbody as ([] & t1 & _ & Hbody).
  apply bind_val in Hbody as (ov & t2 & [-> ->]%configured_val & Hbody).
  apply bind_val in Hbody as (rv & t3 & [-> ->]%configured_val & Hbody).
  apply bind_val in Hbody as (dc & t4 & _ & Hbody).
  unfold startable.
  destruct (key_set config "overseerr") eqn:Hov,
           (key_set config "riven") eqn:Hrv;
    cbn [negb andb orb] in *; try discriminate;
    apply bind_val in Hbody as (tm & t5 & [-> ->]%configured_val & Hbody);
    (destruct (key_set config "tmdb"); cbn [negb] in Hbody; [|discriminate]);
    (split; [reflexivity|]);
    apply bind_val in Hbody as (src & t6 & _ & Hbody);
    apply bind_val in Hbody as (rc & t7 & _ & Hbody);
    apply bind_val in Hbody as (ovr & t8 & _ & Hbody);
    apply bind_val in Hbody as (rvr & t9 & _ & Hbody);
    apply bind_val in Hbody as ([] & t10 & _ & Hbody);
    apply bind_val in Hbody as ([] & t11 & _ & Hbody);
    unfold run_time_of;
    (destruct (py_truthy (py_get_default config "run_time" (PStr "")));
     cbn [negb] in Hbody;
     [ apply bind_val in Hbody as ([] & t12 & _ & [-> _]%ret_val); reflexivity
     | apply bind_val in Hbody as ([] & t12 & _ & Hbody);
       apply bind_val in Hbody as (s & t13 & _ & [-> _]%ret_val);
       reflexivity ]).
Qed.
End EntryPoint.

Lemma load_config_rating_in_range_witness :
  ∃ config t',
    load_config plain_builtins run_once_world [] = (Val config, t')
    ∧ py_between 0 10 (min_tmdb_rating_of config)
    ∧ t' = [].
Proof.
  destruct (load_config plain_builtins run_once_world []) as [[config|e] t']
    eqn:Hrun.
  - exists config, t'. split; [reflexivity|].
    apply (load_config_rating_in_range plain_builtins run_once_world [] config
             t' Hrun).
    vm_compute in Hrun. injection Hrun as <- _. discriminate.
  - vm_compute in Hrun. discriminate.
Defined.

Lemma main_startup_failure_witness :
  main plain_builtins no_tmdb_world 5 [] = (Val (Some 1), []).
Proof.
  apply (main_startup_failure plain_builtins no_tmdb_world 5 []).
  vm_compute. reflexivity.
Defined.

(** ** The scheduler *)

Lemma parse_run_time_pure run_time t o t' :
  parse_run_time run_time t = (o, t') → t' = t.
Proof.
  unfold parse_run_time. destruct run_time; try (by intros [= _ <-]).
  destruct (split_on ":" s) as [|h [|m rest]]; unfold bind, ret, raise;
    try (by intros [= _ <-]).
  - destruct (py_int h); by intros [= _ <-].
  - destruct (py_int h); [|by intros [= _ <-]].
    destruct (py_int m); [|by intros [= _ <-]].
    destruct rest as [|extra rest]; [by intros [= _ <-]|].
    destruct (py_int extra); by intros [= _ <-].
Qed.

(** X22: when the next run time can be computed from a valid [now], it
    is at the configured hour and minute, at second 0, strictly after
    [now] and at most 24 hours after it: the time the scheduler waits
    is positive and at most one day. *)
Theorem next_run_within_a_day run_time now t next_run t' :
  valid_datetime now →
  next_run_time run_time now t = (Val next_run, t') →
  (∃ h m, parse_run_time run_time t = (Val (h, m), t)
          ∧ hour next_run = h ∧ minute next_run = m)
  ∧ second next_run = 0
  ∧ microsecond next_run = 0
  ∧ (0 < total_seconds next_run now)%Q
  ∧ (total_seconds next_run now <= 86400)%Q.
Proof.
  intros (Hmonth & Hday & Hhour & Hminute & Hsecond & Hmicro) Hrun.
  unfold next_run_time in Hrun.
  apply bind_val in Hrun as ([h m] & t1 & Hparse & Hrun).
  pose proof (parse_run_time_pure _ _ _ _ Hparse) as ->.
  cbn [fst snd] in Hrun. unfold replace_time in Hrun.
  destruct ((0 <=? h) && (h <=? 23) && (0 <=? m) && (m <=? 59)) eqn:Hrange;
    [|discriminate].
  repeat (apply andb_true_iff in Hrange as [Hrange ?]).
  match type of Hrun with
  | (if le ?c now then _ else _) _ = _ => set (candidate := c) in *
  end.
  assert (Hcand : to_microseconds candidate - to_microseconds now
                  = run_time_of_day h m - time_of_day now).
  { unfold to_microseconds, toordinal, candidate, run_time_of_day, time_of_day.
    cbn [year month day hour minute second microsecond]. lia. }
  assert (Htod : 0 ≤ time_of_day now < 86400000000)
    by (unfold time_of_day; lia).
  assert (Hrt : 0 ≤ run_time_of_day h m < 86400000000)
    by (unfold run_time_of_day; lia).
  destruct (le candidate now) eqn:Hle.
  - unfold replace_day in Hrun.
    destruct ((1 <=? day now + 1)
              && (day now + 1 <=? days_in_month (year candidate) (month candidate)));
      [|discriminate].
    unfold le in Hle. apply Z.leb_le in Hle.
    injection Hrun as <- _.
    unfold total_seconds, Qlt, Qle, to_microseconds, toordinal, candidate,
      run_time_of_day, time_of_day in *.
    cbn [Qnum Qden year month day hour minute second microsecond] in *.
    split; [eauto|]. repeat split; try reflexivity; lia.
  - unfold le in Hle. apply Z.leb_gt in Hle.
    injection Hrun as <- _.
    unfold total_seconds, Qlt, Qle, to_microseconds, toordinal, candidate,
      run_time_of_day, time_of_day in *.
    cbn [Qnum Qden year month day hour minute second microsecond] in *.
    split; [eauto|]. repeat split; try reflexivity; lia.
Qed.

(** X23: with a run time that parses to a valid hour and minute, the
    computation of the next run time from a valid [now] raises exactly
    when the run time of the day has been reached and the day is the
    last of its month. *)
Theorem next_run_fails_at_month_end run_time now t h m :
  valid_datetime now →
  parse_run_time run_time t = (Val (h, m), t) →
  0 ≤ h ≤ 23 →
  0 ≤ m ≤ 59 →
  (∃ e, next_run_time run_time now t = (Exc e, t))
  ↔ (run_time_of_day h m ≤ time_of_day now
     ∧ day now = days_in_month (year now) (month now)).
Proof.
  intros (Hmonth & Hday & Hhour & Hminute & Hsecond & Hmicro) Hparse Hh Hm.
  unfold next_run_time, bind. rewrite Hparse. cbn [fst snd].
  unfold replace_time.
  assert (((0 <=? h) && (h <=? 23) && (0 <=? m) && (m <=? 59)) = true) as ->.
  { repeat (apply andb_true_iff; split); apply Z.leb_le; lia. }
  match goal with
  | |- context [le ?c now] => set (candidate := c)
  end.
  assert (Hle : le candidate now = true
                ↔ run_time_of_day h m ≤ time_of_day now).
  { unfold le. rewrite Z.leb_le.
    unfold to_microseconds, toordinal, candidate, run_time_of_day, time_of_day.
    cbn [year month day hour minute second microsecond]. lia. }
  destruct (le candidate now).
  - unfold replace_day. cbn [year month candidate].
    destruct (Z.leb_spec (day now + 1) (days_in_month (year now) (month now)))
      as [Hfits|Hlast].
    + assert ((1 <=? day now + 1) = true) as -> by (apply Z.leb_le; lia).
      cbn [andb]. split.
      * intros [e He]. discriminate.
      * intros [_ Heq]. lia.
    + rewrite andb_false_r. split.
      * intros _. split; [by apply Hle|lia].
      * intros _. eexists. reflexivity.
  - split.
    + intros [e He]. discriminate.
    + intros [Hreached _]. apply Hle in Hreached. discriminate.
Qed.

(** X24: as long as the next run time can be computed and the sleep
    until then returns, the scheduled loop goes on for every number of
    cycles: nothing the delay sleep or [run_check] raises ends it. *)
Theorem scheduled_loop_survives B w run_time request_delay_minutes
    release_checker overseerr_requester riven_requester :
  (∀ t, ∃ next_run,
        next_run_time run_time (now w t) (t ++ [EvNow])
        = (Val next_run, t ++ [EvNow])
        ∧ sleep_result w (t ++ [EvNow])
            (PFloat (float_round B (total_seconds next_run (now w t))))
          = Val ()) →
  ∀ cycles t,
    ∃ t', scheduled_loop B w cycles run_time request_delay_minutes
            release_checker overseerr_requester riven_requester t
          = (Val (), t').
Proof.
  intros Hnext cycles.
  induction cycles as [|n IH]; intros t; [by eexists|].
  cbn [scheduled_loop]. unfold bind.
  destruct (Hnext t) as (next_run & Hnr & Hsleep).
  destruct (cycle_catches_check B w run_time request_delay_minutes
              release_checker overseerr_requester riven_requester t next_run
              (t ++ [EvNow]) Hnr Hsleep) as [t1 ->].
  apply IH.
Qed.

Lemma next_run_within_a_day_witness :
  ∃ next_run,
    next_run_time (PStr "19:00") noon [] = (Val next_run, [])
    ∧ (0 < total_seconds next_run noon)%Q
    ∧ (total_seconds next_run noon <= 86400)%Q.
Proof.
  destruct (next_run_time (PStr "19:00") noon []) as [[next_run|e] t'] eqn:Hrun.
  - assert (Hvalid : valid_datetime noon).
    { unfold valid_datetime. vm_compute. intuition discriminate. }
    destruct (next_run_within_a_day (PStr "19:00") noon [] next_run t'
                Hvalid Hrun) as (_ & _ & _ & Hpos & Hday).
    exists next_run. vm_compute in Hrun. injection Hrun as <- <-.
    split; [reflexivity|]. split; [exact Hpos|exact Hday].
  - vm_compute in Hrun. discriminate.
Defined.

Lemma next_run_fails_at_month_end_witness :
  ∃ e, next_run_time (PStr "19:00") month_end_evening [] = (Exc e, []).
Proof.
  apply (next_run_fails_at_month_end (PStr "19:00") month_end_evening [] 19 0).
  - unfold valid_datetime. vm_compute. intuition discriminate.
  - reflexivity.
  - lia.
  - lia.
  - split; vm_compute; [discriminate|reflexivity].
Defined.

Lemma scheduled_loop_survives_witness :
  (delay plain_builtins long_delay_world (PInt (10 ^ 30)) []).1
  = Exc (Exn "OverflowError" "timestamp too large to convert to C PyTime_t")
  ∧ ∃ t', scheduled_loop plain_builtins long_delay_world 3 (PStr "19:00")
            (PInt (10 ^ 30)) TmdbSource None (Some riven_client) []
          = (Val (), t').
Proof.
  split; [vm_compute; reflexivity|].
  apply (scheduled_loop_survives plain_builtins long_delay_world (PStr "19:00")
           (PInt (10 ^ 30)) TmdbSource None (Some riven_client)).
  intros t. eexists. split; reflexivity.
Defined.

(** ** The scraping source *)

Section ScrapedPage.
Import Scraper.

Lemma unique_movies_spec movies seen :
  NoDup (titles (unique_movies movies seen))
  ∧ (∀ x, x ∈ titles (unique_movies movies seen) ↔ x ∈ titles movies ∧ x ∉ seen)
  ∧ (∀ e, e ∈ unique_movies movies seen → e ∈ movies).
Proof.
  revert seen. induction movies as [|m rest IH]; intros seen.
  { cbn. split; [constructor|]. split; [|by intros e H].
    intros x. split; [by intros ?%elem_of_nil | by intros [?%elem_of_nil _]]. }
  cbn [unique_movies]. case_bool_decide as Hseen.
  - destruct (IH seen) as (Hnd & Hiff & Hsub). split; [exact Hnd|]. split.
    + intros x. rewrite Hiff. unfold titles. cbn [fmap list_fmap].
      rewrite elem_of_cons. split; [tauto|].
      intros [[->|Hx] Hn]; [done|tauto].
    + intros e He. apply elem_of_cons. right. by apply Hsub.
  - destruct (IH ({[mi_title m]} ∪ seen)) as (Hnd & Hiff & Hsub).
    unfold titles in *. cbn [fmap list_fmap]. split; [|split].
    + apply NoDup_cons. split; [|exact Hnd].
      intros Hin. apply Hiff in Hin as [_ Hn]. apply Hn.
      apply elem_of_union. left. by apply elem_of_singleton.
    + intros x. rewrite !elem_of_cons, Hiff, elem_of_union, elem_of_singleton.
      destruct (decide (x = mi_title m)) as [->|Hne]; tauto.
    + intros e [->|He]%elem_of_cons; apply elem_of_cons; [by left|].
      right. by apply Hsub.
Qed.

Lemma movies_of_elem el target current year e :
  e ∈ movies_of el target current year →
  current = target ∧ mi_year e = year
  ∧ ∃ l, l ∈ links el ∧ is_movie_link l = true ∧ mi_title e = link_title l.
Proof.
  unfold movies_of. case_bool_decide as Hcur; [|by intros ?%elem_of_nil].
  intros (l & -> & Hl)%list_elem_of_fmap.
  apply list_elem_of_In, List.filter_In in Hl as [Hl Hm].
  apply list_elem_of_In in Hl. split; [done|]. split; [done|]. by exists l.
Qed.

Lemma elem_movies_of el target year l :
  l ∈ links el → is_movie_link l = true →
  link_title l ∈ titles (movies_of el target target year).
Proof.
  intros Hl Hm. unfold movies_of, titles. rewrite bool_decide_eq_true_2 by done.
  rewrite <- list_fmap_compose. apply list_elem_of_fmap. exists l.
  split; [done|]. apply list_elem_of_In, List.filter_In.
  split; [by apply list_elem_of_In|done].
Qed.

(** Where an entry of the first loop comes from: a movie link of an
    element that is read while the current date is the target, which
    is either the date the loop started with or that of a header at or
    before the element. *)
Lemma collect_elem soup target current e :
  e ∈ collect soup target current →
  mi_year e = target.1.1
  ∧ ∃ (j : nat) el l,
      soup !! j = Some el ∧ l ∈ links el ∧ is_movie_link l = true
      ∧ mi_title e = link_title l
      ∧ (current = Some target
         ∨ ∃ (i : nat) header m,
             (i ≤ j)%nat ∧ soup !! i = Some header
             ∧ date_match header = Some m ∧ header_date m = Some target).
Proof.
  revert current. induction soup as [|el rest IH]; intros current.
  { by intros ?%elem_of_nil. }
  cbn [collect].
  assert (Hshift : ∀ cur,
    e ∈ collect rest target cur →
    (cur = Some target → current = Some target
       ∨ ∃ m, date_match el = Some m ∧ header_date m = Some target) →
    mi_year e = target.1.1
    ∧ ∃ (j : nat) el0 l,
        (el :: rest) !! j = Some el0 ∧ l ∈ links el0 ∧ is_movie_link l = true
        ∧ mi_title e = link_title l
        ∧ (current = Some target
           ∨ ∃ (i : nat) header m,
               (i ≤ j)%nat ∧ (el :: rest) !! i = Some header
               ∧ date_match header = Some m ∧ header_date m = Some target)).
  { intros cur Hin Hcur. destruct (IH _ Hin) as (Hy & j & el0 & l & Hj & Hl & Hm & Ht & Hor).
    split; [done|]. exists (S j), el0, l. repeat split; try done.
    destruct Hor as [Hc|(i & header & m & Hij & Hi & Hdm & Hhd)].
    - destruct (Hcur Hc) as [?|(m & Hdm & Hhd)]; [by left|].
      right. exists 0%nat, el, m. repeat split; try done. lia.
    - right. exists (S i), header, m. repeat split; try done. lia. }
  destruct (date_match el) as [m|] eqn:Hdm.
  - destruct (header_date m) as [d|] eqn:Hhd.
    + intros [Hin|Hin]%elem_of_app.
      * apply movies_of_elem in Hin as (Hcur & Hy & l & Hl & Hm & Ht).
        split; [done|]. exists 0%nat, el, l. repeat split; try done.
        right. exists 0%nat, el, m. repeat split; try done. congruence.
      * apply (Hshift _ Hin). intros [= ->]. right. by exists m.
    + intros Hin. apply (Hshift _ Hin). by left.
  - intros [Hin|Hin]%elem_of_app.
    + apply movies_of_elem in Hin as (Hcur & Hy & l & Hl & Hm & Ht).
      split; [done|]. exists 0%nat, el, l. repeat split; try done. by left.
    + apply (Hshift _ Hin). by left.
Qed.

(** X25: the entries [_parse_releases] returns have pairwise distinct
    titles and carry the year of the target date, and each is the title
    of a movie link that stands in an element at or after a header of
    the target date. *)
Theorem parse_releases_sound soup target :
  NoDup (titles (_parse_releases soup target))
  ∧ ∀ e, e ∈ _parse_releases soup target →
      mi_year e = target.1.1
      ∧ ∃ l, under_header soup target l
             ∧ is_movie_link l = true
             ∧ mi_title e = link_title l.
Proof.
  unfold _parse_releases.
  destruct (unique_movies_spec (collect soup target None) ∅) as (Hnd & _ & Hsub).
  split; [exact Hnd|]. intros e He%Hsub.
  apply collect_elem in He as (Hy & j & el & l & Hj & Hl & Hm & Ht & Hor).
  split; [done|]. exists l. repeat split; try done.
  destruct Hor as [?|(i & header & m & Hij & Hi & Hdm & Hhd)]; [done|].
  by exists i, j, header, m, el.
Qed.

Lemma collect_app before after target current :
  ∃ current',
    collect (before ++ after) target current
    = collect before target current ++ collect after target current'.
Proof.
  revert current. induction before as [|el rest IH]; intros current.
  { by exists current. }
  cbn [app collect]. destruct (date_match el) as [m|].
  - destruct (header_date m) as [d|].
    + destruct (IH (Some d)) as [c' ->]. exists c'. by rewrite app_assoc.
    + apply IH.
  - destruct (IH current) as [c' ->]. exists c'. by rewrite app_assoc.
Qed.

Lemma collect_rows rows target el l :
  Forall (λ el, date_match el = None) rows →
  el ∈ rows → l ∈ links el → is_movie_link l = true →
  link_title l ∈ titles (collect rows target (Some target)).
Proof.
  intros Hrows Hel Hl Hm. induction Hrows as [|r rs Hr _ IH].
  { by apply elem_of_nil in Hel. }
  cbn [collect]. rewrite Hr. unfold titles. rewrite fmap_app.
  apply elem_of_app. apply elem_of_cons in Hel as [<-|Hel].
  - left. by apply elem_movies_of.
  - right. by apply IH.
Qed.

(** X26: where the page has a header of the target date followed by
    elements without a date, every movie link of the header element
    and of the elements after it has its title in what
    [_parse_releases] returns. *)
Theorem parse_releases_under_header before header m rows target el l :
  date_match header = Some m →
  header_date m = Some target →
  Forall (λ el, date_match el = None) rows →
  el ∈ header :: rows →
  l ∈ links el →
  is_movie_link l = true →
  link_title l ∈ titles (_parse_releases (before ++ header :: rows) target).
Proof.
  intros Hdm Hhd Hrows Hel Hl Hm. unfold _parse_releases.
  destruct (unique_movies_spec
              (collect (before ++ header :: rows) target None) ∅)
    as (_ & Hiff & _).
  apply Hiff. split; [|apply not_elem_of_empty].
  destruct (collect_app before (header :: rows) target None) as [c' ->].
  unfold titles. rewrite fmap_app. apply elem_of_app. right.
  cbn [collect]. rewrite Hdm, Hhd, fmap_app. apply elem_of_app.
  apply elem_of_cons in Hel as [->|Hel].
  - left. by apply elem_movies_of.
  - right. by apply (collect_rows rows target el l).
Qed.

Lemma first_certification_objects (releases : list pydict) t :
  first_certification (PDict <$> releases) t
  = (Val (head (List.filter py_truthy
                  (certification_of <$> (PDict <$> releases)))), t).
Proof.
  induction releases as [|r rs IH]; [done|].
  cbn [fmap list_fmap first_certification List.filter certification_of].
  unfold bind at 1. cbn [as_dict ret].
  destruct (py_truthy (py_get_default r "certification" (PStr ""))); [done|].
  exact IH.
Qed.

Lemma forallb_is_object l :
  forallb is_object l = true → ∃ ds : list pydict, l = PDict <$> ds.
Proof.
  induction l as [|v l IH]; [by exists []|].
  cbn [forallb]. intros [Hv Hl]%andb_true_iff.
  destruct (IH Hl) as [ds ->]. destruct v; try discriminate.
  by eexists (_ :: ds).
Qed.

Lemma head_filter_app {A} (f : A → bool) (l1 l2 : list A) :
  head (List.filter f (l1 ++ l2))
  = match head (List.filter f l1) with
    | Some x => Some x
    | None => head (List.filter f l2)
    end.
Proof.
  rewrite List.filter_app. by destruct (List.filter f l1).
Qed.

Lemma us_certification_objects (countries : list pydict) t :
  Forall (λ c, well_formed_country c = true) countries →
  us_certification (PDict <$> countries) t
  = (Val (default (PStr "")
            (head (List.filter py_truthy (us_certifications countries)))), t).
Proof.
  induction 1 as [|c cs Hc _ IH]; [done|].
  cbn [fmap list_fmap us_certification]. unfold bind at 1. cbn [as_dict ret].
  unfold us_certifications. cbn [flat_map]. rewrite head_filter_app.
  unfold well_formed_country in Hc.
  destruct (py_eq_str (py_get c "iso_3166_1") "US") eqn:Hus.
  - unfold releases_of.
    destruct (py_get_default c "release_dates" (PList [])) as [| | | | |l|] eqn:Hl;
      try discriminate.
    destruct (forallb_is_object _ Hc) as [ds ->].
    unfold bind at 1. cbn [iterate ret]. unfold bind at 1.
    rewrite first_certification_objects.
    destruct (head (List.filter py_truthy (certification_of <$> (PDict <$> ds))))
      as [cert|]; [done|]. exact IH.
  - cbn [List.filter head]. exact IH.
Qed.

(** X27: on release data whose US entries list their releases as
    objects, [_get_us_certification] returns the first certification of
    a US release that is not empty, and the empty string when there is
    none; it makes no call. *)
Theorem us_certification_first d countries t :
  py_get_default d "results" (PList []) = PList (PDict <$> countries) →
  Forall (λ c, well_formed_country c = true) countries →
  _get_us_certification (PDict d) t
  = (Val (default (PStr "")
            (head (List.filter py_truthy (us_certifications countries)))), t).
Proof.
  intros Hres Hwf. unfold _get_us_certification.
  unfold bind at 1. cbn [as_dict ret]. rewrite Hres.
  unfold bind at 1. cbn [iterate ret].
  by apply us_certification_objects.
Qed.

End ScrapedPage.

Section ScrapedReleases.
Import Scraper.
Variable B : Builtins.
Variable w : World.
Variable json_error : exn.
Variable soup_elements : string → outcome (list element).
Variable tmdb_api_key : pyval.

Lemma traceless_val {A} (m : M A) t a t' :
  traceless m → m t = (Val a, t') → t' = t.
Proof. intros Hm H. destruct (Hm t) as [o Ho]. congruence. Qed.

Lemma traceless_iterate v : traceless (iterate v).
Proof. intros t. destruct v; by eexists. Qed.

Lemma traceless_subscript v k : traceless (subscript v k).
Proof.
  intros t. destruct v; try by eexists.
  unfold subscript. destruct (dict_lookup k _); by eexists.
Qed.

Lemma traceless_first_item v : traceless (first_item v).
Proof.
  intros t. destruct v as [| | | |s|l|]; try by eexists.
  - destruct s; by eexists.
  - destruct l; by eexists.
Qed.

Lemma traceless_json_of r : traceless (json_of json_error r).
Proof. intros t. unfold json_of. destruct (json r); by eexists. Qed.

Lemma traceless_raise_for_status r : traceless (raise_for_status r).
Proof. intros t. unfold raise_for_status. destruct (_ && _); by eexists. Qed.

Lemma traceless_map_m {A C} (f : A → M C) l :
  (∀ x, traceless (f x)) → traceless (map_m f l).
Proof.
  intros Hf. induction l as [|x l IH]; [apply traceless_ret|].
  cbn [map_m]. apply traceless_bind; [apply Hf|]. intros y.
  apply traceless_bind; [apply IH|]. intros ys. apply traceless_ret.
Qed.

Lemma traceless_first_certification releases :
  traceless (first_certification releases).
Proof.
  induction releases as [|r rs IH]; [apply traceless_ret|].
  cbn [first_certification]. apply traceless_bind; [apply traceless_as_dict|].
  intros d. destruct (py_truthy _); [apply traceless_ret|apply IH].
Qed.

Lemma traceless_us_certification countries :
  traceless (us_certification countries).
Proof.
  induction countries as [|c cs IH]; [apply traceless_ret|].
  cbn [us_certification]. apply traceless_bind; [apply traceless_as_dict|].
  intros d. destruct (py_eq_str _ _); [|apply IH].
  apply traceless_bind; [apply traceless_iterate|]. intros rs.
  apply traceless_bind; [apply traceless_first_certification|].
  intros [cert|]; [apply traceless_ret|apply IH].
Qed.

Lemma traceless_get_us_certification v : traceless (_get_us_certification v).
Proof.
  unfold _get_us_certification.
  apply traceless_bind; [apply traceless_as_dict|]. intros d.
  apply traceless_bind; [apply traceless_iterate|]. intros rs.
  apply traceless_us_certification.
Qed.

Lemma send_val req t r t' :
  send w req t = (Val r, t') → t' = t ++ [EvHttp req].
Proof. unfold send. by intros [= _ <-]. Qed.

(** What [_lookup_on_tmdb] returns when it returns a release, and the
    last call it made. *)
Lemma lookup_returns_record title year t r t' :
  _lookup_on_tmdb B w json_error tmdb_api_key title year t = (Val (Some r), t') →
  ∃ id title' overview vote_average poster_path release_date
      original_language adult genre_names certification t1,
    r = [("id", id); ("title", title'); ("overview", overview);
         ("vote_average", vote_average); ("poster_path", poster_path);
         ("release_date", release_date);
         ("original_language", original_language); ("adult", adult);
         ("genre_names", PList genre_names);
         ("certification", certification); ("media_type", PStr "movie")]
    ∧ t' = t1 ++ [EvHttp (details_request B tmdb_api_key id)].
Proof.
  unfold _lookup_on_tmdb, try_except_request. intros H.
  destruct ((found <- search w json_error tmdb_api_key title year ;; _) t)
    as [[o|e] t2] eqn:Hbody.
  2: { destruct (is_request_exception e); discriminate. }
  injection H as -> ->.
  apply bind_val in Hbody as ([data|] & t3 & _ & H); [|discriminate].
  apply bind_val in H as (results & t4 & Hr & H).
  apply traceless_val in Hr as ->; [|apply traceless_subscript].
  apply bind_val in H as (movie & t5 & Hm & H).
  apply traceless_val in Hm as ->; [|apply traceless_first_item].
  apply bind_val in H as (id & t6 & Hid & H).
  apply traceless_val in Hid as ->; [|apply traceless_subscript].
  apply bind_val in H as (response & t7 & ->%send_val & H).
  apply bind_val in H as (details & t8 & Hd & H).
  apply traceless_val in Hd as ->; [|apply traceless_json_of].
  apply bind_val in H as (dd & t9 & [_ ->]%as_dict_val & H).
  apply bind_val in H as (certification & t10 & Hc & H).
  apply traceless_val in Hc as ->; [|apply traceless_get_us_certification].
  apply bind_val in H as (genres & t11 & Hg & H).
  apply traceless_val in Hg as ->; [|apply traceless_iterate].
  apply bind_val in H as (genre_names & t12 & Hn & H).
  apply traceless_val in Hn as ->;
    [|apply traceless_map_m; intros; apply traceless_subscript].
  apply bind_val in H as (m & t13 & [_ ->]%as_dict_val & H).
  apply ret_val in H as [[= ->] ->]. by do 11 eexists.
Qed.

Lemma record_is_scraped (r : Release) :
  r.*1 = record_keys →
  dict_lookup "type" r = None ∧ dict_lookup "tmdb_id" r = None.
Proof.
  intros Hk. split; apply dict_lookup_fresh; rewrite Hk;
    apply (bool_decide_unpack _); vm_compute; exact I.
Qed.

(** X28: a release [_lookup_on_tmdb] returns has exactly the eleven
    keys of the source, in its order, with [media_type] set to movie;
    it has neither a [type] nor a [tmdb_id], and the last call made
    was the request for the details of the movie whose [id] it
    carries. *)
Theorem lookup_record title year t r t' :
  _lookup_on_tmdb B w json_error tmdb_api_key title year t = (Val (Some r), t') →
  r.*1 = record_keys
  ∧ dict_lookup "media_type" r = Some (PStr "movie")
  ∧ dict_lookup "type" r = None
  ∧ dict_lookup "tmdb_id" r = None
  ∧ last t' = Some (EvHttp (details_request B tmdb_api_key (py_get r "id"))).
Proof.
  intros H. apply lookup_returns_record in H
    as (id & ? & ? & ? & ? & ? & ? & ? & ? & ? & t1 & -> & ->).
  repeat split; try reflexivity. by rewrite last_snoc.
Qed.

(** X29: when the search finds nothing, with the year and without it,
    [_lookup_on_tmdb] returns [None] after the search with the year
    and, only if a year was given, a second search without it; no
    details are requested. *)
Theorem lookup_not_found title year t :
  finds_nothing w (search_request tmdb_api_key title (searched_year year)) →
  finds_nothing w (search_request tmdb_api_key title None) →
  _lookup_on_tmdb B w json_error tmdb_api_key title year t
  = (Val None,
     t ++ EvHttp (search_request tmdb_api_key title (searched_year year))
       :: (if py_truthy year
           then [EvHttp (search_request tmdb_api_key title None)] else [])).
Proof.
  intros Hfirst Hsecond.
  destruct (Hfirst t) as (s & tx & d & Hsend & Hs & Hres).
  unfold _lookup_on_tmdb, try_except_request, search, searched_year in *.
  unfold bind at 1. unfold bind at 1. unfold send at 1. rewrite Hsend.
  unfold bind at 1. unfold raise_for_status. cbn [status_code]. rewrite Hs.
  cbn [ret]. unfold bind at 1. cbn [json_of json ret].
  unfold bind at 1. cbn [as_dict ret]. rewrite Hres.
  destruct (py_truthy year).
  - destruct (Hsecond (t ++ [EvHttp (search_request tmdb_api_key title (Some year))]))
      as (s2 & tx2 & d2 & Hsend2 & _ & Hres2).
    unfold bind at 1. unfold bind at 1. unfold send at 1. rewrite Hsend2.
    cbn [json_of json ret]. unfold bind at 1. cbn [as_dict ret].
    rewrite Hres2. cbn [ret]. by rewrite <- app_assoc.
  - unfold bind at 1. cbn [ret]. unfold bind at 1. cbn [as_dict ret].
    by rewrite Hres.
Qed.

Lemma lookup_all_records movies acc t releases t' :
  lookup_all B w json_error tmdb_api_key movies acc t = (Val releases, t') →
  Forall scraped_record acc →
  Forall scraped_record releases.
Proof.
  revert acc t. induction movies as [|m rest IH]; intros acc t.
  { by intros [[= <-] _]%ret_val. }
  cbn [lookup_all]. intros H Hacc.
  apply bind_val in H as ([r|] & t1 & Hlook & H); [|by apply (IH _ _ H)].
  destruct (py_truthy (PDict r)); [|by apply (IH _ _ H)].
  apply (IH _ _ H). apply Forall_app. split; [done|].
  apply Forall_singleton.
  apply lookup_returns_record in Hlook
    as (id & ? & ? & ? & ? & ? & ? & ? & ? & ? & t2 & -> & _).
  by split.
Qed.

(** X30: [get_todays_digital_releases] always returns a list, whatever
    the site, the parser and TMDB do; every release in it has the keys
    of the source with [media_type] set to movie and no [type], so
    that [add_media] of any Riven requester, given this list, adds
    nothing and makes no call. *)
Theorem todays_releases_never_added t :
  ∃ releases t',
    get_todays_digital_releases B w json_error soup_elements tmdb_api_key t
    = (Val releases, t')
    ∧ Forall scraped_record releases
    ∧ ∀ B' w' self t0,
        add_media B' w' self releases t0 = (Val nothing_done, t0).
Proof.
  assert (Hskip : ∀ releases, Forall scraped_record releases →
            ∀ B' w' self t0,
              add_media B' w' self releases t0 = (Val nothing_done, t0)).
  { intros releases Hall B' w' self t0. apply untyped_releases_skipped.
    eapply Forall_impl; [exact Hall|]. intros r [Hk _].
    by apply record_is_scraped. }
  unfold get_todays_digital_releases. unfold bind at 1. unfold try_except.
  match goal with
  | |- context [match ?body ?tr with _ => _ end] =>
      destruct (body tr) as [[releases|e] t1] eqn:Hbody
  end.
  2: { exists [], t1. split; [done|]. split; [constructor|]. by apply Hskip. }
  exists releases, t1. split; [done|].
  assert (Hall : Forall scraped_record releases).
  { apply bind_val in Hbody as (response & t2 & _ & H).
    apply bind_val in H as ([] & t3 & _ & H).
    apply bind_val in H as (soup & t4 & _ & H).
    destruct (_parse_releases soup _) as [|m ms].
    - apply ret_val in H as [-> _]. constructor.
    - by apply lookup_all_records in H. }
  split; [done|]. by apply Hskip.
Qed.

End ScrapedReleases.

Lemma parse_releases_sound_witness :
  ∃ l, under_header sample_page january_14 l
       ∧ Scraper.is_movie_link l = true
       ∧ "Dune" = Scraper.link_title l.
Proof.
  destruct (parse_releases_sound sample_page january_14) as [_ Hall].
  destruct (Hall {| Scraper.mi_title := "Dune"; Scraper.mi_year := 2025 |})
    as [_ Hl]; [|exact Hl].
  apply list_elem_of_In. vm_compute. tauto.
Defined.

Lemma parse_releases_under_header_witness :
  "Dune" ∈ titles (Scraper._parse_releases sample_page january_14).
Proof.
  apply (parse_releases_under_header
           [ {| Scraper.date_match := Some ("January", "7", "2025");
                Scraper.links := [ {| Scraper.href := "/movies/1/wicked";
                                      Scraper.link_title := "Wicked" |} ] |} ]
           {| Scraper.date_match := Some ("January", "14", "2025");
              Scraper.links := [ {| Scraper.href := "/movies/2/inception";
                                    Scraper.link_title := "Inception" |} ] |}
           ("January", "14", "2025")
           [ {| Scraper.date_match := None;
                Scraper.links := [ {| Scraper.href := "/movies/2/inception";
                                      Scraper.link_title := "Inception" |};
                                   {| Scraper.href := "/digital-releases/";
                                      Scraper.link_title := "Digital Releases" |} ] |};
             {| Scraper.date_match := None;
                Scraper.links := [ {| Scraper.href := "/movies/3/dune";
                                      Scraper.link_title := "Dune" |} ] |} ]
           january_14
           {| Scraper.date_match := None;
              Scraper.links := [ {| Scraper.href := "/movies/3/dune";
                                    Scraper.link_title := "Dune" |} ] |}
           {| Scraper.href := "/movies/3/dune"; Scraper.link_title := "Dune" |}).
  - reflexivity.
  - reflexivity.
  - repeat constructor.
  - apply list_elem_of_In. cbn. tauto.
  - apply list_elem_of_In. cbn. tauto.
  - reflexivity.
Defined.

Lemma us_certification_first_witness :
  Scraper._get_us_certification (PDict sample_release_dates) []
  = (Val (PStr "PG-13"), []).
Proof.
  apply (us_certification_first sample_release_dates sample_countries []).
  - reflexivity.
  - repeat constructor.
Defined.

Lemma lookup_record_witness :
  ∃ r t',
    Scraper._lookup_on_tmdb plain_builtins tmdb_world json_decode_error
      (PStr "key") "Inception" (PInt 2025) [] = (Val (Some r), t')
    ∧ r.*1 = record_keys
    ∧ dict_lookup "media_type" r = Some (PStr "movie")
    ∧ dict_lookup "type" r = None
    ∧ dict_lookup "tmdb_id" r = None
    ∧ last t'
      = Some (EvHttp (Scraper.details_request plain_builtins (PStr "key")
                        (py_get r "id"))).
Proof.
  eexists _, _. split; [vm_compute; reflexivity|].
  apply (lookup_record plain_builtins tmdb_world json_decode_error
           (PStr "key") "Inception" (PInt 2025) []).
  vm_compute. reflexivity.
Defined.

Lemma lookup_not_found_witness :
  Scraper._lookup_on_tmdb plain_builtins empty_tmdb_world json_decode_error
    (PStr "key") "Inception" (PInt 2025) []
  = (Val None,
     [EvHttp (Scraper.search_request (PStr "key") "Inception" (Some (PInt 2025)));
      EvHttp (Scraper.search_request (PStr "key") "Inception" None)]).
Proof.
  apply (lookup_not_found plain_builtins empty_tmdb_world json_decode_error
           (PStr "key") "Inception" (PInt 2025) []).
  - intros t. by exists 200, "", [("results", PList [])].
  - intros t. by exists 200, "", [("results", PList [])].
Defined.
